(** * Azure DevOps MCP server: credential provider and dispatch core

    A shallow embedding of the credential provider
    ([src/azure-devops-client.ts], lines 1-78), of the backend client
    methods the dispatch contracts talk about (same file), and of the
    dispatchers and tool tables of [src/index.ts] and
    [src/functions/mcp.ts].

    Conventions.
    - JavaScript values are the inductive [value]; numbers are restricted
      to integers ([Z]), printed as Number::toString prints the double
      they denote, and strings are sequences of bytes.
    - A [Date] is its time value in milliseconds, or [None] for an
      Invalid Date.
    - Promises created by the token request live in a store addressed by
      position; an [async] call either yields an already known value or
      the address of a promise it awaits.
    - Network partners (the identity provider and the REST service) are
      oracles passed in a record; every exchange and every HTTP request
      is written to a log kept in the state. *)

From Stdlib Require Import ZArith NArith List String Ascii Bool Lia.
From Stdlib Require Import DecimalString.
Import ListNotations.

Set Warnings "-register-all,-notation-for-abbreviation".

Local Open Scope string_scope.
Local Open Scope Z_scope.

(* ================================================================== *)
(** ** JavaScript values and errors *)
(* ================================================================== *)

Inductive value : Type :=
| VUndefined
| VNull
| VBool (b : bool)
| VNum (n : Z)
| VStr (s : string)
| VArr (items : list value)
| VObj (fields : list (string * value)).

(** What a [throw] carries.  Every error raised by the modelled code is
    an [Error] instance; [response_status] is [error.response?.status],
    present only on HTTP errors that came with a response. *)
Record js_error : Type := mkJsError {
  message : string;
  response_status : option Z
}.

Definition Error (msg : string) : js_error := mkJsError msg None.

(** Outcome of running a piece of code to its end: a value, a raised
    error, or an [await] on a promise that is never settled. *)
Inductive result (A : Type) : Type :=
| Ok (a : A)
| Thrown (e : js_error)
| Stuck.
Arguments Ok {A} a.
Arguments Thrown {A} e.
Arguments Stuck {A}.

(** ToBoolean. *)
Definition truthy (v : value) : bool :=
  match v with
  | VUndefined | VNull => false
  | VBool b => b
  | VNum n => negb (n =? 0)
  | VStr s => negb (s =? "")%string
  | VArr _ | VObj _ => true
  end.

Fixpoint assoc (k : string) (fs : list (string * value)) : value :=
  match fs with
  | [] => VUndefined
  | (k', v) :: rest => if (k =? k')%string then v else assoc k rest
  end.

(** The decimal digits of an integer. *)
Definition string_of_Z (n : Z) : string :=
  NilZero.string_of_int (Z.to_int n).

(** *** Number::toString on integers

    A Number is an IEEE 754 double.  [VNum n] stands for the Number that
    the integer [n] denotes as a literal or in a JSON text: the double
    nearest to it, ties going to the even mantissa.  Up to [2^53] that
    is [n] itself. *)

(** The Number value of [n >= 0]; [None] is [Infinity]. *)
Definition nearest_double (n : Z) : option Z :=
  if n <? 2 ^ 53 then Some n
  else
    let e := Z.log2 n - 52 in
    let m := Z.shiftr n e in
    let r := n - Z.shiftl m e in
    let half := Z.shiftl 1 (e - 1) in
    let m' := if (half <? r) || ((r =? half) && Z.odd m) then m + 1 else m in
    let x := Z.shiftl m' e in
    if x <? 2 ^ 1024 then Some x else None.

(** Whether the integer [v] denotes the double [x]. *)
Definition denotes (x v : Z) : bool :=
  match nearest_double v with
  | Some y => y =? x
  | None => false
  end.

(** Step 5 of Number::toString for an integral double [x]: the integer
    with the fewest significant digits that denotes [x], the nearest to
    [x] when there are two (the even one on a tie).  Multiples of
    [10^m] are tried from the largest [m] downwards. *)
Fixpoint shortest_digits (x : Z) (m : nat) : Z :=
  match m with
  | O => x
  | S m' =>
      let p := 10 ^ Z.of_nat m in
      let lo := (x / p) * p in
      let hi := lo + p in
      match denotes x lo, denotes x hi with
      | true, true =>
          if x - lo <? hi - x then lo
          else if hi - x <? x - lo then hi
          else if Z.even (x / p) then lo else hi
      | true, false => lo
      | false, true => hi
      | false, false => shortest_digits x m'
      end
  end.

Fixpoint strip_trailing_zeros (s : string) : string :=
  match s with
  | EmptyString => EmptyString
  | String c rest =>
      match strip_trailing_zeros rest with
      | EmptyString => if Ascii.eqb c "0" then EmptyString else String c EmptyString
      | r => String c r
      end
  end.

(** Steps 6 to 10: plain digits up to 21 of them, exponent form
    beyond. *)
Definition Number_toString (n : Z) : string :=
  let sign := if n <? 0 then "-" else "" in
  match nearest_double (Z.abs n) with
  | None => sign ++ "Infinity"
  | Some x =>
      let digits := string_of_Z (shortest_digits x (String.length (string_of_Z x))) in
      let n := String.length digits in
      if (n <=? 21)%nat then sign ++ digits
      else
        let e := "e+" ++ string_of_Z (Z.of_nat (n - 1)) in
        match strip_trailing_zeros digits with
        | String d EmptyString => sign ++ String d e
        | String d rest => sign ++ String d ("." ++ rest ++ e)
        | EmptyString => sign ++ digits
        end
  end.

Definition type_error_read (what key : string) : js_error :=
  Error ("Cannot read properties of " ++ what ++ " (reading '" ++ key ++ "')").

(** [v.key] where it does not throw: arrays and strings answer
    [length], anything else not stored is [undefined]; [None] stands for
    the TypeError raised on [undefined] and [null]. *)
Definition read_prop (v : value) (key : string) : option value :=
  match v with
  | VUndefined | VNull => None
  | VObj fs => Some (assoc key fs)
  | VArr l =>
      if (key =? "length")%string then Some (VNum (Z.of_nat (List.length l)))
      else Some VUndefined
  | VStr s =>
      if (key =? "length")%string then Some (VNum (Z.of_nat (String.length s)))
      else Some VUndefined
  | VBool _ | VNum _ => Some VUndefined
  end.

(** [v?.key]. *)
Definition opt_prop (v : value) (key : string) : value :=
  match read_prop v key with
  | Some x => x
  | None => VUndefined
  end.

(** [undefined] and [null], the values without properties. *)
Definition nullish (v : value) : bool :=
  match v with
  | VUndefined | VNull => true
  | _ => false
  end.

(** [a || b]. *)
Definition js_or (a b : value) : value := if truthy a then a else b.

Fixpoint join (sep : string) (parts : list string) : string :=
  match parts with
  | [] => ""
  | [p] => p
  | p :: rest => p ++ sep ++ join sep rest
  end.

(** ToString, as a template literal applies it. *)
Fixpoint to_string (v : value) : string :=
  match v with
  | VUndefined => "undefined"
  | VNull => "null"
  | VBool true => "true"
  | VBool false => "false"
  | VNum n => Number_toString n
  | VStr s => s
  | VArr l =>
      join "," (map (fun x => match x with
                              | VUndefined | VNull => ""
                              | _ => to_string x
                              end) l)
  | VObj _ => "[object Object]"
  end.

(* ================================================================== *)
(** ** Base64, as [Buffer.from(s).toString('base64')] *)
(* ================================================================== *)

Definition base64_alphabet : string :=
  "ABCDEFGHIJKLMNOPQRSTUVWXYZabcdefghijklmnopqrstuvwxyz0123456789+/".

Definition sextet (n : N) : string :=
  match String.get (N.to_nat n) base64_alphabet with
  | Some c => String c ""
  | None => ""
  end.

Fixpoint base64_bytes (bs : list N) : string :=
  match bs with
  | [] => ""
  | [a] =>
      sextet (N.shiftr a 2) ++ sextet (N.shiftl (N.land a 3) 4) ++ "=="
  | [a; b] =>
      sextet (N.shiftr a 2)
      ++ sextet (N.lor (N.shiftl (N.land a 3) 4) (N.shiftr b 4))
      ++ sextet (N.shiftl (N.land b 15) 2) ++ "="
  | a :: b :: c :: rest =>
      sextet (N.shiftr a 2)
      ++ sextet (N.lor (N.shiftl (N.land a 3) 4) (N.shiftr b 4))
      ++ sextet (N.lor (N.shiftl (N.land b 15) 2) (N.shiftr c 6))
      ++ sextet (N.land c 63)
      ++ base64_bytes rest
  end.

Definition base64 (s : string) : string :=
  base64_bytes (map N_of_ascii (list_ascii_of_string s)).

(* ================================================================== *)
(** ** Dates *)
(* ================================================================== *)

(** [new Date(t)]: time values beyond 8.64e15 ms give an Invalid Date. *)
Definition Date : Type := option Z.

Definition new_Date (t : Z) : Date :=
  if Z.abs t <=? 8640000000000000 then Some t else None.

(** [a > b] on Dates: numeric comparison of the time values, false as
    soon as one of them is NaN. *)
Definition date_gt (a b : Date) : bool :=
  match a, b with
  | Some x, Some y => y <? x
  | _, _ => false
  end.

(* ================================================================== *)
(** ** The credential provider (azure-devops-client.ts, lines 7-78) *)
(* ================================================================== *)

Definition AZURE_DEVOPS_SCOPE : string :=
  "499b84ac-1321-427f-aa17-267ca6975798/.default".

Record process_env : Type := mkEnv {
  AZURE_DEVOPS_PAT : option string;
  AZURE_DEVOPS_ORG_URL : option string
}.

(** [!!process.env.AZURE_DEVOPS_PAT]: an unset or empty variable selects
    the interactive mode. *)
Definition USE_PAT (env : process_env) : bool :=
  match AZURE_DEVOPS_PAT env with
  | Some s => negb (s =? "")%string
  | None => false
  end.

(** [process.env.AZURE_DEVOPS_PAT!] inside a template or as a value. *)
Definition pat_text (env : process_env) : string :=
  match AZURE_DEVOPS_PAT env with
  | Some s => s
  | None => "undefined"
  end.

Definition getAuthHeader (env : process_env) : result string :=
  if USE_PAT env then Ok ("Basic " ++ base64 (":" ++ pat_text env))
  else Thrown (Error "No PAT token available - use getAccessToken for OAuth flow").

Record token_cache : Type := mkCache {
  token : string;
  expiresOn : Date
}.

Inductive promise_state : Type :=
| Pending
| Fulfilled (t : string)
| Rejected (e : js_error).

(** The module-level variables, the promises made by the token request,
    and the log of [getToken] calls (one scope per upstream exchange). *)
Record cred_state : Type := mkCred {
  sharedCredential : bool;
  cachedToken : option token_cache;
  tokenPromise : option nat;
  promises : list promise_state;
  getToken_calls : list string
}.

Definition cred_init : cred_state := mkCred false None None [] [].

(** What the caller of an [async] function holds after the synchronous
    part of the call. *)
Inductive awaited : Type :=
| Resolved (t : string)
| Awaiting (p : nat).

(** Line 35: the cached token, when it is still good at time [now]. *)
Definition valid_cached (now : Z) (s : cred_state) : option string :=
  match cachedToken s with
  | Some c =>
      if date_gt (expiresOn c) (new_Date (now + 60000)) then Some (token c)
      else None
  | None => None
  end.

(** Lines 45-58 up to the [await]: the credential is created on first
    use, [getToken] is called, and the promise of the request becomes
    [tokenPromise].  Creating the credential and calling [getToken] are
    taken not to throw on the spot: [getToken] is an [async] method, so
    its failures arrive later, as a rejection. *)
Definition start_request (s : cred_state) : awaited * cred_state :=
  let p := List.length (promises s) in
  (Awaiting p,
   mkCred true (cachedToken s) (Some p) (promises s ++ [Pending])%list
          (getToken_calls s ++ [AZURE_DEVOPS_SCOPE])%list).

Definition getAccessToken (env : process_env) (now : Z) (s : cred_state)
  : awaited * cred_state :=
  if USE_PAT env then (Resolved (pat_text env), s)
  else
    match valid_cached now s with
    | Some t => (Resolved t, s)
    | None =>
        match tokenPromise s with
        | Some p => (Awaiting p, s)
        | None => start_request s
        end
    end.

(** What [sharedCredential.getToken] hands back. *)
Record AccessToken : Type := mkAccessToken {
  at_token : string;
  expiresOnTimestamp : Z
}.

Inductive getToken_result : Type :=
| GotToken (r : AccessToken)
| GotNull
| GetTokenRejected (e : js_error).

(** How the promise of the request ends for a given answer. *)
Definition settlement (r : getToken_result) : promise_state :=
  match r with
  | GotToken a => Fulfilled (at_token a)
  | GotNull => Rejected (Error "Failed to acquire access token")
  | GetTokenRejected e => Rejected e
  end.

Fixpoint settle (p : nat) (v : promise_state) (l : list promise_state)
  : list promise_state :=
  match l, p with
  | [], _ => []
  | _ :: rest, O => v :: rest
  | x :: rest, S p' => x :: settle p' v rest
  end.

(** Lines 59-74: the rest of the request once [getToken] has answered
    at time [now]; the [finally] block resets [tokenPromise]. *)
Definition complete_request (r : getToken_result) (now : Z) (s : cred_state)
  : cred_state :=
  match tokenPromise s with
  | None => s
  | Some p =>
      let cache :=
        match r with
        | GotToken a =>
            Some (mkCache (at_token a)
                    (if expiresOnTimestamp a =? 0
                     then new_Date (now + 3600 * 1000)
                     else new_Date (expiresOnTimestamp a)))
        | _ => cachedToken s
        end in
      mkCred (sharedCredential s) cache None
             (settle p (settlement r) (promises s)) (getToken_calls s)
  end.

(** What a holder of [h] sees in state [s]. *)
Definition outcome (h : awaited) (s : cred_state) : promise_state :=
  match h with
  | Resolved t => Fulfilled t
  | Awaiting p => nth p (promises s) Pending
  end.

(** *** Interleavings

    Between two suspension points the code runs alone, so a history of
    the provider is a sequence of calls and of answers of the identity
    provider, in any order. *)
Inductive event : Type :=
| EvCall (now : Z)
| EvAnswer (r : getToken_result) (now : Z).

Definition step (env : process_env) (ev : event) (s : cred_state)
  : list awaited * cred_state :=
  match ev with
  | EvCall now => let '(h, s') := getAccessToken env now s in ([h], s')
  | EvAnswer r now => ([], complete_request r now s)
  end.

Fixpoint run (env : process_env) (evs : list event) (s : cred_state)
  : list awaited * cred_state :=
  match evs with
  | [] => ([], s)
  | ev :: rest =>
      let '(hs, s1) := step env ev s in
      let '(hs', s2) := run env rest s1 in
      ((hs ++ hs')%list, s2)
  end.

(** The promise named by [tokenPromise] exists and is pending. *)
Definition in_flight_ok (s : cred_state) : Prop :=
  forall p, tokenPromise s = Some p -> nth_error (promises s) p = Some Pending.

(* ================================================================== *)
(** ** Programs over the suspension points of the backend *)
(* ================================================================== *)

(** The immutable part of an [AzureDevOpsClient] object. *)
Record AzureDevOpsClient : Type := mkClient {
  organization : string
}.

Inductive http_method : Type := GET | POST.

(** One outbound HTTP request.  [req_base] is the [baseURL] of the axios
    instance the request went through, [None] for a bare [axios.get].
    The constant [Content-Type: application/json] header is left out. *)
Record request : Type := mkRequest {
  req_base : option string;
  req_method : http_method;
  req_url : string;
  req_authorization : string;
  req_body : value
}.

(** Asynchronous code of the backend: a node is one [await], with the
    continuation for its value and the one for its rejection.
    [SingletonClient] is the one node that does not suspend: it is the
    call of [getClient()] in functions/mcp.ts, which may throw. *)
Inductive prog (A : Type) : Type :=
| Ret (a : A)
| Throw (e : js_error)
| AwaitAccessToken (k : string -> prog A) (h : js_error -> prog A)
| AwaitClient (self : AzureDevOpsClient)
    (k : unit -> prog A) (h : js_error -> prog A)
| ClientSend (m : http_method) (url : string) (body : value)
    (k : value -> prog A) (h : js_error -> prog A)
| AxiosGet (url : string) (authorization : string)
    (k : value -> prog A) (h : js_error -> prog A)
| SingletonClient (k : AzureDevOpsClient -> prog A) (h : js_error -> prog A).
Arguments Ret {A} a.
Arguments Throw {A} e.
Arguments AwaitAccessToken {A} k h.
Arguments AwaitClient {A} self k h.
Arguments ClientSend {A} m url body k h.
Arguments AxiosGet {A} url authorization k h.
Arguments SingletonClient {A} k h.

Fixpoint bind {A B : Type} (p : prog A) (f : A -> prog B) : prog B :=
  match p with
  | Ret a => f a
  | Throw e => Throw e
  | AwaitAccessToken k h =>
      AwaitAccessToken (fun t => bind (k t) f) (fun e => bind (h e) f)
  | AwaitClient self k h =>
      AwaitClient self (fun u => bind (k u) f) (fun e => bind (h e) f)
  | ClientSend m url body k h =>
      ClientSend m url body (fun v => bind (k v) f) (fun e => bind (h e) f)
  | AxiosGet url auth k h =>
      AxiosGet url auth (fun v => bind (k v) f) (fun e => bind (h e) f)
  | SingletonClient k h =>
      SingletonClient (fun c => bind (k c) f) (fun e => bind (h e) f)
  end.

(** [try { p } catch (error) { handler error }]. *)
Fixpoint try_catch {A : Type} (p : prog A) (handler : js_error -> prog A)
  : prog A :=
  match p with
  | Ret a => Ret a
  | Throw e => handler e
  | AwaitAccessToken k h =>
      AwaitAccessToken (fun t => try_catch (k t) handler)
                       (fun e => try_catch (h e) handler)
  | AwaitClient self k h =>
      AwaitClient self (fun u => try_catch (k u) handler)
                       (fun e => try_catch (h e) handler)
  | ClientSend m url body k h =>
      ClientSend m url body (fun v => try_catch (k v) handler)
                            (fun e => try_catch (h e) handler)
  | AxiosGet url auth k h =>
      AxiosGet url auth (fun v => try_catch (k v) handler)
                        (fun e => try_catch (h e) handler)
  | SingletonClient k h =>
      SingletonClient (fun c => try_catch (k c) handler)
                      (fun e => try_catch (h e) handler)
  end.

Notation "x <- p ;; q" := (bind p (fun x => q))
  (at level 61, p at next level, right associativity).

Definition getAccessToken_await : prog string := AwaitAccessToken Ret Throw.
Definition getClient (self : AzureDevOpsClient) : prog unit :=
  AwaitClient self Ret Throw.
Definition client_get (url : string) : prog value :=
  ClientSend GET url VUndefined Ret Throw.
Definition client_post (url : string) (body : value) : prog value :=
  ClientSend POST url body Ret Throw.
Definition axios_get (url authorization : string) : prog value :=
  AxiosGet url authorization Ret Throw.

(** [v.key] inside asynchronous code. *)
Definition get_prop (v : value) (key : string) : prog value :=
  match read_prop v key with
  | Some x => Ret x
  | None => Throw (type_error_read (to_string v) key)
  end.

(** [x === 0] and [error.response?.status === 404]. *)
Definition is_zero (v : value) : bool :=
  match v with
  | VNum 0 => true
  | _ => false
  end.

Definition status_is_404 (e : js_error) : bool :=
  match response_status e with
  | Some 404 => true
  | _ => false
  end.

(* ================================================================== *)
(** ** The world a program runs in *)
(* ================================================================== *)

(** An axios instance: its [baseURL] and its default [Authorization]
    header, which [getClient] overwrites in place. *)
Record axios_instance : Type := mkAxios {
  baseURL : string;
  authorization : string
}.

(** The state of one server process: the credential provider, the
    mutable fields of its one [AzureDevOpsClient] object ([axiosInstance]
    and [initialized]), the [azureClient] variable of functions/mcp.ts,
    the log of HTTP requests and the clock. *)
Record world : Type := mkWorld {
  cred : cred_state;
  axiosInstance : option axios_instance;
  initialized : bool;
  azureClient : option AzureDevOpsClient;
  sent : list request;
  time : Z
}.

Inductive http_result : Type :=
| Response (data : value)
| HttpError (e : js_error).

(** The two network partners.  The n-th token exchange and the n-th HTTP
    request are answered together with the time at which the answer
    arrives. *)
Record remote : Type := mkRemote {
  identity_provider : nat -> getToken_result * Z;
  rest_service : nat -> request -> http_result * Z
}.

Definition set_cred (w : world) (c : cred_state) (t : Z) : world :=
  mkWorld c (axiosInstance w) (initialized w) (azureClient w) (sent w) t.

Definition set_axios (w : world) (a : axios_instance) : world :=
  mkWorld (cred w) (Some a) true (azureClient w) (sent w) (time w).

Definition log_request (w : world) (r : request) (t : Z) : world :=
  mkWorld (cred w) (axiosInstance w) (initialized w) (azureClient w)
          (sent w ++ [r])%list t.

Definition set_singleton (w : world) (c : AzureDevOpsClient) : world :=
  mkWorld (cred w) (axiosInstance w) (initialized w) (Some c) (sent w) (time w).

(** The constructor's regular expression [/dev\.azure\.com\/([^\/]+)/]:
    the first place where the literal is followed by at least one
    character other than a slash; the capture runs up to the next slash. *)
Fixpoint strip_prefix (pre s : string) : option string :=
  match pre, s with
  | EmptyString, _ => Some s
  | String a pre', String b s' =>
      if Ascii.eqb a b then strip_prefix pre' s' else None
  | String _ _, EmptyString => None
  end.

Fixpoint segment (s : string) : string :=
  match s with
  | EmptyString => EmptyString
  | String c rest => if Ascii.eqb c "/" then EmptyString else String c (segment rest)
  end.

Fixpoint match_organization (s : string) : option string :=
  match s with
  | EmptyString => None
  | String _ rest =>
      match strip_prefix "dev.azure.com/" s with
      | Some after =>
          if (segment after =? "")%string then match_organization rest
          else Some (segment after)
      | None => match_organization rest
      end
  end.

(** [new AzureDevOpsClient()] (lines 148-161). *)
Definition new_AzureDevOpsClient (env : process_env) : result AzureDevOpsClient :=
  match AZURE_DEVOPS_ORG_URL env with
  | None =>
      Thrown (Error "AZURE_DEVOPS_ORG_URL is not defined in environment variables")
  | Some orgUrl =>
      if (orgUrl =? "")%string then
        Thrown (Error "AZURE_DEVOPS_ORG_URL is not defined in environment variables")
      else
        match match_organization orgUrl with
        | None =>
            Thrown (Error "Invalid AZURE_DEVOPS_ORG_URL format. Expected https://dev.azure.com/{organization}")
        | Some org => Ok (mkClient org)
        end
  end.

Section Execution.

Variable env : process_env.
Variable net : remote.

(** [await getAccessToken()], run to its end: a caller that has to
    wait is resumed when the request in flight is answered. *)
Definition run_getAccessToken (w : world) : result string * world :=
  let '(h, c1) := getAccessToken env (time w) (cred w) in
  match h with
  | Resolved t => (Ok t, set_cred w c1 (time w))
  | Awaiting p =>
      let '(r, t') := identity_provider net (Nat.pred (List.length (getToken_calls c1))) in
      let c2 := complete_request r t' c1 in
      (match nth p (promises c2) Pending with
       | Fulfilled t => Ok t
       | Rejected e => Thrown e
       | Pending => Stuck
       end, set_cred w c2 t')
  end.

(** [ensureInitialized] (lines 163-179). *)
Definition ensureInitialized (self : AzureDevOpsClient) (w : world)
  : result unit * world :=
  match axiosInstance w, initialized w with
  | Some _, true => (Ok tt, w)
  | _, _ =>
      let create (authHeader : string) (w' : world) :=
        set_axios w' (mkAxios ("https://dev.azure.com/" ++ organization self)
                              authHeader) in
      if USE_PAT env then
        match getAuthHeader env with
        | Ok authHeader => (Ok tt, create authHeader w)
        | Thrown e => (Thrown e, w)
        | Stuck => (Stuck, w)
        end
      else
        match run_getAccessToken w with
        | (Ok t, w1) => (Ok tt, create ("Bearer " ++ t) w1)
        | (Thrown e, w1) => (Thrown e, w1)
        | (Stuck, w1) => (Stuck, w1)
        end
  end.

(** The method [getClient] (lines 181-190). *)
Definition run_getClient (self : AzureDevOpsClient) (w : world)
  : result unit * world :=
  match ensureInitialized self w with
  | (Ok _, w1) =>
      if negb (USE_PAT env) then
        match run_getAccessToken w1 with
        | (Ok t, w2) =>
            (Ok tt,
             match axiosInstance w2 with
             | Some a => set_axios w2 (mkAxios (baseURL a) ("Bearer " ++ t))
             | None => w2
             end)
        | (Thrown e, w2) => (Thrown e, w2)
        | (Stuck, w2) => (Stuck, w2)
        end
      else (Ok tt, w1)
  | other => other
  end.

(** [client.get(url)] and [client.post(url, body)] on the shared
    instance. *)
Definition run_send (m : http_method) (url : string) (body : value) (w : world)
  : result value * world :=
  match axiosInstance w with
  | None =>
      (Thrown (type_error_read "null"
                 (match m with GET => "get" | POST => "post" end)), w)
  | Some a =>
      let r := mkRequest (Some (baseURL a)) m url (authorization a) body in
      let '(answer, t') := rest_service net (List.length (sent w)) r in
      (match answer with
       | Response data => Ok data
       | HttpError e => Thrown e
       end, log_request w r t')
  end.

(** [axios.get(url, { headers })], outside the shared instance. *)
Definition run_axios_get (url auth : string) (w : world)
  : result value * world :=
  let r := mkRequest None GET url auth VUndefined in
  let '(answer, t') := rest_service net (List.length (sent w)) r in
  (match answer with
   | Response data => Ok data
   | HttpError e => Thrown e
   end, log_request w r t').

(** [getClient()] of functions/mcp.ts: the client is built on first
    use and kept. *)
Definition run_singleton (w : world) : result AzureDevOpsClient * world :=
  match azureClient w with
  | Some c => (Ok c, w)
  | None =>
      match new_AzureDevOpsClient env with
      | Ok c => (Ok c, set_singleton w c)
      | other => (other, w)
      end
  end.

Fixpoint exec {A : Type} (p : prog A) (w : world) : result A * world :=
  match p with
  | Ret a => (Ok a, w)
  | Throw e => (Thrown e, w)
  | AwaitAccessToken k h =>
      match run_getAccessToken w with
      | (Ok x, w') => exec (k x) w'
      | (Thrown e, w') => exec (h e) w'
      | (Stuck, w') => (Stuck, w')
      end
  | AwaitClient self k h =>
      match run_getClient self w with
      | (Ok x, w') => exec (k x) w'
      | (Thrown e, w') => exec (h e) w'
      | (Stuck, w') => (Stuck, w')
      end
  | ClientSend m url body k h =>
      match run_send m url body w with
      | (Ok x, w') => exec (k x) w'
      | (Thrown e, w') => exec (h e) w'
      | (Stuck, w') => (Stuck, w')
      end
  | AxiosGet url auth k h =>
      match run_axios_get url auth w with
      | (Ok x, w') => exec (k x) w'
      | (Thrown e, w') => exec (h e) w'
      | (Stuck, w') => (Stuck, w')
      end
  | SingletonClient k h =>
      match run_singleton w with
      | (Ok x, w') => exec (k x) w'
      | (Thrown e, w') => exec (h e) w'
      | (Stuck, w') => (Stuck, w')
      end
  end.

End Execution.

(* ================================================================== *)
(** ** Backend client methods (azure-devops-client.ts) *)
(* ================================================================== *)

(** [arr.join(',')]; a value without that method raises. *)
Definition js_join (what : string) (v : value) : prog string :=
  match v with
  | VArr _ => Ret (to_string v)
  | _ => Throw (Error (what ++ ".join is not a function"))
  end.

(** [arr.map((wi) => wi.id)]. *)
Fixpoint map_id (l : list value) : prog (list value) :=
  match l with
  | [] => Ret []
  | wi :: rest =>
      i <- get_prop wi "id" ;;
      is_ <- map_id rest ;;
      Ret (i :: is_)
  end.

Definition js_map_id (what : string) (v : value) : prog value :=
  match v with
  | VArr l => ids <- map_id l ;; Ret (VArr ids)
  | _ => Throw (Error (what ++ ".map is not a function"))
  end.

(** Lines 200-208. *)
Definition getWorkItems (self : AzureDevOpsClient) (ids project : value)
  : prog value :=
  len <- get_prop ids "length" ;;
  if is_zero len then Ret (VArr [])
  else
    _ <- getClient self ;;
    idsString <- js_join "ids" ids ;;
    response_data <-
      client_get ("/" ++ to_string project ++ "/_apis/wit/workitems?ids="
                  ++ idsString ++ "&api-version=7.1") ;;
    get_prop response_data "value".

(** Lines 210-222. *)
Definition queryWorkItems (self : AzureDevOpsClient) (wiql project : value)
  : prog value :=
  _ <- getClient self ;;
  response_data <-
    client_post ("/" ++ to_string project ++ "/_apis/wit/wiql?api-version=7.1")
                (VObj [("query", wiql)]) ;;
  workItemRefs <- get_prop response_data "workItems" ;;
  if negb (truthy workItemRefs) || is_zero (opt_prop workItemRefs "length")
  then Ret (VArr [])
  else
    ids <- js_map_id "workItemRefs" workItemRefs ;;
    getWorkItems self ids project.

(** Lines 448-460. *)
Definition getTeamMembers (self : AzureDevOpsClient) (project team : value)
  : prog value :=
  _ <- getClient self ;;
  let url := "/_apis/projects/" ++ to_string project ++ "/teams/"
             ++ to_string team ++ "/members?api-version=7.1" in
  try_catch
    (response_data <- client_get url ;;
     v <- get_prop response_data "value" ;;
     Ret (js_or v (VArr [])))
    (fun error =>
       if status_is_404 error then Ret (VArr []) else Throw error).

(** Lines 688-710. *)
Definition getPullRequestById (self : AzureDevOpsClient)
  (project repositoryId pullRequestId : value) : prog value :=
  _ <- getClient self ;;
  pr <-
    client_get ("/" ++ to_string project ++ "/_apis/git/repositories/"
                ++ to_string repositoryId ++ "/pullrequests/"
                ++ to_string pullRequestId ++ "?api-version=7.1") ;;
  pullRequestId' <- get_prop pr "pullRequestId" ;;
  repository <- get_prop pr "repository" ;;
  title <- get_prop pr "title" ;;
  description <- get_prop pr "description" ;;
  createdBy <- get_prop pr "createdBy" ;;
  creationDate <- get_prop pr "creationDate" ;;
  status <- get_prop pr "status" ;;
  sourceRefName <- get_prop pr "sourceRefName" ;;
  targetRefName <- get_prop pr "targetRefName" ;;
  isDraft <- get_prop pr "isDraft" ;;
  Ret (VObj [("pullRequestId", pullRequestId');
             ("repository", repository);
             ("title", title);
             ("description", description);
             ("createdBy", createdBy);
             ("creationDate", creationDate);
             ("status", status);
             ("sourceRefName", sourceRefName);
             ("targetRefName", targetRefName);
             ("isDraft", isDraft)]).

(** The serializer of [URLSearchParams]: letters, digits and [*-._] are
    kept, a space becomes [+], any other byte is percent-encoded. *)
Definition hex_digit (n : N) : string :=
  match String.get (N.to_nat n) "0123456789ABCDEF" with
  | Some c => String c ""
  | None => ""
  end.

Definition form_byte (c : ascii) : string :=
  let n := N_of_ascii c in
  if ((48 <=? n) && (n <=? 57) || (65 <=? n) && (n <=? 90)
      || (97 <=? n) && (n <=? 122) || (n =? 42) || (n =? 45)
      || (n =? 46) || (n =? 95))%N
  then String c ""
  else if (n =? 32)%N then "+"
  else "%" ++ hex_digit (N.shiftr n 4) ++ hex_digit (N.land n 15).

Fixpoint form_urlencode (s : string) : string :=
  match s with
  | EmptyString => EmptyString
  | String c rest => form_byte c ++ form_urlencode rest
  end.

(** Lines 992-1007. *)
Definition searchIdentities (self : AzureDevOpsClient) (searchFilter : value)
  : prog value :=
  token <- getAccessToken_await ;;
  let url := "https://vssps.dev.azure.com/" ++ organization self
             ++ "/_apis/identities" in
  let params := "api-version=7.1&searchFilter=General&filterValue="
                ++ form_urlencode (to_string searchFilter) in
  axios_get (url ++ "?" ++ params) ("Bearer " ++ token).

(** Lines 1255-1272. *)
Definition getAdvancedSecurityAlertDetails (self : AzureDevOpsClient)
  (project repositoryId alertId : value) : prog value :=
  _ <- getClient self ;;
  let url := "/" ++ to_string project ++ "/_apis/alert/repositories/"
             ++ to_string repositoryId ++ "/alerts/" ++ to_string alertId
             ++ "?api-version=7.1-preview.1" in
  try_catch
    (client_get url)
    (fun error =>
       if status_is_404 error then Ret VNull else Throw error).

(* ================================================================== *)
(** ** The tool tables *)
(* ================================================================== *)

(** An input schema: the keys of [properties] with the [type] of each
    (the rest of a property's sub-schema is left out), and [required]
    when the literal has one. *)
Record schema : Type := mkSchema {
  properties : list (string * string);
  required : option (list string)
}.

Record tool : Type := mkTool {
  name : string;
  description : string;
  inputSchema : schema
}.

(** index.ts, [const tools: Tool[]] (lines 31-629), in source order. *)
Definition tools : list tool :=
  [
    mkTool "list_projects"
      "List all projects in the Azure DevOps organization"
      (mkSchema []
         None);
    mkTool "list_project_teams"
      "List teams for a project"
      (mkSchema [("project", "string"); ("mine", "boolean"); ("top", "number")]
         (Some ["project"]));
    mkTool "list_team_members"
      "List members of a team"
      (mkSchema [("project", "string"); ("team", "string")]
         (Some ["project"; "team"]));
    mkTool "query_work_items"
      "Query work items using WIQL (Work Item Query Language)"
      (mkSchema [("project", "string"); ("wiql", "string")]
         (Some ["project"; "wiql"]));
    mkTool "get_work_items_by_ids"
      "Get work items by their IDs"
      (mkSchema [("project", "string"); ("ids", "array")]
         (Some ["project"; "ids"]));
    mkTool "create_work_item"
      "Create a new work item"
      (mkSchema [("project", "string"); ("workItemType", "string"); ("title", "string"); ("description", "string"); ("additionalFields", "object")]
         (Some ["project"; "workItemType"; "title"]));
    mkTool "update_work_item"
      "Update fields of an existing work item"
      (mkSchema [("project", "string"); ("id", "number"); ("fields", "object"); ("comment", "string")]
         (Some ["project"; "id"; "fields"]));
    mkTool "list_work_item_types"
      "List work item types available in a project"
      (mkSchema [("project", "string")]
         (Some ["project"]));
    mkTool "list_repositories"
      "List Git repositories in a project"
      (mkSchema [("project", "string")]
         (Some ["project"]));
    mkTool "list_branches"
      "List branches in a repository"
      (mkSchema [("project", "string"); ("repositoryId", "string")]
         (Some ["project"; "repositoryId"]));
    mkTool "list_commits"
      "List commits in a repository"
      (mkSchema [("project", "string"); ("repositoryId", "string"); ("top", "number")]
         (Some ["project"; "repositoryId"]));
    mkTool "get_file_content"
      "Get content of a file in a repository"
      (mkSchema [("project", "string"); ("repositoryId", "string"); ("path", "string")]
         (Some ["project"; "repositoryId"; "path"]));
    mkTool "list_pull_requests"
      "List pull requests in a project"
      (mkSchema [("project", "string"); ("repositoryId", "string"); ("status", "string"); ("top", "number")]
         (Some ["project"]));
    mkTool "get_pull_request"
      "Get details of a specific pull request"
      (mkSchema [("project", "string"); ("repositoryId", "string"); ("pullRequestId", "number")]
         (Some ["project"; "repositoryId"; "pullRequestId"]));
    mkTool "create_pull_request"
      "Create a new pull request"
      (mkSchema [("project", "string"); ("repositoryId", "string"); ("sourceBranch", "string"); ("targetBranch", "string"); ("title", "string"); ("description", "string")]
         (Some ["project"; "repositoryId"; "sourceBranch"; "targetBranch"; "title"]));
    mkTool "get_builds"
      "Get recent builds for a project"
      (mkSchema [("project", "string"); ("definitionId", "number"); ("top", "number")]
         (Some ["project"]));
    mkTool "list_build_definitions"
      "List build definitions (pipelines) for a project"
      (mkSchema [("project", "string")]
         (Some ["project"]));
    mkTool "list_pipelines"
      "List YAML pipelines in a project"
      (mkSchema [("project", "string")]
         (Some ["project"]));
    mkTool "list_iterations"
      "List iterations (sprints) for a project"
      (mkSchema [("project", "string")]
         (Some ["project"]));
    mkTool "list_team_iterations"
      "List iterations for a team"
      (mkSchema [("project", "string"); ("team", "string")]
         (Some ["project"; "team"]));
    mkTool "list_areas"
      "List areas (classification nodes) in a project"
      (mkSchema [("project", "string")]
         (Some ["project"]));
    mkTool "search_code"
      "Search for code across repositories"
      (mkSchema [("searchText", "string"); ("project", "string"); ("repository", "string"); ("top", "number")]
         (Some ["searchText"]));
    mkTool "search_work_items"
      "Search for work items using text search"
      (mkSchema [("searchText", "string"); ("project", "string"); ("top", "number")]
         (Some ["searchText"]));
    mkTool "get_identity_ids"
      "Search for Azure DevOps identity IDs"
      (mkSchema [("searchFilter", "string")]
         (Some ["searchFilter"]));
    mkTool "get_current_user"
      "Get the currently authenticated user details"
      (mkSchema []
         None);
    mkTool "list_boards"
      "List boards for a team"
      (mkSchema [("project", "string"); ("team", "string")]
         (Some ["project"; "team"]));
    mkTool "list_queries"
      "List saved work item queries"
      (mkSchema [("project", "string")]
         (Some ["project"]));
    mkTool "get_work_item_revisions"
      "Get revision history of a work item"
      (mkSchema [("project", "string"); ("id", "number")]
         (Some ["project"; "id"]));
    mkTool "get_work_item_comments"
      "Get comments for a work item"
      (mkSchema [("project", "string"); ("id", "number")]
         (Some ["project"; "id"]));
    mkTool "list_wikis"
      "List wikis in a project"
      (mkSchema [("project", "string")]
         (Some ["project"]));
    mkTool "get_wiki_page"
      "Get content of a wiki page"
      (mkSchema [("project", "string"); ("wikiIdentifier", "string"); ("path", "string")]
         (Some ["project"; "wikiIdentifier"]));
    mkTool "list_test_plans"
      "List test plans in a project"
      (mkSchema [("project", "string")]
         (Some ["project"]))
  ].

(** index.ts, second listing of the file: the entries its [tools] array
    adds after the thirty-two above, in source order. *)
Definition tools_added : list tool :=
  [
    mkTool "get_repository"
      "Get details of a specific repository"
      (mkSchema [("project", "string"); ("repositoryId", "string")]
         (Some ["project"; "repositoryId"]));
    mkTool "get_branch"
      "Get details of a specific branch"
      (mkSchema [("project", "string"); ("repositoryId", "string"); ("branchName", "string")]
         (Some ["project"; "repositoryId"; "branchName"]));
    mkTool "create_branch"
      "Create a new branch in a repository"
      (mkSchema [("project", "string"); ("repositoryId", "string"); ("name", "string"); ("sourceBranch", "string")]
         (Some ["project"; "repositoryId"; "name"; "sourceBranch"]));
    mkTool "search_commits"
      "Search commits with criteria"
      (mkSchema [("project", "string"); ("repositoryId", "string"); ("searchCriteria", "object"); ("top", "number")]
         (Some ["project"; "repositoryId"; "searchCriteria"]));
    mkTool "update_work_items_batch"
      "Update multiple work items in a batch"
      (mkSchema [("project", "string"); ("updates", "array")]
         (Some ["project"; "updates"]));
    mkTool "add_child_work_items"
      "Add child work items to a parent"
      (mkSchema [("project", "string"); ("parentId", "number"); ("childIds", "array")]
         (Some ["project"; "parentId"; "childIds"]));
    mkTool "link_work_items"
      "Link two work items together"
      (mkSchema [("project", "string"); ("sourceId", "number"); ("targetId", "number"); ("linkType", "string")]
         (Some ["project"; "sourceId"; "targetId"]));
    mkTool "add_work_item_comment"
      "Add a comment to a work item"
      (mkSchema [("project", "string"); ("workItemId", "number"); ("text", "string")]
         (Some ["project"; "workItemId"; "text"]));
    mkTool "get_my_work_items"
      "Get work items assigned to or created by current user"
      (mkSchema [("project", "string"); ("assignedToMe", "boolean")]
         (Some ["project"]));
    mkTool "get_work_items_for_iteration"
      "Get work items for a specific iteration"
      (mkSchema [("project", "string"); ("iterationPath", "string")]
         (Some ["project"; "iterationPath"]));
    mkTool "list_backlogs"
      "List backlogs for a team"
      (mkSchema [("project", "string"); ("team", "string")]
         (Some ["project"; "team"]));
    mkTool "list_backlog_work_items"
      "List work items in a backlog"
      (mkSchema [("project", "string"); ("team", "string"); ("backlogId", "string")]
         (Some ["project"; "team"; "backlogId"]));
    mkTool "update_pull_request"
      "Update a pull request"
      (mkSchema [("project", "string"); ("repositoryId", "string"); ("pullRequestId", "number"); ("updates", "object")]
         (Some ["project"; "repositoryId"; "pullRequestId"; "updates"]));
    mkTool "update_pull_request_reviewers"
      "Update reviewers for a pull request"
      (mkSchema [("project", "string"); ("repositoryId", "string"); ("pullRequestId", "number"); ("reviewers", "array")]
         (Some ["project"; "repositoryId"; "pullRequestId"; "reviewers"]));
    mkTool "list_pull_request_threads"
      "List threads in a pull request"
      (mkSchema [("project", "string"); ("repositoryId", "string"); ("pullRequestId", "number")]
         (Some ["project"; "repositoryId"; "pullRequestId"]));
    mkTool "create_pull_request_thread"
      "Create a new thread in a pull request"
      (mkSchema [("project", "string"); ("repositoryId", "string"); ("pullRequestId", "number"); ("thread", "object")]
         (Some ["project"; "repositoryId"; "pullRequestId"; "thread"]));
    mkTool "reply_to_pull_request_comment"
      "Reply to a pull request comment"
      (mkSchema [("project", "string"); ("repositoryId", "string"); ("pullRequestId", "number"); ("threadId", "number"); ("comment", "object")]
         (Some ["project"; "repositoryId"; "pullRequestId"; "threadId"; "comment"]));
    mkTool "get_build_status"
      "Get status of a specific build"
      (mkSchema [("project", "string"); ("buildId", "number")]
         (Some ["project"; "buildId"]));
    mkTool "get_build_log"
      "Get logs for a build"
      (mkSchema [("project", "string"); ("buildId", "number")]
         (Some ["project"; "buildId"]));
    mkTool "run_pipeline"
      "Trigger a pipeline run"
      (mkSchema [("project", "string"); ("pipelineId", "number"); ("parameters", "object")]
         (Some ["project"; "pipelineId"]));
    mkTool "get_pipeline_run"
      "Get details of a pipeline run"
      (mkSchema [("project", "string"); ("pipelineId", "number"); ("runId", "number")]
         (Some ["project"; "pipelineId"; "runId"]));
    mkTool "list_pipeline_runs"
      "List runs for a pipeline"
      (mkSchema [("project", "string"); ("pipelineId", "number"); ("top", "number")]
         (Some ["project"; "pipelineId"]));
    mkTool "create_iteration"
      "Create a single iteration (sprint) with optional start and end dates"
      (mkSchema [("project", "string"); ("name", "string"); ("startDate", "string"); ("finishDate", "string"); ("parentPath", "string")]
         (Some ["project"; "name"]));
    mkTool "create_iterations"
      "Create multiple iterations (sprints) in batch. Each iteration can have name, startDate, finishDate, and optional parentPath."
      (mkSchema [("project", "string"); ("iterations", "array")]
         (Some ["project"; "iterations"]));
    mkTool "get_team_capacity"
      "Get team capacity for an iteration"
      (mkSchema [("project", "string"); ("team", "string"); ("iterationId", "string")]
         (Some ["project"; "team"; "iterationId"]));
    mkTool "update_team_capacity"
      "Update team capacity for an iteration"
      (mkSchema [("project", "string"); ("team", "string"); ("iterationId", "string"); ("capacities", "array")]
         (Some ["project"; "team"; "iterationId"; "capacities"]));
    mkTool "get_wiki"
      "Get details of a specific wiki"
      (mkSchema [("project", "string"); ("wikiIdentifier", "string")]
         (Some ["project"; "wikiIdentifier"]));
    mkTool "list_wiki_pages"
      "List pages in a wiki"
      (mkSchema [("project", "string"); ("wikiIdentifier", "string"); ("path", "string")]
         (Some ["project"; "wikiIdentifier"]));
    mkTool "create_or_update_wiki_page"
      "Create or update a wiki page"
      (mkSchema [("project", "string"); ("wikiIdentifier", "string"); ("path", "string"); ("content", "string"); ("comment", "string")]
         (Some ["project"; "wikiIdentifier"; "path"; "content"]));
    mkTool "create_test_plan"
      "Create a new test plan"
      (mkSchema [("project", "string"); ("name", "string"); ("description", "string")]
         (Some ["project"; "name"]));
    mkTool "list_test_suites"
      "List test suites in a test plan"
      (mkSchema [("project", "string"); ("planId", "number")]
         (Some ["project"; "planId"]));
    mkTool "create_test_suite"
      "Create a test suite in a test plan"
      (mkSchema [("project", "string"); ("planId", "number"); ("name", "string"); ("suiteType", "string")]
         (Some ["project"; "planId"; "name"]));
    mkTool "list_test_cases"
      "List test cases in a test suite"
      (mkSchema [("project", "string"); ("planId", "number"); ("suiteId", "number")]
         (Some ["project"; "planId"; "suiteId"]));
    mkTool "create_test_case"
      "Create a new test case"
      (mkSchema [("project", "string"); ("title", "string"); ("steps", "array")]
         (Some ["project"; "title"]));
    mkTool "search_wiki"
      "Search wiki pages"
      (mkSchema [("searchText", "string"); ("project", "string"); ("wikiIdentifier", "string"); ("top", "number")]
         (Some ["searchText"]));
    mkTool "get_advanced_security_alerts"
      "Get advanced security alerts for a repository"
      (mkSchema [("project", "string"); ("repositoryId", "string"); ("severity", "string"); ("state", "string"); ("top", "number")]
         (Some ["project"; "repositoryId"]));
    mkTool "get_advanced_security_alert_details"
      "Get details of a specific security alert"
      (mkSchema [("project", "string"); ("repositoryId", "string"); ("alertId", "string")]
         (Some ["project"; "repositoryId"; "alertId"]))
  ].

(** functions/mcp.ts, [getToolDefinitions] (lines 204-296), in source order. *)
Definition getToolDefinitions : list tool :=
  [
    mkTool "list_projects"
      "List all projects in the Azure DevOps organization"
      (mkSchema []
         None);
    mkTool "list_project_teams"
      "List teams for a project"
      (mkSchema [("project", "string")]
         (Some ["project"]));
    mkTool "list_team_members"
      "List members of a team"
      (mkSchema [("project", "string"); ("team", "string")]
         (Some ["project"; "team"]));
    mkTool "query_work_items"
      "Query work items using WIQL"
      (mkSchema [("project", "string"); ("wiql", "string")]
         (Some ["project"; "wiql"]));
    mkTool "get_work_items_by_ids"
      "Get work items by their IDs"
      (mkSchema [("project", "string"); ("ids", "array")]
         (Some ["project"; "ids"]));
    mkTool "create_work_item"
      "Create a new work item"
      (mkSchema [("project", "string"); ("workItemType", "string"); ("title", "string"); ("description", "string"); ("additionalFields", "object")]
         (Some ["project"; "workItemType"; "title"]));
    mkTool "update_work_item"
      "Update an existing work item"
      (mkSchema [("project", "string"); ("id", "number"); ("fields", "object"); ("comment", "string")]
         (Some ["project"; "id"; "fields"]));
    mkTool "update_work_items_batch"
      "Update multiple work items in batch"
      (mkSchema [("project", "string"); ("updates", "array")]
         (Some ["project"; "updates"]));
    mkTool "add_child_work_items"
      "Add child work items to a parent"
      (mkSchema [("project", "string"); ("parentId", "number"); ("childIds", "array")]
         (Some ["project"; "parentId"; "childIds"]));
    mkTool "link_work_items"
      "Link two work items"
      (mkSchema [("project", "string"); ("sourceId", "number"); ("targetId", "number"); ("linkType", "string")]
         (Some ["project"; "sourceId"; "targetId"]));
    mkTool "unlink_work_item"
      "Remove a link from a work item"
      (mkSchema [("project", "string"); ("workItemId", "number"); ("relationId", "string")]
         (Some ["project"; "workItemId"; "relationId"]));
    mkTool "add_work_item_comment"
      "Add a comment to a work item"
      (mkSchema [("project", "string"); ("workItemId", "number"); ("text", "string")]
         (Some ["project"; "workItemId"; "text"]));
    mkTool "get_work_item_comments"
      "Get comments for a work item"
      (mkSchema [("project", "string"); ("id", "number")]
         (Some ["project"; "id"]));
    mkTool "get_work_item_revisions"
      "Get revision history for a work item"
      (mkSchema [("project", "string"); ("id", "number")]
         (Some ["project"; "id"]));
    mkTool "list_work_item_types"
      "List available work item types"
      (mkSchema [("project", "string")]
         (Some ["project"]));
    mkTool "get_my_work_items"
      "Get work items assigned to or created by current user"
      (mkSchema [("project", "string"); ("assignedToMe", "boolean")]
         (Some ["project"]));
    mkTool "get_work_items_for_iteration"
      "Get work items for a specific iteration"
      (mkSchema [("project", "string"); ("iterationPath", "string")]
         (Some ["project"; "iterationPath"]));
    mkTool "list_backlogs"
      "List backlogs for a team"
      (mkSchema [("project", "string"); ("team", "string")]
         (Some ["project"; "team"]));
    mkTool "list_backlog_work_items"
      "List work items in a backlog"
      (mkSchema [("project", "string"); ("team", "string"); ("backlogId", "string")]
         (Some ["project"; "team"; "backlogId"]));
    mkTool "get_query_results"
      "Execute a saved query"
      (mkSchema [("project", "string"); ("queryId", "string")]
         (Some ["project"; "queryId"]));
    mkTool "list_repositories"
      "List Git repositories in a project"
      (mkSchema [("project", "string")]
         (Some ["project"]));
    mkTool "get_repository"
      "Get repository details"
      (mkSchema [("project", "string"); ("repositoryId", "string")]
         (Some ["project"; "repositoryId"]));
    mkTool "list_branches"
      "List branches in a repository"
      (mkSchema [("project", "string"); ("repositoryId", "string")]
         (Some ["project"; "repositoryId"]));
    mkTool "get_branch"
      "Get branch details"
      (mkSchema [("project", "string"); ("repositoryId", "string"); ("branchName", "string")]
         (Some ["project"; "repositoryId"; "branchName"]));
    mkTool "create_branch"
      "Create a new branch"
      (mkSchema [("project", "string"); ("repositoryId", "string"); ("name", "string"); ("sourceBranch", "string")]
         (Some ["project"; "repositoryId"; "name"; "sourceBranch"]));
    mkTool "list_commits"
      "List commits in a repository"
      (mkSchema [("project", "string"); ("repositoryId", "string"); ("top", "number")]
         (Some ["project"; "repositoryId"]));
    mkTool "search_commits"
      "Search commits with criteria"
      (mkSchema [("project", "string"); ("repositoryId", "string"); ("searchCriteria", "object"); ("top", "number")]
         (Some ["project"; "repositoryId"; "searchCriteria"]));
    mkTool "get_file_content"
      "Get file content from repository"
      (mkSchema [("project", "string"); ("repositoryId", "string"); ("path", "string")]
         (Some ["project"; "repositoryId"; "path"]));
    mkTool "list_pull_requests"
      "List pull requests"
      (mkSchema [("project", "string"); ("repositoryId", "string"); ("status", "string"); ("top", "number")]
         (Some ["project"]));
    mkTool "get_pull_request"
      "Get pull request details"
      (mkSchema [("project", "string"); ("repositoryId", "string"); ("pullRequestId", "number")]
         (Some ["project"; "repositoryId"; "pullRequestId"]));
    mkTool "create_pull_request"
      "Create a new pull request"
      (mkSchema [("project", "string"); ("repositoryId", "string"); ("sourceBranch", "string"); ("targetBranch", "string"); ("title", "string"); ("description", "string")]
         (Some ["project"; "repositoryId"; "sourceBranch"; "targetBranch"; "title"]));
    mkTool "update_pull_request"
      "Update a pull request"
      (mkSchema [("project", "string"); ("repositoryId", "string"); ("pullRequestId", "number"); ("updates", "object")]
         (Some ["project"; "repositoryId"; "pullRequestId"; "updates"]));
    mkTool "update_pull_request_reviewers"
      "Update PR reviewers"
      (mkSchema [("project", "string"); ("repositoryId", "string"); ("pullRequestId", "number"); ("reviewers", "array")]
         (Some ["project"; "repositoryId"; "pullRequestId"; "reviewers"]));
    mkTool "list_pull_request_threads"
      "List PR comment threads"
      (mkSchema [("project", "string"); ("repositoryId", "string"); ("pullRequestId", "number")]
         (Some ["project"; "repositoryId"; "pullRequestId"]));
    mkTool "create_pull_request_thread"
      "Create a comment thread on PR"
      (mkSchema [("project", "string"); ("repositoryId", "string"); ("pullRequestId", "number"); ("thread", "object")]
         (Some ["project"; "repositoryId"; "pullRequestId"; "thread"]));
    mkTool "reply_to_pull_request_comment"
      "Reply to a PR comment"
      (mkSchema [("project", "string"); ("repositoryId", "string"); ("pullRequestId", "number"); ("threadId", "number"); ("comment", "object")]
         (Some ["project"; "repositoryId"; "pullRequestId"; "threadId"; "comment"]));
    mkTool "get_builds"
      "List builds"
      (mkSchema [("project", "string"); ("definitionId", "number"); ("top", "number")]
         (Some ["project"]));
    mkTool "get_build_status"
      "Get build status"
      (mkSchema [("project", "string"); ("buildId", "number")]
         (Some ["project"; "buildId"]));
    mkTool "get_build_log"
      "Get build logs"
      (mkSchema [("project", "string"); ("buildId", "number")]
         (Some ["project"; "buildId"]));
    mkTool "list_build_definitions"
      "List build definitions"
      (mkSchema [("project", "string")]
         (Some ["project"]));
    mkTool "list_pipelines"
      "List pipelines"
      (mkSchema [("project", "string")]
         (Some ["project"]));
    mkTool "run_pipeline"
      "Trigger a pipeline run"
      (mkSchema [("project", "string"); ("pipelineId", "number"); ("parameters", "object")]
         (Some ["project"; "pipelineId"]));
    mkTool "get_pipeline_run"
      "Get pipeline run details"
      (mkSchema [("project", "string"); ("pipelineId", "number"); ("runId", "number")]
         (Some ["project"; "pipelineId"; "runId"]));
    mkTool "list_pipeline_runs"
      "List pipeline runs"
      (mkSchema [("project", "string"); ("pipelineId", "number"); ("top", "number")]
         (Some ["project"; "pipelineId"]));
    mkTool "list_iterations"
      "List project iterations"
      (mkSchema [("project", "string")]
         (Some ["project"]));
    mkTool "list_team_iterations"
      "List team iterations"
      (mkSchema [("project", "string"); ("team", "string")]
         (Some ["project"; "team"]));
    mkTool "list_areas"
      "List project areas"
      (mkSchema [("project", "string")]
         (Some ["project"]));
    mkTool "get_team_capacity"
      "Get team capacity for an iteration"
      (mkSchema [("project", "string"); ("team", "string"); ("iterationId", "string")]
         (Some ["project"; "team"; "iterationId"]));
    mkTool "search_code"
      "Search code across repositories"
      (mkSchema [("searchText", "string"); ("project", "string"); ("repository", "string"); ("top", "number")]
         (Some ["searchText"]));
    mkTool "search_work_items"
      "Search work items"
      (mkSchema [("searchText", "string"); ("project", "string"); ("top", "number")]
         (Some ["searchText"]));
    mkTool "search_wiki"
      "Search wiki pages"
      (mkSchema [("searchText", "string"); ("project", "string"); ("wikiIdentifier", "string"); ("top", "number")]
         (Some ["searchText"]));
    mkTool "get_identity_ids"
      "Search for user identities"
      (mkSchema [("searchFilter", "string")]
         (Some ["searchFilter"]));
    mkTool "get_current_user"
      "Get current authenticated user info"
      (mkSchema []
         None);
    mkTool "list_boards"
      "List team boards"
      (mkSchema [("project", "string"); ("team", "string")]
         (Some ["project"; "team"]));
    mkTool "list_queries"
      "List saved queries"
      (mkSchema [("project", "string")]
         (Some ["project"]));
    mkTool "list_wikis"
      "List wikis in a project"
      (mkSchema [("project", "string")]
         (Some ["project"]));
    mkTool "get_wiki"
      "Get wiki details"
      (mkSchema [("project", "string"); ("wikiIdentifier", "string")]
         (Some ["project"; "wikiIdentifier"]));
    mkTool "list_wiki_pages"
      "List wiki pages"
      (mkSchema [("project", "string"); ("wikiIdentifier", "string"); ("path", "string")]
         (Some ["project"; "wikiIdentifier"]));
    mkTool "get_wiki_page"
      "Get wiki page content"
      (mkSchema [("project", "string"); ("wikiIdentifier", "string"); ("path", "string")]
         (Some ["project"; "wikiIdentifier"]));
    mkTool "create_or_update_wiki_page"
      "Create or update a wiki page"
      (mkSchema [("project", "string"); ("wikiIdentifier", "string"); ("path", "string"); ("content", "string"); ("comment", "string")]
         (Some ["project"; "wikiIdentifier"; "path"; "content"]));
    mkTool "list_test_plans"
      "List test plans"
      (mkSchema [("project", "string")]
         (Some ["project"]));
    mkTool "create_test_plan"
      "Create a test plan"
      (mkSchema [("project", "string"); ("name", "string"); ("description", "string")]
         (Some ["project"; "name"]));
    mkTool "list_test_suites"
      "List test suites in a plan"
      (mkSchema [("project", "string"); ("planId", "number")]
         (Some ["project"; "planId"]));
    mkTool "list_test_cases"
      "List test cases in a suite"
      (mkSchema [("project", "string"); ("planId", "number"); ("suiteId", "number")]
         (Some ["project"; "planId"; "suiteId"]));
    mkTool "get_advanced_security_alerts"
      "Get security alerts for a repository"
      (mkSchema [("project", "string"); ("repositoryId", "string"); ("severity", "string"); ("state", "string"); ("top", "number")]
         (Some ["project"; "repositoryId"]));
    mkTool "get_advanced_security_alert_details"
      "Get details of a security alert"
      (mkSchema [("project", "string"); ("repositoryId", "string"); ("alertId", "string")]
         (Some ["project"; "repositoryId"; "alertId"]))
  ].

(** index.ts: the [case] labels of the CallTool handler (lines 637-1131). *)
Definition CallTool_cases : list string :=
  [ "list_projects"; "list_project_teams"; "list_team_members";
    "query_work_items"; "get_work_items_by_ids"; "create_work_item";
    "update_work_item"; "list_work_item_types"; "list_repositories";
    "list_branches"; "list_commits"; "get_file_content"; "list_pull_requests";
    "get_pull_request"; "create_pull_request"; "get_builds";
    "list_build_definitions"; "list_pipelines"; "list_iterations";
    "list_team_iterations"; "list_areas"; "search_code"; "search_work_items";
    "get_identity_ids"; "get_current_user"; "list_boards"; "list_queries";
    "get_work_item_revisions"; "get_work_item_comments"; "list_wikis";
    "get_wiki_page"; "list_test_plans" ].

(** index.ts, second listing: the [case] labels its handler adds. *)
Definition CallTool_cases_added : list string :=
  [ "get_repository"; "get_branch"; "create_branch"; "search_commits";
    "update_work_items_batch"; "add_child_work_items"; "link_work_items";
    "add_work_item_comment"; "get_my_work_items";
    "get_work_items_for_iteration"; "list_backlogs";
    "list_backlog_work_items"; "update_pull_request";
    "update_pull_request_reviewers"; "list_pull_request_threads";
    "create_pull_request_thread"; "reply_to_pull_request_comment";
    "get_build_status"; "get_build_log"; "run_pipeline"; "get_pipeline_run";
    "list_pipeline_runs"; "create_iteration"; "create_iterations";
    "get_team_capacity"; "update_team_capacity"; "get_wiki";
    "list_wiki_pages"; "create_or_update_wiki_page"; "create_test_plan";
    "list_test_suites"; "create_test_suite"; "list_test_cases";
    "create_test_case"; "search_wiki"; "get_advanced_security_alerts";
    "get_advanced_security_alert_details" ].

(** functions/mcp.ts: the [case] labels of [executeToolInternal]
    (lines 299-504). *)
Definition executeToolInternal_cases : list string :=
  [ "list_projects"; "list_project_teams"; "list_team_members";
    "query_work_items"; "get_work_items_by_ids"; "create_work_item";
    "update_work_item"; "update_work_items_batch"; "add_child_work_items";
    "link_work_items"; "unlink_work_item"; "add_artifact_link";
    "link_work_item_to_pull_request"; "add_work_item_comment";
    "get_work_item_comments"; "get_work_item_revisions";
    "list_work_item_types"; "get_my_work_items";
    "get_work_items_for_iteration"; "list_backlogs";
    "list_backlog_work_items"; "get_query_results"; "list_repositories";
    "get_repository"; "list_branches"; "get_my_branches"; "get_branch";
    "create_branch"; "list_commits"; "search_commits"; "get_file_content";
    "list_pull_requests"; "list_pull_requests_by_commits"; "get_pull_request";
    "create_pull_request"; "update_pull_request";
    "update_pull_request_reviewers"; "list_pull_request_threads";
    "list_pull_request_thread_comments"; "create_pull_request_thread";
    "update_pull_request_thread"; "reply_to_pull_request_comment";
    "get_builds"; "get_build_status"; "get_build_log"; "get_build_log_by_id";
    "get_build_changes"; "list_build_definitions";
    "get_build_definition_revisions"; "list_pipelines"; "create_pipeline";
    "run_pipeline"; "get_pipeline_run"; "list_pipeline_runs";
    "update_build_stage"; "list_iterations"; "create_iterations";
    "list_team_iterations"; "assign_iterations"; "get_iteration_capacities";
    "get_team_capacity"; "update_team_capacity"; "list_areas"; "search_code";
    "search_work_items"; "search_wiki"; "get_identity_ids";
    "get_current_user"; "list_boards"; "list_queries"; "list_wikis";
    "get_wiki"; "list_wiki_pages"; "get_wiki_page";
    "create_or_update_wiki_page"; "list_test_plans"; "create_test_plan";
    "list_test_suites"; "create_test_suite"; "add_test_cases_to_suite";
    "list_test_cases"; "create_test_case"; "update_test_case_steps";
    "get_test_results_from_build"; "get_advanced_security_alerts";
    "get_advanced_security_alert_details" ].

(** The second listing of index.ts as a whole. *)
Definition tools_extended : list tool := (tools ++ tools_added)%list.
Definition CallTool_cases_extended : list string :=
  (CallTool_cases ++ CallTool_cases_added)%list.

Definition mem (s : string) (l : list string) : bool :=
  existsb (String.eqb s) l.

(** [required] is made of keys of [properties]. *)
Definition required_declared (sc : schema) : bool :=
  match required sc with
  | None => true
  | Some req => forallb (fun r => mem r (map fst (properties sc))) req
  end.

(** [n] has an entry in [listing], with a description that is not empty
    and a schema whose required fields are declared. *)
Definition well_listed (listing : list tool) (n : string) : bool :=
  existsb (fun t => (name t =? n)%string
                    && negb (description t =? "")%string
                    && required_declared (inputSchema t)) listing.

(* ================================================================== *)
(** ** Dispatch *)
(* ================================================================== *)

(** What the CallTool handler of index.ts returns: the [text] of its one
    content item and [isError] ([false] when the field is absent). *)
Record CallToolResult : Type := mkCallToolResult {
  text : value;
  isError : bool
}.

Inductive rpc_result : Type :=
| InitializeResult
| EmptyResult
| ToolsList (listing : list tool)
| ToolText (t : value).

Inductive json_body : Type :=
| ToolSuccess (res : value)
| ToolFailure (error : string)
| RpcResult (res : rpc_result) (id : value)
| RpcError (code : Z) (msg : string) (id : value).

Record HttpResponseInit : Type := mkHttpResponse {
  status : Z;
  jsonBody : json_body
}.

Definition str_is (v : value) (s : string) : bool :=
  match v with
  | VStr x => (x =? s)%string
  | _ => false
  end.

(** [const { key } = v], with the object called [what] in the source. *)
Definition destructure (what : string) (v : value) (key : string) : prog value :=
  match read_prop v key with
  | Some x => Ret x
  | None =>
      Throw (Error ("Cannot destructure property '" ++ key ++ "' of '" ++ what
                    ++ "' as it is " ++ to_string v ++ "."))
  end.

Definition lift_parsed (b : js_error + value) : prog value :=
  match b with
  | inl e => Throw e
  | inr v => Ret v
  end.

Section Dispatch.

(** [JSON.stringify(v, null, 2)]. *)
Variable JSON_stringify : value -> value.

(** The remaining [case] bodies of the two dispatchers: the operation
    catalogue, which is not modelled. *)
Variable CallTool_other : AzureDevOpsClient -> string -> value -> prog CallToolResult.
Variable executeTool_other : AzureDevOpsClient -> string -> value -> prog value.

Definition text_content (v : value) : CallToolResult :=
  mkCallToolResult (JSON_stringify v) false.

(** index.ts: the bodies of the [case]s of the CallTool handler. *)
Definition CallTool_case (azureClient : AzureDevOpsClient)
  (name : string) (args : value) : prog CallToolResult :=
  if (name =? "list_team_members")%string then
    members <- getTeamMembers azureClient
                 (opt_prop args "project") (opt_prop args "team") ;;
    Ret (text_content members)
  else if (name =? "query_work_items")%string then
    workItems <- queryWorkItems azureClient
                   (opt_prop args "wiql") (opt_prop args "project") ;;
    Ret (text_content workItems)
  else if (name =? "get_work_items_by_ids")%string then
    workItems <- getWorkItems azureClient
                   (opt_prop args "ids") (opt_prop args "project") ;;
    Ret (text_content workItems)
  else if (name =? "get_pull_request")%string then
    pr <- getPullRequestById azureClient (opt_prop args "project")
            (opt_prop args "repositoryId") (opt_prop args "pullRequestId") ;;
    Ret (text_content pr)
  else if (name =? "get_identity_ids")%string then
    identities <- searchIdentities azureClient (opt_prop args "searchFilter") ;;
    Ret (text_content identities)
  else if (name =? "get_advanced_security_alert_details")%string then
    details <- getAdvancedSecurityAlertDetails azureClient
                 (opt_prop args "project") (opt_prop args "repositoryId")
                 (opt_prop args "alertId") ;;
    Ret (text_content details)
  else CallTool_other azureClient name args.

(** index.ts: the CallTool handler, over the [case] labels of either
    listing. *)
Definition CallTool_handler (cases : list string)
  (azureClient : AzureDevOpsClient) (name : string) (args : value)
  : prog CallToolResult :=
  try_catch
    (if mem name cases then CallTool_case azureClient name args
     else Ret (mkCallToolResult (VStr ("Unknown tool: " ++ name)) true))
    (fun error =>
       Ret (mkCallToolResult (VStr ("Error: " ++ message error)) true)).

(** functions/mcp.ts, [executeToolInternal]. *)
Definition executeToolInternal (client : AzureDevOpsClient)
  (toolName : value) (args : value) : prog value :=
  match toolName with
  | VStr n =>
      if negb (mem n executeToolInternal_cases) then
        Throw (Error ("Unknown tool: " ++ n))
      else if (n =? "list_team_members")%string then
        project <- get_prop args "project" ;;
        team <- get_prop args "team" ;;
        getTeamMembers client project team
      else if (n =? "query_work_items")%string then
        wiql <- get_prop args "wiql" ;;
        project <- get_prop args "project" ;;
        queryWorkItems client wiql project
      else if (n =? "get_work_items_by_ids")%string then
        ids <- get_prop args "ids" ;;
        project <- get_prop args "project" ;;
        getWorkItems client ids project
      else if (n =? "get_pull_request")%string then
        project <- get_prop args "project" ;;
        repositoryId <- get_prop args "repositoryId" ;;
        pullRequestId <- get_prop args "pullRequestId" ;;
        getPullRequestById client project repositoryId pullRequestId
      else if (n =? "get_identity_ids")%string then
        searchFilter <- get_prop args "searchFilter" ;;
        searchIdentities client searchFilter
      else if (n =? "get_advanced_security_alert_details")%string then
        project <- get_prop args "project" ;;
        repositoryId <- get_prop args "repositoryId" ;;
        alertId <- get_prop args "alertId" ;;
        getAdvancedSecurityAlertDetails client project repositoryId alertId
      else executeTool_other client n args
  | other => Throw (Error ("Unknown tool: " ++ to_string other))
  end.

Definition mcp_getClient : prog AzureDevOpsClient := SingletonClient Ret Throw.

(** functions/mcp.ts, the [executeTool] endpoint (lines 53-79);
    [body] is what [request.json()] gives. *)
Definition executeTool_handler (toolName : string) (body : js_error + value)
  : prog HttpResponseInit :=
  try_catch
    (args <- lift_parsed body ;;
     client <- mcp_getClient ;;
     res <- executeToolInternal client (VStr toolName) args ;;
     Ret (mkHttpResponse 200 (ToolSuccess res)))
    (fun error => Ret (mkHttpResponse 500 (ToolFailure (message error)))).

(** functions/mcp.ts, the [mcp] endpoint (lines 104-201);
    [api_key_valid] is [validateApiKey(request)]. *)
Definition mcp_handler (api_key_valid : bool) (body : js_error + value)
  : prog HttpResponseInit :=
  if negb api_key_valid then
    Ret (mkHttpResponse 401
           (RpcError (-32000) "Unauthorized: Invalid or missing API key" VNull))
  else
    try_catch
      (body' <- lift_parsed body ;;
       method <- destructure "body" body' "method" ;;
       params <- destructure "body" body' "params" ;;
       id <- destructure "body" body' "id" ;;
       if str_is method "initialize" then
         Ret (mkHttpResponse 200 (RpcResult InitializeResult id))
       else if str_is method "notifications/initialized" then
         Ret (mkHttpResponse 200 (RpcResult EmptyResult id))
       else
         client <- mcp_getClient ;;
         if str_is method "tools/list" then
           Ret (mkHttpResponse 200 (RpcResult (ToolsList getToolDefinitions) id))
         else if str_is method "tools/call" then
           name <- destructure "params" params "name" ;;
           args <- destructure "params" params "arguments" ;;
           res <- executeToolInternal client name args ;;
           Ret (mkHttpResponse 200 (RpcResult (ToolText (JSON_stringify res)) id))
         else
           Ret (mkHttpResponse 200
                  (RpcError (-32601) ("Method not found: " ++ to_string method) id)))
      (fun error => Ret (mkHttpResponse 500 (RpcError (-32603) (message error) VNull))).

End Dispatch.

(* ================================================================== *)
(** ** Vocabulary of the statements *)
(* ================================================================== *)

(** One promise per [getToken] call, and no promise is pending except
    the one [tokenPromise] names. *)
Definition coherent (s : cred_state) : Prop :=
  in_flight_ok s
  /\ List.length (promises s) = List.length (getToken_calls s)
  /\ forall q, nth_error (promises s) q = Some Pending -> tokenPromise s = Some q.

Definition is_failure (r : getToken_result) : bool :=
  match r with
  | GotToken _ => false
  | _ => true
  end.

(** The header of the static-token mode. *)
Definition basic_header (env : process_env) : string :=
  "Basic " ++ base64 (":" ++ pat_text env).

Definition bearer_header (env : process_env) : string :=
  "Bearer " ++ pat_text env.

(** The requests made through the shared instance all carry [hdr]. *)
Definition instance_requests_carry (hdr : string) (log : list request) : Prop :=
  Forall (fun r => req_base r <> None -> req_authorization r = hdr) log.

Definition instance_carries (hdr : string) (w : world) : Prop :=
  forall a, axiosInstance w = Some a -> authorization a = hdr.

(** The URL [searchIdentities] asks for. *)
Definition identities_url (self : AzureDevOpsClient) (searchFilter : value) : string :=
  ("https://vssps.dev.azure.com/" ++ organization self ++ "/_apis/identities")
  ++ "?" ++ ("api-version=7.1&searchFilter=General&filterValue="
             ++ form_urlencode (to_string searchFilter)).

(** The URLs of the requests the theorems below talk about. *)
Definition wiql_url (project : value) : string :=
  "/" ++ to_string project ++ "/_apis/wit/wiql?api-version=7.1".

Definition team_members_url (project team : value) : string :=
  "/_apis/projects/" ++ to_string project ++ "/teams/" ++ to_string team
  ++ "/members?api-version=7.1".

Definition pull_request_url (project repositoryId pullRequestId : value) : string :=
  "/" ++ to_string project ++ "/_apis/git/repositories/" ++ to_string repositoryId
  ++ "/pullrequests/" ++ to_string pullRequestId ++ "?api-version=7.1".

Definition alert_url (project repositoryId alertId : value) : string :=
  "/" ++ to_string project ++ "/_apis/alert/repositories/" ++ to_string repositoryId
  ++ "/alerts/" ++ to_string alertId ++ "?api-version=7.1-preview.1".

(** The names [executeToolInternal] has a [case] for. *)
Definition accepts (toolName : value) : bool :=
  match toolName with
  | VStr n => mem n executeToolInternal_cases
  | _ => false
  end.

(** A listed entry is in order: its description is not empty and its
    required fields are declared. *)
Definition entry_in_order (t : tool) : bool :=
  negb (description t =? "")%string && required_declared (inputSchema t).

(** The names [executeToolInternal] has a [case] for and
    [getToolDefinitions] has no entry for. *)
Definition unlisted_cases : list string :=
  filter (fun n => negb (mem n (map name getToolDefinitions)))
         executeToolInternal_cases.

(** Reading a form-encoded text back, as the service does with a
    query parameter: [+] is a space, [%XY] the byte of the two
    hexadecimal digits. *)
Fixpoint position (c : ascii) (s : string) : option N :=
  match s with
  | EmptyString => None
  | String c' rest =>
      if Ascii.eqb c c' then Some 0%N else option_map N.succ (position c rest)
  end.

Fixpoint form_urldecode (s : string) : option string :=
  match s with
  | EmptyString => Some EmptyString
  | String c rest =>
      if Ascii.eqb c "+" then option_map (String " ") (form_urldecode rest)
      else if Ascii.eqb c "%" then
        match rest with
        | String h (String l rest') =>
            match position h "0123456789ABCDEF", position l "0123456789ABCDEF",
                  form_urldecode rest' with
            | Some a, Some b, Some r => Some (String (ascii_of_N (16 * a + b)) r)
            | _, _, _ => None
            end
        | _ => None
        end
      else option_map (String c) (form_urldecode rest)
  end.

(** Reading a base64 text back (RFC 4648): what the service does with
    the credential of a [Basic] header. *)
Definition sextet_of (c : ascii) : option N := position c base64_alphabet.

Fixpoint base64_decode_bytes (cs : list ascii) : option (list N) :=
  match cs with
  | [] => Some []
  | c1 :: c2 :: c3 :: c4 :: rest =>
      match sextet_of c1, sextet_of c2 with
      | Some v1, Some v2 =>
          let a := N.lor (N.shiftl v1 2) (N.shiftr v2 4) in
          if Ascii.eqb c3 "=" then
            if Ascii.eqb c4 "=" then
              match rest with [] => Some [a] | _ => None end
            else None
          else
            match sextet_of c3 with
            | Some v3 =>
                let b := N.lor (N.shiftl (N.land v2 15) 4) (N.shiftr v3 2) in
                if Ascii.eqb c4 "=" then
                  match rest with [] => Some [a; b] | _ => None end
                else
                  match sextet_of c4, base64_decode_bytes rest with
                  | Some v4, Some bs =>
                      Some (a :: b :: N.lor (N.shiftl (N.land v3 3) 6) v4 :: bs)
                  | _, _ => None
                  end
            | None => None
            end
      | _, _ => None
      end
  | _ => None
  end.

Definition base64_decode (s : string) : option string :=
  option_map (fun bs => string_of_list_ascii (map ascii_of_N bs))
             (base64_decode_bytes (list_ascii_of_string s)).

(** What the recombination of a group must satisfy, checked on every
    pair of bytes. *)
Definition sextet_ok (n : N) : bool :=
  match sextet n with
  | String c EmptyString =>
      negb (Ascii.eqb c "=")
      && match sextet_of c with Some m => (m =? n)%N | None => false end
  | _ => false
  end.

Definition group_ok (a b : N) : bool :=
  let s1 := N.shiftr a 2 in
  let s2 := N.lor (N.shiftl (N.land a 3) 4) (N.shiftr b 4) in
  let t2 := N.shiftl (N.land a 3) 4 in
  let s3 := N.lor (N.shiftl (N.land a 15) 2) (N.shiftr b 6) in
  let t3 := N.shiftl (N.land a 15) 2 in
  let s4 := N.land b 63 in
  sextet_ok s1 && sextet_ok s2 && sextet_ok t2 && sextet_ok s3 && sextet_ok t3
  && sextet_ok s4
  && (N.lor (N.shiftl s1 2) (N.shiftr s2 4) =? a)%N
  && (N.lor (N.shiftl s1 2) (N.shiftr t2 4) =? a)%N
  && (N.land s2 15 =? N.shiftr b 4)%N
  && (N.lor (N.shiftl (N.shiftr a 4) 4) (N.shiftr s3 2) =? a)%N
  && (N.lor (N.shiftl (N.shiftr a 4) 4) (N.shiftr t3 2) =? a)%N
  && (N.lor (N.shiftl (N.land s3 3) 6) s4 =? b)%N.

Definition all_bytes : list N := map N.of_nat (seq 0 256).

(* ================================================================== *)
(** ** Sample configurations, services and states *)
(* ================================================================== *)

Definition env_interactive : process_env :=
  mkEnv None (Some "https://dev.azure.com/contoso").

Definition env_static : process_env :=
  mkEnv (Some "secret") (Some "https://dev.azure.com/contoso").

Definition contoso : AzureDevOpsClient := mkClient "contoso".

Definition world0 : world := mkWorld cred_init None false None [] 0.

Definition not_found : js_error :=
  mkJsError "Request failed with status code 404" (Some 404).

(** A service that knows nothing, and one whose WIQL query matches no
    work item. *)
Definition net_404 : remote :=
  mkRemote (fun _ => (GotNull, 0)) (fun _ _ => (HttpError not_found, 1)).

Definition net_no_match : remote :=
  mkRemote (fun _ => (GotNull, 0))
           (fun _ _ => (Response (VObj [("workItems", VArr [])]), 1)).

Definition stringify_stub (v : value) : value := VStr (to_string v).

Definition no_other_tool (c : AzureDevOpsClient) (n : string) (args : value)
  : prog CallToolResult := Throw (Error "not modelled").

Definition no_other_method (c : AzureDevOpsClient) (n : string) (args : value)
  : prog value := Throw (Error "not modelled").

Definition cached (e : Z) : cred_state :=
  mkCred true (Some (mkCache "tok" (Some e))) None [Fulfilled "tok"]
         [AZURE_DEVOPS_SCOPE].

Definition waiting : cred_state :=
  snd (run env_interactive [EvCall 0; EvCall 5] cred_init).

Definition query_args : value :=
  VObj [("project", VStr "Fabrikam"); ("wiql", VStr "SELECT [System.Id] FROM WorkItems")].

Definition member_args : value :=
  VObj [("project", VStr "Fabrikam"); ("team", VStr "Core");
        ("repositoryId", VStr "repo"); ("pullRequestId", VNum 7);
        ("alertId", VStr "42")].

Definition with_client : world :=
  snd (run_getClient env_static net_404 contoso world0).

Definition call_body : value :=
  VObj [("jsonrpc", VStr "2.0"); ("method", VStr "tools/call");
        ("params", VObj [("name", VStr "not_a_real_tool"); ("arguments", VObj [])]);
        ("id", VNum 1)].

(* ================================================================== *)
(** ** More of the backend client (azure-devops-client.ts) *)
(* ================================================================== *)

(** A parameter declared with a default, [x = d]: the default stands in
    for [undefined] and for nothing else. *)
Definition default_param (d v : value) : value :=
  match v with
  | VUndefined => d
  | _ => v
  end.

(** The [catch] block shared by the methods that forgive a 404. *)
Definition empty_on_404 (error : js_error) : prog value :=
  if status_is_404 error then Ret (VArr []) else Throw error.

(** Lines 193-197. *)
Definition getProjects (self : AzureDevOpsClient) : prog value :=
  _ <- getClient self ;;
  response_data <- client_get "/_apis/projects?api-version=7.1" ;;
  get_prop response_data "value".

(** Lines 1009-1013. *)
Definition getCurrentUser (self : AzureDevOpsClient) : prog value :=
  _ <- getClient self ;;
  response_data <- client_get "/_apis/connectionData" ;;
  get_prop response_data "authenticatedUser".

(** Lines 391-398. *)
Definition getMyWorkItems (self : AzureDevOpsClient) (project assignedToMe : value)
  : prog value :=
  let assignedToMe := default_param (VBool true) assignedToMe in
  _ <- getClient self ;;
  user <- getCurrentUser self ;;
  uniqueName <- get_prop user "uniqueName" ;;
  let wiql :=
    if truthy assignedToMe
    then "SELECT [System.Id] FROM WorkItems WHERE [System.AssignedTo] = '"
         ++ to_string uniqueName ++ "' AND [System.TeamProject] = '"
         ++ to_string project ++ "'"
    else "SELECT [System.Id] FROM WorkItems WHERE [System.CreatedBy] = '"
         ++ to_string uniqueName ++ "' AND [System.TeamProject] = '"
         ++ to_string project ++ "'" in
  queryWorkItems self (VStr wiql) project.

(** Lines 400-404. *)
Definition getWorkItemsForIteration (self : AzureDevOpsClient)
  (project iterationPath : value) : prog value :=
  _ <- getClient self ;;
  let wiql :=
    "SELECT [System.Id] FROM WorkItems WHERE [System.IterationPath] = '"
    ++ to_string iterationPath ++ "' AND [System.TeamProject] = '"
    ++ to_string project ++ "'" in
  queryWorkItems self (VStr wiql) project.

(** Lines 751-763. *)
Definition getPipelines (self : AzureDevOpsClient) (project : value) : prog value :=
  _ <- getClient self ;;
  let url := "/" ++ to_string project ++ "/_apis/pipelines?api-version=7.1" in
  try_catch
    (response_data <- client_get url ;;
     v <- get_prop response_data "value" ;;
     Ret (js_or v (VArr [])))
    empty_on_404.

(** Lines 851-863. *)
Definition getIterations (self : AzureDevOpsClient) (project : value) : prog value :=
  _ <- getClient self ;;
  let url := "/" ++ to_string project
             ++ "/_apis/wit/classificationnodes/iterations?$depth=2&api-version=7.1" in
  try_catch
    (response_data <- client_get url ;;
     v <- get_prop response_data "children" ;;
     Ret (js_or v (VArr [])))
    empty_on_404.

(** Lines 914-926. *)
Definition getAreas (self : AzureDevOpsClient) (project : value) : prog value :=
  _ <- getClient self ;;
  let url := "/" ++ to_string project
             ++ "/_apis/wit/classificationnodes/areas?$depth=2&api-version=7.1" in
  try_catch
    (response_data <- client_get url ;;
     v <- get_prop response_data "children" ;;
     Ret (js_or v (VArr [])))
    empty_on_404.

(** Lines 1016-1028. *)
Definition getBoards (self : AzureDevOpsClient) (project team : value) : prog value :=
  _ <- getClient self ;;
  let url := "/" ++ to_string project ++ "/" ++ to_string team
             ++ "/_apis/work/boards?api-version=7.1" in
  try_catch
    (response_data <- client_get url ;;
     v <- get_prop response_data "value" ;;
     Ret (js_or v (VArr [])))
    empty_on_404.

(** Lines 1048-1060. *)
Definition getWorkItemComments (self : AzureDevOpsClient) (project id : value)
  : prog value :=
  _ <- getClient self ;;
  let url := "/" ++ to_string project ++ "/_apis/wit/workitems/" ++ to_string id
             ++ "/comments?api-version=7.1-preview.4" in
  try_catch
    (response_data <- client_get url ;;
     v <- get_prop response_data "comments" ;;
     Ret (js_or v (VArr [])))
    empty_on_404.

(** Lines 1120-1133: the one forgiving method without [|| []]. *)
Definition getTestPlans (self : AzureDevOpsClient) (project : value) : prog value :=
  _ <- getClient self ;;
  try_catch
    (response_data <-
       client_get ("/" ++ to_string project ++ "/_apis/test/plans?api-version=7.1") ;;
     get_prop response_data "value")
    empty_on_404.

(** [new URLSearchParams()] after its [append]s, and its [toString]. *)
Definition URLSearchParams_toString (params : list (string * string)) : string :=
  join "&" (map (fun kv => form_urlencode (fst kv) ++ "=" ++ form_urlencode (snd kv))
                params).

(** Lines 1230-1253. *)
Definition getAdvancedSecurityAlerts (self : AzureDevOpsClient)
  (project repositoryId severity state top : value) : prog value :=
  let top := default_param (VNum 100) top in
  _ <- getClient self ;;
  let url := "/" ++ to_string project ++ "/_apis/alert/repositories/"
             ++ to_string repositoryId
             ++ "/alerts?api-version=7.1-preview.1&$top=" ++ to_string top in
  let params :=
    ((if truthy severity then [("severity", to_string severity)] else [])
     ++ (if truthy state then [("state", to_string state)] else []))%list in
  let url :=
    if (URLSearchParams_toString params =? "")%string then url
    else url ++ "&" ++ URLSearchParams_toString params in
  try_catch
    (response_data <- client_get url ;;
     v <- get_prop response_data "value" ;;
     Ret (js_or v (VArr [])))
    empty_on_404.

(** The object literal of lines 673-684 and 698-709. *)
Definition pull_request_fields (pr : value) : prog value :=
  pullRequestId <- get_prop pr "pullRequestId" ;;
  repository <- get_prop pr "repository" ;;
  title <- get_prop pr "title" ;;
  description <- get_prop pr "description" ;;
  createdBy <- get_prop pr "createdBy" ;;
  creationDate <- get_prop pr "creationDate" ;;
  status <- get_prop pr "status" ;;
  sourceRefName <- get_prop pr "sourceRefName" ;;
  targetRefName <- get_prop pr "targetRefName" ;;
  isDraft <- get_prop pr "isDraft" ;;
  Ret (VObj [("pullRequestId", pullRequestId);
             ("repository", repository);
             ("title", title);
             ("description", description);
             ("createdBy", createdBy);
             ("creationDate", creationDate);
             ("status", status);
             ("sourceRefName", sourceRefName);
             ("targetRefName", targetRefName);
             ("isDraft", isDraft)]).

Fixpoint map_pull_requests (l : list value) : prog (list value) :=
  match l with
  | [] => Ret []
  | pr :: rest =>
      x <- pull_request_fields pr ;;
      xs <- map_pull_requests rest ;;
      Ret (x :: xs)
  end.

(** Lines 662-686. *)
Definition getPullRequests (self : AzureDevOpsClient)
  (project repositoryId top status : value) : prog value :=
  let top := default_param (VNum 100) top in
  let status := default_param (VStr "active") status in
  _ <- getClient self ;;
  let url := "/" ++ to_string project
             ++ "/_apis/git/pullrequests?api-version=7.1&$top=" ++ to_string top
             ++ "&searchCriteria.status=" ++ to_string status in
  let url :=
    if truthy repositoryId
    then url ++ "&searchCriteria.repositoryId=" ++ to_string repositoryId
    else url in
  response_data <- client_get url ;;
  v <- get_prop response_data "value" ;;
  match v with
  | VArr l => prs <- map_pull_requests l ;; Ret (VArr prs)
  | VUndefined | VNull => Throw (type_error_read (to_string v) "map")
  | _ => Throw (Error "response.data.value.map is not a function")
  end.

(* ================================================================== *)
(** ** More of the dispatchers *)
(* ================================================================== *)

(** [a ?? b]. *)
Definition js_coalesce (a b : value) : value := if nullish a then b else a.

Section MoreDispatch.

Variable JSON_stringify : value -> value.
Variable CallTool_rest : AzureDevOpsClient -> string -> value -> prog CallToolResult.
Variable executeTool_rest : AzureDevOpsClient -> string -> value -> prog value.

(** index.ts: further [case] bodies of the CallTool handler; the last
    three are of the second listing only. *)
Definition CallTool_more (azureClient : AzureDevOpsClient)
  (name : string) (args : value) : prog CallToolResult :=
  if (name =? "list_projects")%string then
    projects <- getProjects azureClient ;;
    Ret (text_content JSON_stringify projects)
  else if (name =? "list_pull_requests")%string then
    let project := opt_prop args "project" in
    let repositoryId := opt_prop args "repositoryId" in
    let status := js_or (opt_prop args "status") (VStr "active") in
    let top := js_or (opt_prop args "top") (VNum 100) in
    prs <- getPullRequests azureClient project repositoryId top status ;;
    Ret (text_content JSON_stringify prs)
  else if (name =? "list_pipelines")%string then
    pipelines <- getPipelines azureClient (opt_prop args "project") ;;
    Ret (text_content JSON_stringify pipelines)
  else if (name =? "list_iterations")%string then
    iterations <- getIterations azureClient (opt_prop args "project") ;;
    Ret (text_content JSON_stringify iterations)
  else if (name =? "list_areas")%string then
    areas <- getAreas azureClient (opt_prop args "project") ;;
    Ret (text_content JSON_stringify areas)
  else if (name =? "list_boards")%string then
    boards <- getBoards azureClient (opt_prop args "project") (opt_prop args "team") ;;
    Ret (text_content JSON_stringify boards)
  else if (name =? "get_work_item_comments")%string then
    comments <- getWorkItemComments azureClient
                  (opt_prop args "project") (opt_prop args "id") ;;
    Ret (text_content JSON_stringify comments)
  else if (name =? "list_test_plans")%string then
    testPlans <- getTestPlans azureClient (opt_prop args "project") ;;
    Ret (text_content JSON_stringify testPlans)
  else if (name =? "get_current_user")%string then
    user <- getCurrentUser azureClient ;;
    Ret (text_content JSON_stringify user)
  else if (name =? "get_my_work_items")%string then
    let project := opt_prop args "project" in
    let assignedToMe := js_coalesce (opt_prop args "assignedToMe") (VBool true) in
    workItems <- getMyWorkItems azureClient project assignedToMe ;;
    Ret (text_content JSON_stringify workItems)
  else if (name =? "get_work_items_for_iteration")%string then
    workItems <- getWorkItemsForIteration azureClient
                   (opt_prop args "project") (opt_prop args "iterationPath") ;;
    Ret (text_content JSON_stringify workItems)
  else if (name =? "get_advanced_security_alerts")%string then
    let project := opt_prop args "project" in
    let repositoryId := opt_prop args "repositoryId" in
    let severity := opt_prop args "severity" in
    let state := opt_prop args "state" in
    let top := js_or (opt_prop args "top") (VNum 100) in
    alerts <- getAdvancedSecurityAlerts azureClient project repositoryId
                severity state top ;;
    Ret (text_content JSON_stringify alerts)
  else CallTool_rest azureClient name args.

(** functions/mcp.ts: further [case]s of [executeToolInternal]. *)
Definition executeTool_more (client : AzureDevOpsClient)
  (n : string) (args : value) : prog value :=
  if (n =? "list_projects")%string then getProjects client
  else if (n =? "list_pull_requests")%string then
    project <- get_prop args "project" ;;
    repositoryId <- get_prop args "repositoryId" ;;
    top <- get_prop args "top" ;;
    status <- get_prop args "status" ;;
    getPullRequests client project repositoryId top status
  else if (n =? "list_pipelines")%string then
    project <- get_prop args "project" ;;
    getPipelines client project
  else if (n =? "list_iterations")%string then
    project <- get_prop args "project" ;;
    getIterations client project
  else if (n =? "list_areas")%string then
    project <- get_prop args "project" ;;
    getAreas client project
  else if (n =? "list_boards")%string then
    project <- get_prop args "project" ;;
    team <- get_prop args "team" ;;
    getBoards client project team
  else if (n =? "get_work_item_comments")%string then
    project <- get_prop args "project" ;;
    id <- get_prop args "id" ;;
    getWorkItemComments client project id
  else if (n =? "list_test_plans")%string then
    project <- get_prop args "project" ;;
    getTestPlans client project
  else if (n =? "get_current_user")%string then getCurrentUser client
  else if (n =? "get_my_work_items")%string then
    project <- get_prop args "project" ;;
    assignedToMe <- get_prop args "assignedToMe" ;;
    getMyWorkItems client project assignedToMe
  else if (n =? "get_work_items_for_iteration")%string then
    project <- get_prop args "project" ;;
    iterationPath <- get_prop args "iterationPath" ;;
    getWorkItemsForIteration client project iterationPath
  else if (n =? "get_advanced_security_alerts")%string then
    project <- get_prop args "project" ;;
    repositoryId <- get_prop args "repositoryId" ;;
    severity <- get_prop args "severity" ;;
    state <- get_prop args "state" ;;
    top <- get_prop args "top" ;;
    getAdvancedSecurityAlerts client project repositoryId severity state top
  else executeTool_rest client n args.

End MoreDispatch.

(** functions/mcp.ts, the [tools] endpoint (lines 28-50): the names it
    answers. *)
Definition tools_endpoint_names : list string :=
  [ "list_projects"; "list_project_teams"; "list_team_members";
    "query_work_items"; "get_work_items_by_ids"; "create_work_item"; "update_work_item";
    "list_repositories"; "list_branches"; "list_commits"; "get_file_content";
    "list_pull_requests"; "get_pull_request"; "create_pull_request"; "update_pull_request";
    "get_builds"; "list_build_definitions"; "list_pipelines"; "run_pipeline";
    "list_iterations"; "list_team_iterations"; "list_areas";
    "search_code"; "search_work_items"; "search_wiki";
    "list_wikis"; "get_wiki_page"; "create_or_update_wiki_page";
    "list_test_plans"; "create_test_plan"; "list_test_suites";
    "get_advanced_security_alerts"; "get_advanced_security_alert_details" ].

(** What [validateApiKey] reads of a request: the two headers and the
    two query parameters, [None] where [get] answers [null]. *)
Record HttpRequest : Type := mkHttpRequest {
  header_x_api_key : option string;
  header_authorization : option string;
  query_code : option string;
  query_key : option string
}.

(** [s.replace(pat, '')]: the first occurrence of [pat] is cut out. *)
Fixpoint remove_first (pat s : string) {struct s} : string :=
  match strip_prefix pat s with
  | Some rest => rest
  | None =>
      match s with
      | EmptyString => EmptyString
      | String c rest => String c (remove_first pat rest)
      end
  end.

(** [a || b] on what [get] answers: [null] and the empty string give
    way to [b]. *)
Definition or_else (a b : option string) : option string :=
  match a with
  | Some s => if (s =? "")%string then b else Some s
  | None => b
  end.

Definition is_key (k : option string) (expectedKey : string) : bool :=
  match k with
  | Some s => (s =? expectedKey)%string
  | None => false
  end.

(** functions/mcp.ts, [validateApiKey] (lines 82-99), with
    [process.env.MCP_API_KEY] as first argument. *)
Definition validateApiKey (MCP_API_KEY : option string) (request : HttpRequest) : bool :=
  match MCP_API_KEY with
  | None => true
  | Some expectedKey =>
      if (expectedKey =? "")%string then true
      else
        let headerKey :=
          or_else (header_x_api_key request)
                  (option_map (remove_first "Bearer ") (header_authorization request)) in
        if is_key headerKey expectedKey then true
        else
          let queryKey := or_else (query_code request) (query_key request) in
          is_key queryKey expectedKey
  end.

(** functions/mcp.ts, the [mcp] endpoint as a whole. *)
Definition mcp_endpoint (JSON_stringify : value -> value)
  (executeTool_other : AzureDevOpsClient -> string -> value -> prog value)
  (MCP_API_KEY : option string) (request : HttpRequest) (body : js_error + value)
  : prog HttpResponseInit :=
  mcp_handler JSON_stringify executeTool_other
              (validateApiKey MCP_API_KEY request) body.

(** The ten fields kept of a pull request, read without raising. *)
Definition pull_request_view (pr : value) : value :=
  VObj [("pullRequestId", opt_prop pr "pullRequestId");
        ("repository", opt_prop pr "repository");
        ("title", opt_prop pr "title");
        ("description", opt_prop pr "description");
        ("createdBy", opt_prop pr "createdBy");
        ("creationDate", opt_prop pr "creationDate");
        ("status", opt_prop pr "status");
        ("sourceRefName", opt_prop pr "sourceRefName");
        ("targetRefName", opt_prop pr "targetRefName");
        ("isDraft", opt_prop pr "isDraft")].

(** Counting the events of a history. *)
Definition is_call (ev : event) : bool :=
  match ev with
  | EvCall _ => true
  | EvAnswer _ _ => false
  end.

Definition calls_in (evs : list event) : nat := List.length (filter is_call evs).
Definition answers_in (evs : list event) : nat :=
  List.length (filter (fun ev => negb (is_call ev)) evs).

(** The largest time value of a Date. *)
Definition max_time : Z := 8640000000000000.

(** The expiry cached for an answer that arrives at [t]. *)
Definition cached_expiry (a : AccessToken) (t : Z) : Z :=
  if expiresOnTimestamp a =? 0 then t + 3600 * 1000 else expiresOnTimestamp a.


(** The number of token requests in flight. *)
Definition in_flight (s : cred_state) : nat :=
  match tokenPromise s with
  | Some _ => 1
  | None => 0
  end.

(** The URL of the batch fetch of [getWorkItems]. *)
Definition workitems_url (project : value) (idsString : string) : string :=
  "/" ++ to_string project ++ "/_apis/wit/workitems?ids=" ++ idsString
  ++ "&api-version=7.1".

(** The methods whose [catch] forgives a 404, the arguments they take,
    the URL each asks for and the field of the answer each returns. *)
Inductive forgiving : Type :=
| FPipelines | FIterations | FAreas | FBoards | FComments | FTestPlans | FAlerts.

Record method_args : Type := mkArgs {
  a_project : value;
  a_team : value;
  a_id : value;
  a_repositoryId : value;
  a_severity : value;
  a_state : value;
  a_top : value
}.

Definition forgiving_method (self : AzureDevOpsClient) (k : forgiving)
  (x : method_args) : prog value :=
  match k with
  | FPipelines => getPipelines self (a_project x)
  | FIterations => getIterations self (a_project x)
  | FAreas => getAreas self (a_project x)
  | FBoards => getBoards self (a_project x) (a_team x)
  | FComments => getWorkItemComments self (a_project x) (a_id x)
  | FTestPlans => getTestPlans self (a_project x)
  | FAlerts => getAdvancedSecurityAlerts self (a_project x) (a_repositoryId x)
                 (a_severity x) (a_state x) (a_top x)
  end.

Definition alerts_url (project repositoryId severity state top : value) : string :=
  let base := "/" ++ to_string project ++ "/_apis/alert/repositories/"
              ++ to_string repositoryId
              ++ "/alerts?api-version=7.1-preview.1&$top="
              ++ to_string (default_param (VNum 100) top) in
  let params :=
    ((if truthy severity then [("severity", to_string severity)] else [])
     ++ (if truthy state then [("state", to_string state)] else []))%list in
  if (URLSearchParams_toString params =? "")%string then base
  else base ++ "&" ++ URLSearchParams_toString params.

Definition forgiving_url (k : forgiving) (x : method_args) : string :=
  match k with
  | FPipelines => "/" ++ to_string (a_project x) ++ "/_apis/pipelines?api-version=7.1"
  | FIterations =>
      "/" ++ to_string (a_project x)
      ++ "/_apis/wit/classificationnodes/iterations?$depth=2&api-version=7.1"
  | FAreas =>
      "/" ++ to_string (a_project x)
      ++ "/_apis/wit/classificationnodes/areas?$depth=2&api-version=7.1"
  | FBoards =>
      "/" ++ to_string (a_project x) ++ "/" ++ to_string (a_team x)
      ++ "/_apis/work/boards?api-version=7.1"
  | FComments =>
      "/" ++ to_string (a_project x) ++ "/_apis/wit/workitems/" ++ to_string (a_id x)
      ++ "/comments?api-version=7.1-preview.4"
  | FTestPlans => "/" ++ to_string (a_project x) ++ "/_apis/test/plans?api-version=7.1"
  | FAlerts => alerts_url (a_project x) (a_repositoryId x) (a_severity x)
                 (a_state x) (a_top x)
  end.

Definition forgiving_field (k : forgiving) : string :=
  match k with
  | FIterations | FAreas => "children"
  | FComments => "comments"
  | _ => "value"
  end.

(** [getTestPlans] is the one that returns the field as it is. *)
Definition forgiving_defaults (k : forgiving) : bool :=
  match k with
  | FTestPlans => false
  | _ => true
  end.

(** The query text of [getMyWorkItems]. *)
Definition my_work_items_wiql (assignedToMe uniqueName project : value) : string :=
  "SELECT [System.Id] FROM WorkItems WHERE [System."
  ++ (if truthy (default_param (VBool true) assignedToMe)
      then "AssignedTo" else "CreatedBy")
  ++ "] = '" ++ to_string uniqueName ++ "' AND [System.TeamProject] = '"
  ++ to_string project ++ "'".

(** The URL of [getPullRequests], after the defaults of [top] and
    [status]. *)
Definition pull_requests_url (project repositoryId top status : value) : string :=
  let url :=
    "/" ++ to_string project ++ "/_apis/git/pullrequests?api-version=7.1&$top="
    ++ to_string (default_param (VNum 100) top)
    ++ "&searchCriteria.status=" ++ to_string (default_param (VStr "active") status) in
  if truthy repositoryId
  then url ++ "&searchCriteria.repositoryId=" ++ to_string repositoryId
  else url.

(** For the tools of [executeToolInternal] modelled with the claims: the
    first property of [args] that the [case] reads. *)
Definition first_argument_read : list (string * string) :=
  [("list_team_members", "project"); ("query_work_items", "wiql");
   ("get_work_items_by_ids", "ids"); ("get_pull_request", "project");
   ("get_identity_ids", "searchFilter");
   ("get_advanced_security_alert_details", "project")].

(** A string without a slash. *)
Definition no_slash (s : string) : bool :=
  forallb (fun c => negb (Ascii.eqb c "/")) (list_ascii_of_string s).

(** A list of names without a repetition. *)
Fixpoint distinct (l : list string) : bool :=
  match l with
  | [] => true
  | x :: rest => negb (mem x rest) && distinct rest
  end.

(** The characters a form-encoded value is made of: letters, digits and
    [*-._+%]. *)
Definition form_safe (c : ascii) : bool :=
  let n := N_of_ascii c in
  ((48 <=? n) && (n <=? 57) || (65 <=? n) && (n <=? 90)
   || (97 <=? n) && (n <=? 122) || (n =? 42) || (n =? 45)
   || (n =? 46) || (n =? 95) || (n =? 43) || (n =? 37))%N.

(** Where a request presents the key [k]. *)
Definition presents_key (request : HttpRequest) (k : string) : Prop :=
  header_x_api_key request = Some k
  \/ (exists auth, header_authorization request = Some auth
                   /\ remove_first "Bearer " auth = k)
  \/ query_code request = Some k
  \/ query_key request = Some k.

(** The tool of index.ts that calls each forgiving method, and the
    arguments its [case] passes on. *)
Definition forgiving_tool (k : forgiving) : string :=
  match k with
  | FPipelines => "list_pipelines"
  | FIterations => "list_iterations"
  | FAreas => "list_areas"
  | FBoards => "list_boards"
  | FComments => "get_work_item_comments"
  | FTestPlans => "list_test_plans"
  | FAlerts => "get_advanced_security_alerts"
  end.

Definition CallTool_arguments (args : value) : method_args :=
  mkArgs (opt_prop args "project") (opt_prop args "team") (opt_prop args "id")
         (opt_prop args "repositoryId") (opt_prop args "severity")
         (opt_prop args "state") (js_or (opt_prop args "top") (VNum 100)).

(* ================================================================== *)
(** ** More sample services and inputs *)
(* ================================================================== *)

(** An identity provider whose token lasts, in front of a service that
    knows nothing. *)
Definition net_token : remote :=
  mkRemote (fun _ => (GotToken (mkAccessToken "tok" 5000000), 900))
           (fun _ _ => (HttpError not_found, 1000)).

(** An identity provider whose token is already within a minute of its
    expiry when it arrives. *)
Definition net_short_lived : remote :=
  mkRemote (fun _ => (GotToken (mkAccessToken "tok" 1000), 900))
           (fun _ _ => (HttpError not_found, 1000)).

Definition item_1 : value := VObj [("id", VNum 1)].

Definition item_2 : value := VObj [("id", VNum 2)].

(** A service that answers every POST with two work item references and
    every GET with a list of one element. *)
Definition net_items : remote :=
  mkRemote (fun _ => (GotNull, 0))
           (fun _ r => match req_method r with
                       | POST => (Response (VObj [("workItems", VArr [item_1; item_2])]), 1)
                       | GET => (Response (VObj [("count", VNum 1);
                                                 ("value", VArr [item_1])]), 2)
                       end).

Definition ann : value := VObj [("uniqueName", VStr "ann@contoso.com")].

(** A service that knows the caller and finds no work item. *)
Definition net_user : remote :=
  mkRemote (fun _ => (GotNull, 0))
           (fun _ r => match req_method r with
                       | POST => (Response (VObj [("workItems", VArr [])]), 1)
                       | GET => (Response (VObj [("authenticatedUser", ann)]), 2)
                       end).

Definition initialize_body : value :=
  VObj [("jsonrpc", VStr "2.0"); ("method", VStr "initialize");
        ("params", VObj []); ("id", VNum 1)].

Definition no_key : HttpRequest := mkHttpRequest None None None None.

Definition token_5000000 : AccessToken := mkAccessToken "tok" 5000000.

Definition token_far : AccessToken := mkAccessToken "tok" 9000000000000000000.

Definition requested : cred_state := snd (start_request cred_init).

(* ================================================================== *)
(** * Properties of the credential provider *)
(* ================================================================== *)

Module Credential.

Section Interactive.

Variable env : process_env.
Hypothesis interactive : USE_PAT env = false.

Lemma getAccessToken_hit now s t :
  valid_cached now s = Some t ->
  getAccessToken env now s = (Resolved t, s).
Proof.
  intros Hv. unfold getAccessToken. now rewrite interactive, Hv.
Qed.

Lemma getAccessToken_join now s p :
  valid_cached now s = None -> tokenPromise s = Some p ->
  getAccessToken env now s = (Awaiting p, s).
Proof.
  intros Hv Hp. unfold getAccessToken. now rewrite interactive, Hv, Hp.
Qed.

Lemma getAccessToken_start now s :
  valid_cached now s = None -> tokenPromise s = None ->
  getAccessToken env now s = start_request s.
Proof.
  intros Hv Hp. unfold getAccessToken. now rewrite interactive, Hv, Hp.
Qed.

(** Callers that miss the cache while a request is in flight all get
    the promise of that request, and nothing else happens. *)
Lemma run_calls_join nows : forall s p,
  tokenPromise s = Some p ->
  Forall (fun now => valid_cached now s = None) nows ->
  run env (map EvCall nows) s = (repeat (Awaiting p) (List.length nows), s).
Proof.
  induction nows as [|now rest IH]; intros s p Hp Hmiss; [reflexivity|].
  inversion Hmiss as [|? ? Hnow Hrest]; subst.
  cbn [map run step List.length repeat].
  rewrite (getAccessToken_join now s p Hnow Hp).
  rewrite (IH s p Hp Hrest). reflexivity.
Qed.

End Interactive.

Lemma valid_cached_start now s :
  valid_cached now (snd (start_request s)) = valid_cached now s.
Proof. reflexivity. Qed.

Lemma nth_settle (l : list promise_state) : forall p v d,
  (p < List.length l)%nat -> nth p (settle p v l) d = v.
Proof.
  induction l as [|x l IH]; intros p v d Hp; cbn in Hp; [lia|].
  destruct p as [|p]; cbn; [reflexivity|]. apply IH. lia.
Qed.

Lemma length_settle (l : list promise_state) : forall p v,
  List.length (settle p v l) = List.length l.
Proof.
  induction l as [|x l IH]; intros [|p] v; cbn; auto.
Qed.

Lemma nth_settle_other (l : list promise_state) : forall p q v d,
  p <> q -> nth q (settle p v l) d = nth q l d.
Proof.
  induction l as [|x l IH]; intros p q v d Hne; [now destruct p|].
  destruct p as [|p], q as [|q]; cbn; try reflexivity; try congruence.
  apply IH. congruence.
Qed.

Lemma Forall_repeat {A} (P : A -> Prop) (x : A) (n : nat) :
  P x -> Forall P (repeat x n).
Proof. intros Hx. induction n; cbn; auto. Qed.

(** Every state the provider can reach from its initial one names, in
    [tokenPromise], a promise that exists and is pending. *)
Lemma in_flight_ok_step env ev s :
  in_flight_ok s -> in_flight_ok (snd (step env ev s)).
Proof.
  intros Hok. destruct ev as [now|r now]; cbn.
  - unfold getAccessToken.
    destruct (USE_PAT env); [exact Hok|].
    destruct (valid_cached now s); [exact Hok|].
    destruct (tokenPromise s) eqn:Hp; [exact Hok|].
    cbn. intros p Hq. cbn in Hq. injection Hq as <-. cbn [promises].
    rewrite nth_error_app2 by lia. now rewrite Nat.sub_diag.
  - unfold complete_request. destruct (tokenPromise s) eqn:Hp; [|exact Hok].
    intros q Hq. cbn in Hq. discriminate.
Qed.

Lemma in_flight_ok_run env evs : forall s,
  in_flight_ok s -> in_flight_ok (snd (run env evs s)).
Proof.
  induction evs as [|ev rest IH]; intros s Hok; [exact Hok|].
  cbn [run].
  pose proof (in_flight_ok_step env ev s Hok) as H1.
  destruct (step env ev s) as [hs s1]. cbn in H1.
  specialize (IH s1 H1). destruct (run env rest s1) as [hs' s2]. exact IH.
Qed.

Lemma in_flight_ok_init : in_flight_ok cred_init.
Proof. intros p Hp. discriminate. Qed.

Lemma nth_error_settle (l : list promise_state) : forall p q v,
  nth_error (settle p v l) q
  = if (q =? p)%nat then option_map (fun _ => v) (nth_error l q)
    else nth_error l q.
Proof.
  induction l as [|x l IH]; intros p q v.
  - cbn. destruct q, p; cbn; try reflexivity; now destruct (q =? p)%nat.
  - destruct p as [|p], q as [|q]; cbn; try reflexivity. apply IH.
Qed.

Lemma settlement_not_pending r : settlement r <> Pending.
Proof. now destruct r. Qed.

(** At every moment of every history at most one request is in flight:
    a pending promise is the one [tokenPromise] names, and each promise
    stands for one [getToken] call. *)
Lemma coherent_step env ev s :
  coherent s -> coherent (snd (step env ev s)).
Proof.
  intros (Hok & Hlen & Hpend).
  split; [now apply in_flight_ok_step|].
  destruct ev as [now|r now]; cbn.
  - unfold getAccessToken.
    destruct (USE_PAT env); [split; assumption|].
    destruct (valid_cached now s); [split; assumption|].
    destruct (tokenPromise s) eqn:Hp; [cbn; rewrite Hp; split; assumption|].
    cbn. split; [rewrite !length_app; cbn; lia|].
    intros q Hq.
    destruct (Nat.lt_ge_cases q (List.length (promises s))) as [Hlt|Hge].
    + rewrite nth_error_app1 in Hq by exact Hlt.
      specialize (Hpend q Hq). congruence.
    + assert (Hin : (q < List.length (promises s ++ [Pending]))%nat).
      { apply nth_error_Some. rewrite Hq. discriminate. }
      rewrite length_app in Hin. cbn in Hin. f_equal. lia.
  - unfold complete_request.
    destruct (tokenPromise s) as [p|] eqn:Hp; [|rewrite Hp; split; assumption].
    cbn. split; [now rewrite length_settle|].
    intros q Hq. exfalso. rewrite nth_error_settle in Hq.
    destruct (Nat.eqb_spec q p) as [Heq|Hne].
    + rewrite Heq, (Hok p Hp) in Hq. cbn in Hq. injection Hq as Hq.
      now apply settlement_not_pending in Hq.
    + specialize (Hpend q Hq). congruence.
Qed.

Lemma coherent_run env evs : forall s,
  coherent s -> coherent (snd (run env evs s)).
Proof.
  induction evs as [|ev rest IH]; intros s Hok; [exact Hok|].
  cbn [run].
  pose proof (coherent_step env ev s Hok) as H1.
  destruct (step env ev s) as [hs s1]. cbn in H1.
  specialize (IH s1 H1). destruct (run env rest s1) as [hs' s2]. exact IH.
Qed.

Lemma coherent_init : coherent cred_init.
Proof.
  split; [exact in_flight_ok_init|]. split; [reflexivity|].
  intros [|q] Hq; discriminate.
Qed.

(** C3 (cache validity boundary).  In interactive mode, with a cached
    token whose expiry [e] is a valid instant and a clock whose reading
    plus one minute is one too: when [e] is strictly more than 60000 ms
    after [now], [getAccessToken] answers the cached token at once and
    leaves the state as it is, so no exchange starts; when [e] is 60000
    ms after [now] or less, the cached token is not answered: the caller
    waits for the request in flight when there is one, and otherwise a
    new request is started, which adds one [getToken] call. *)
Theorem cache_validity_boundary env s c e now :
  USE_PAT env = false ->
  cachedToken s = Some c -> expiresOn c = Some e ->
  Z.abs (now + 60000) <= 8640000000000000 ->
  (now + 60000 < e -> getAccessToken env now s = (Resolved (token c), s))
  /\ (e <= now + 60000 ->
      (forall p, tokenPromise s = Some p ->
                 getAccessToken env now s = (Awaiting p, s))
      /\ (tokenPromise s = None ->
          getAccessToken env now s = start_request s
          /\ getToken_calls (snd (start_request s))
             = (getToken_calls s ++ [AZURE_DEVOPS_SCOPE])%list)).
Proof.
  intros Hmode Hc He Hrange.
  assert (Hdate : new_Date (now + 60000) = Some (now + 60000)).
  { unfold new_Date. destruct (Z.leb_spec (Z.abs (now + 60000)) 8640000000000000); [reflexivity|lia]. }
  split.
  - intros Hlt. apply getAccessToken_hit; [exact Hmode|].
    unfold valid_cached. rewrite Hc, He, Hdate. cbn.
    destruct (Z.ltb_spec (now + 60000) e); [reflexivity|lia].
  - intros Hle.
    assert (Hmiss : valid_cached now s = None).
    { unfold valid_cached. rewrite Hc, He, Hdate. cbn.
      destruct (Z.ltb_spec (now + 60000) e); [lia|reflexivity]. }
    split.
    + intros p Hp. now apply getAccessToken_join.
    + intros Hp. split; [now apply getAccessToken_start|reflexivity].
Qed.

(** C1 (single flight).  In interactive mode, from a state with no
    request in flight, let one or more calls arrive, at any instants,
    each finding no valid cached token, before the identity provider
    answers.  Then exactly one [getToken] call is added to the log, all
    callers hold the same promise, and whatever the answer and its
    instant, completing the request adds no further call and settles
    every caller alike: when the answer is a token, each caller is
    given that token; when it is [null], each is given the error
    "Failed to acquire access token"; when the exchange is rejected
    with [e], each is given [e]. *)
Theorem single_flight env s now0 nows :
  USE_PAT env = false ->
  tokenPromise s = None ->
  Forall (fun now => valid_cached now s = None) (now0 :: nows) ->
  let hs := fst (run env (map EvCall (now0 :: nows)) s) in
  let s1 := snd (run env (map EvCall (now0 :: nows)) s) in
  getToken_calls s1 = (getToken_calls s ++ [AZURE_DEVOPS_SCOPE])%list
  /\ hs = repeat (Awaiting (List.length (promises s))) (S (List.length nows))
  /\ Forall (fun h => outcome h s1 = Pending) hs
  /\ forall r t,
       let s2 := complete_request r t s1 in
       getToken_calls s2 = getToken_calls s1
       /\ tokenPromise s2 = None
       /\ (forall a, r = GotToken a ->
           Forall (fun h => outcome h s2 = Fulfilled (at_token a)) hs)
       /\ (r = GotNull ->
           Forall (fun h => outcome h s2
                            = Rejected (Error "Failed to acquire access token")) hs)
       /\ (forall e, r = GetTokenRejected e ->
           Forall (fun h => outcome h s2 = Rejected e) hs).
Proof.
  intros Hmode Hnone Hmiss hs s1.
  inversion Hmiss as [|? ? Hnow0 Hrest]; subst.
  assert (Hrun : run env (map EvCall (now0 :: nows)) s
                 = (repeat (Awaiting (List.length (promises s))) (S (List.length nows)),
                    snd (start_request s))).
  { cbn [map run step].
    rewrite (getAccessToken_start env Hmode now0 s Hnow0 Hnone).
    pose proof (run_calls_join env Hmode nows (snd (start_request s))
                  (List.length (promises s)) eq_refl Hrest) as Hjoin.
    cbn [start_request snd] in Hjoin. cbn [start_request].
    rewrite Hjoin. reflexivity. }
  subst hs s1. rewrite Hrun. cbn [fst snd start_request].
  assert (Hlen : (List.length (promises s) < List.length (promises s ++ [Pending]))%nat).
  { rewrite length_app. cbn. lia. }
  split; [reflexivity|]. split; [reflexivity|]. split.
  { apply Forall_repeat. cbn. rewrite app_nth2 by lia. now rewrite Nat.sub_diag. }
  intros r t.
  split; [reflexivity|]. split; [reflexivity|].
  split; [|split]; intros; subst r; apply Forall_repeat; cbn; now apply nth_settle.
Qed.

(** C7 (failed exchange).  In interactive mode, when the request in
    flight ends in a failure ([getToken] answers [null] or rejects),
    [tokenPromise] is reset, the cached token is what it was, no
    [getToken] call is added, and everyone who holds the promise of that
    request sees the same rejection; a later call that finds no valid
    cached token starts a new request, on a new promise, with one more
    [getToken] call. *)
Theorem failed_exchange env s p r t :
  USE_PAT env = false ->
  in_flight_ok s -> tokenPromise s = Some p ->
  is_failure r = true ->
  let s' := complete_request r t s in
  tokenPromise s' = None
  /\ cachedToken s' = cachedToken s
  /\ getToken_calls s' = getToken_calls s
  /\ (exists e, settlement r = Rejected e
                /\ outcome (Awaiting p) s' = Rejected e)
  /\ forall now, valid_cached now s' = None ->
       getAccessToken env now s' = start_request s'
       /\ fst (start_request s') = Awaiting (List.length (promises s'))
       /\ List.length (promises s') <> p
       /\ outcome (Awaiting p) (snd (start_request s')) = outcome (Awaiting p) s'
       /\ getToken_calls (snd (start_request s'))
          = (getToken_calls s ++ [AZURE_DEVOPS_SCOPE])%list.
Proof.
  intros Hmode Hok Hp Hfail s'.
  assert (Hlt : (p < List.length (promises s))%nat).
  { apply nth_error_Some. rewrite (Hok p Hp). discriminate. }
  assert (Hs' : s' = mkCred (sharedCredential s) (cachedToken s) None
                       (settle p (settlement r) (promises s)) (getToken_calls s)).
  { subst s'. unfold complete_request. rewrite Hp.
    destruct r; [discriminate| reflexivity | reflexivity]. }
  rewrite Hs'. cbn [tokenPromise cachedToken getToken_calls promises outcome].
  repeat split.
  - destruct r as [a| |e0]; [discriminate| |].
    + eexists; split; [reflexivity|]. now apply nth_settle.
    + eexists; split; [reflexivity|]. now apply nth_settle.
  - now apply getAccessToken_start.
  - rewrite length_settle. lia.
  - cbn. rewrite app_nth1; [reflexivity|]. rewrite length_settle. exact Hlt.
Qed.

End Credential.

(* ================================================================== *)
(** * Base64 read back, and the 404 test *)
(* ================================================================== *)

Module Encoding.

Lemma groups_ok : forallb (fun a => forallb (group_ok a) all_bytes) all_bytes = true.
Proof. vm_compute. reflexivity. Qed.

Lemma group_ok_byte a b : (a < 256)%N -> (b < 256)%N -> group_ok a b = true.
Proof.
  intros Ha Hb.
  assert (Hin : forall n, (n < 256)%N -> In n all_bytes).
  { intros n Hn. unfold all_bytes. rewrite <- (N2Nat.id n). apply in_map, in_seq. lia. }
  pose proof groups_ok as H.
  rewrite forallb_forall in H. specialize (H a (Hin a Ha)).
  rewrite forallb_forall in H. exact (H b (Hin b Hb)).
Qed.

Lemma sextet_ok_char n :
  sextet_ok n = true ->
  exists c, sextet n = String c "" /\ Ascii.eqb c "=" = false /\ sextet_of c = Some n.
Proof.
  unfold sextet_ok. destruct (sextet n) as [|c [|? ?]]; try discriminate.
  intros H. apply andb_prop in H as [Hc Hs]. exists c.
  split; [reflexivity|]. split; [now apply negb_true_iff|].
  destruct (sextet_of c) as [m|]; [|discriminate].
  apply N.eqb_eq in Hs. now subst.
Qed.

Lemma group_facts a b :
  (a < 256)%N -> (b < 256)%N ->
  let s1 := N.shiftr a 2 in
  let s2 := N.lor (N.shiftl (N.land a 3) 4) (N.shiftr b 4) in
  let t2 := N.shiftl (N.land a 3) 4 in
  let s3 := N.lor (N.shiftl (N.land a 15) 2) (N.shiftr b 6) in
  let t3 := N.shiftl (N.land a 15) 2 in
  let s4 := N.land b 63 in
  (sextet_ok s1 = true /\ sextet_ok s2 = true /\ sextet_ok t2 = true)
  /\ (sextet_ok s3 = true /\ sextet_ok t3 = true /\ sextet_ok s4 = true)
  /\ (N.lor (N.shiftl s1 2) (N.shiftr s2 4) = a
      /\ N.lor (N.shiftl s1 2) (N.shiftr t2 4) = a
      /\ N.land s2 15 = N.shiftr b 4)
  /\ (N.lor (N.shiftl (N.shiftr a 4) 4) (N.shiftr s3 2) = a
      /\ N.lor (N.shiftl (N.shiftr a 4) 4) (N.shiftr t3 2) = a
      /\ N.lor (N.shiftl (N.land s3 3) 6) s4 = b).
Proof.
  intros Ha Hb. pose proof (group_ok_byte a b Ha Hb) as G.
  unfold group_ok in G. cbv zeta in G |- *.
  repeat rewrite andb_true_iff in G. repeat rewrite N.eqb_eq in G.
  tauto.
Qed.

Lemma base64_decode_bytes_encode n bs :
  (List.length bs <= n)%nat ->
  Forall (fun b => (b < 256)%N) bs ->
  base64_decode_bytes (list_ascii_of_string (base64_bytes bs)) = Some bs.
Proof.
  revert bs. induction n as [|n IH]; intros bs Hlen Hb.
  { destruct bs; [reflexivity | cbn in Hlen; lia]. }
  destruct bs as [|a [|b [|c rest]]]; [reflexivity | | |].
  - inversion Hb as [|? ? Ha _]; subst.
    destruct (group_facts a 0 Ha eq_refl) as ((K1 & _ & K2) & _ & (_ & R & _) & _).
    destruct (sextet_ok_char _ K1) as (c1 & E1 & _ & D1).
    destruct (sextet_ok_char _ K2) as (c2 & E2 & _ & D2).
    cbn [base64_bytes]. rewrite E1, E2.
    cbn [append list_ascii_of_string base64_decode_bytes].
    rewrite D1, D2. cbn [Ascii.eqb Bool.eqb]. now rewrite R.
  - inversion Hb as [|? ? Ha Hb']; subst. inversion Hb' as [|? ? Hb0 _]; subst.
    destruct (group_facts a b Ha Hb0) as ((K1 & K2 & _) & _ & (R1 & _ & R2) & _).
    destruct (group_facts b 0 Hb0 eq_refl) as (_ & (_ & K3 & _) & _ & (_ & R3 & _)).
    destruct (sextet_ok_char _ K1) as (c1 & E1 & _ & D1).
    destruct (sextet_ok_char _ K2) as (c2 & E2 & _ & D2).
    destruct (sextet_ok_char _ K3) as (c3 & E3 & N3 & D3).
    cbn [base64_bytes]. rewrite E1, E2, E3.
    cbn [append list_ascii_of_string base64_decode_bytes].
    rewrite D1, D2, N3, D3. cbn [Ascii.eqb Bool.eqb]. now rewrite R1, R2, R3.
  - inversion Hb as [|? ? Ha Hb']; subst. inversion Hb' as [|? ? Hb0 Hb'']; subst.
    inversion Hb'' as [|? ? Hc Hrest]; subst.
    destruct (group_facts a b Ha Hb0) as ((K1 & K2 & _) & _ & (R1 & _ & R2) & _).
    destruct (group_facts b c Hb0 Hc) as (_ & (K3 & _ & K4) & _ & (R3 & _ & R4)).
    destruct (sextet_ok_char _ K1) as (c1 & E1 & _ & D1).
    destruct (sextet_ok_char _ K2) as (c2 & E2 & _ & D2).
    destruct (sextet_ok_char _ K3) as (c3 & E3 & N3 & D3).
    destruct (sextet_ok_char _ K4) as (c4 & E4 & N4 & D4).
    cbn [base64_bytes]. rewrite E1, E2, E3, E4.
    cbn [append list_ascii_of_string base64_decode_bytes].
    rewrite D1, D2, N3, D3, N4, D4.
    rewrite (IH rest) by (cbn in Hlen; (lia || assumption)).
    now rewrite R1, R2, R3, R4.
Qed.

Lemma map_ascii_of_N_of_ascii l : map ascii_of_N (map N_of_ascii l) = l.
Proof.
  induction l as [|c l IH]; [reflexivity|].
  cbn [map]. now rewrite ascii_N_embedding, IH.
Qed.

Lemma base64_decode_base64 s : base64_decode (base64 s) = Some s.
Proof.
  unfold base64_decode, base64.
  rewrite (base64_decode_bytes_encode _ _ (le_n _)).
  - cbn [option_map]. rewrite map_ascii_of_N_of_ascii.
    now rewrite string_of_list_ascii_of_string.
  - apply Forall_forall. intros b Hin. apply in_map_iff in Hin as (c & <- & _).
    apply N_ascii_bounded.
Qed.

Lemma base64_decode_bytes_length cs bs n :
  (List.length cs <= n)%nat ->
  base64_decode_bytes cs = Some bs -> (List.length bs <= List.length cs)%nat.
Proof.
  revert cs bs. induction n as [|n IH]; intros cs bs Hlen H.
  { destruct cs; [|cbn in Hlen; lia]. injection H as <-. cbn. lia. }
  destruct cs as [|c1 [|c2 [|c3 [|c4 rest]]]]; try discriminate.
  { injection H as <-. cbn. lia. }
  cbn [base64_decode_bytes] in H.
  destruct (sextet_of c1); [|discriminate]. destruct (sextet_of c2); [|discriminate].
  destruct (Ascii.eqb c3 "=").
  - destruct (Ascii.eqb c4 "="); [|discriminate].
    destruct rest; [|discriminate]. injection H as <-. cbn. lia.
  - destruct (sextet_of c3); [|discriminate].
    destruct (Ascii.eqb c4 "=").
    + destruct rest; [|discriminate]. injection H as <-. cbn. lia.
    + destruct (sextet_of c4); [|discriminate].
      destruct (base64_decode_bytes rest) as [bs'|] eqn:E; [|discriminate].
      injection H as <-. cbn in Hlen |- *.
      specialize (IH rest bs' ltac:(lia) E). lia.
Qed.

Lemma length_list_ascii_of_string s :
  List.length (list_ascii_of_string s) = String.length s.
Proof. induction s as [|c s IH]; [reflexivity|]. cbn. now rewrite IH. Qed.

Lemma base64_is_not_the_text s : base64 (":" ++ s) <> s.
Proof.
  intros H. pose proof (base64_decode_base64 (":" ++ s)) as D.
  rewrite H in D. unfold base64_decode in D.
  destruct (base64_decode_bytes (list_ascii_of_string s)) as [bs|] eqn:E; [|discriminate].
  cbn [option_map] in D. injection D as D.
  pose proof (base64_decode_bytes_length _ _ _ (le_n _) E) as L.
  apply (f_equal list_ascii_of_string) in D.
  rewrite list_ascii_of_string_of_list_ascii in D.
  apply (f_equal (@List.length ascii)) in D.
  rewrite length_map, !length_list_ascii_of_string in D.
  rewrite length_list_ascii_of_string in L. cbn in D. lia.
Qed.

Lemma status_is_404_true e : response_status e = Some 404 -> status_is_404 e = true.
Proof. intros H. unfold status_is_404. now rewrite H. Qed.

Lemma status_is_404_false e : response_status e <> Some 404 -> status_is_404 e = false.
Proof.
  intros H. unfold status_is_404.
  destruct (response_status e) as [[|p|p]|]; try reflexivity.
  do 9 (destruct p as [p|p|]; try reflexivity).
  now contradiction H.
Qed.

End Encoding.

(* ================================================================== *)
(** * Properties of the two authentication modes *)
(* ================================================================== *)

Module Modes.

Section Static.

Variable env : process_env.
Variable net : remote.
Hypothesis static : USE_PAT env = true.

Lemma run_calls_static evs : forall s,
  getToken_calls (snd (run env evs s)) = getToken_calls s
  /\ Forall (fun h => h = Resolved (pat_text env)) (fst (run env evs s)).
Proof.
  induction evs as [|ev rest IH]; intros s; [split; constructor|].
  cbn [run]. destruct ev as [now|r now]; cbn [step].
  - unfold getAccessToken. rewrite static.
    destruct (IH s) as [Hc Hh]. destruct (run env rest s) as [hs' s2].
    cbn in *. split; [exact Hc|]. constructor; [reflexivity|exact Hh].
  - destruct (IH (complete_request r now s)) as [Hc Hh].
    destruct (run env rest (complete_request r now s)) as [hs' s2].
    cbn in *. split; [|exact Hh]. rewrite Hc.
    unfold complete_request. now destruct (tokenPromise s).
Qed.

Lemma run_getAccessToken_static w :
  run_getAccessToken env net w = (Ok (pat_text env), w).
Proof.
  unfold run_getAccessToken, getAccessToken. rewrite static.
  now destruct w.
Qed.

Lemma getAuthHeader_static : getAuthHeader env = Ok (basic_header env).
Proof. unfold getAuthHeader. now rewrite static. Qed.

Lemma run_getClient_static self w :
  run_getClient env net self w = ensureInitialized env net self w.
Proof.
  unfold run_getClient. rewrite static. cbn [negb].
  now destruct (ensureInitialized env net self w) as [[[]|e|] w1].
Qed.

Lemma ensureInitialized_static self w :
  ensureInitialized env net self w
  = match axiosInstance w, initialized w with
    | Some _, true => (Ok tt, w)
    | _, _ =>
        (Ok tt, set_axios w (mkAxios ("https://dev.azure.com/" ++ organization self)
                                     (basic_header env)))
    end.
Proof.
  unfold ensureInitialized. rewrite static, getAuthHeader_static. reflexivity.
Qed.

Lemma run_getClient_static_ok self w :
  fst (run_getClient env net self w) = Ok tt
  /\ cred (snd (run_getClient env net self w)) = cred w
  /\ sent (snd (run_getClient env net self w)) = sent w
  /\ (instance_carries (basic_header env) w ->
      instance_carries (basic_header env) (snd (run_getClient env net self w)))
  /\ (axiosInstance w = None ->
      axiosInstance (snd (run_getClient env net self w))
      = Some (mkAxios ("https://dev.azure.com/" ++ organization self)
                      (basic_header env))).
Proof.
  rewrite run_getClient_static, ensureInitialized_static.
  destruct (axiosInstance w) as [a|] eqn:Ha; [destruct (initialized w) eqn:Hi|];
    cbn; repeat split; auto; try discriminate;
    intros _ b Hb; cbn in Hb; now injection Hb as <-.
Qed.

Lemma run_send_effect m url body w :
  cred (snd (run_send net m url body w)) = cred w
  /\ axiosInstance (snd (run_send net m url body w)) = axiosInstance w
  /\ (sent (snd (run_send net m url body w)) = sent w
      \/ exists a, axiosInstance w = Some a
           /\ sent (snd (run_send net m url body w))
              = (sent w ++ [mkRequest (Some (baseURL a)) m url (authorization a) body])%list).
Proof.
  unfold run_send. destruct (axiosInstance w) as [a|] eqn:Ha.
  - destruct (rest_service net _ _) as [answer t']. cbn.
    repeat split; auto. right. now exists a.
  - cbn. auto.
Qed.

Lemma run_axios_get_effect url auth w :
  cred (snd (run_axios_get net url auth w)) = cred w
  /\ axiosInstance (snd (run_axios_get net url auth w)) = axiosInstance w
  /\ sent (snd (run_axios_get net url auth w))
     = (sent w ++ [mkRequest None GET url auth VUndefined])%list.
Proof.
  unfold run_axios_get. destruct (rest_service net _ _) as [answer t']. cbn. auto.
Qed.

Lemma run_singleton_effect w :
  cred (snd (run_singleton env w)) = cred w
  /\ axiosInstance (snd (run_singleton env w)) = axiosInstance w
  /\ sent (snd (run_singleton env w)) = sent w.
Proof.
  unfold run_singleton. destruct (azureClient w); [auto|].
  destruct (new_AzureDevOpsClient env); cbn; auto.
Qed.

(** In static-token mode no program, whatever it awaits, touches the
    state of the credential provider. *)
Lemma exec_static_cred {A} (p : prog A) : forall w,
  cred (snd (exec env net p w)) = cred w.
Proof.
  induction p as [a|e|k IHk h IHh|self k IHk h IHh|m url body k IHk h IHh
                  |url auth k IHk h IHh|k IHk h IHh]; intros w; cbn [exec];
    try reflexivity.
  - rewrite run_getAccessToken_static. apply IHk.
  - destruct (run_getClient_static_ok self w) as (_ & Hc & _).
    destruct (run_getClient env net self w) as [[u|e|] w1]; cbn in Hc;
      rewrite <- Hc; [apply IHk|apply IHh|reflexivity].
  - destruct (run_send_effect m url body w) as (Hc & _).
    destruct (run_send net m url body w) as [[v|e|] w1]; cbn in Hc;
      rewrite <- Hc; [apply IHk|apply IHh|reflexivity].
  - destruct (run_axios_get_effect url auth w) as (Hc & _).
    destruct (run_axios_get net url auth w) as [[v|e|] w1]; cbn in Hc;
      rewrite <- Hc; [apply IHk|apply IHh|reflexivity].
  - destruct (run_singleton_effect w) as (Hc & _).
    destruct (run_singleton env w) as [[c|e|] w1]; cbn in Hc;
      rewrite <- Hc; [apply IHk|apply IHh|reflexivity].
Qed.

(** In static-token mode the shared instance keeps the Basic header
    and every request made through it carries that header. *)
Lemma exec_static_headers {A} (p : prog A) : forall w,
  instance_carries (basic_header env) w ->
  instance_requests_carry (basic_header env) (sent w) ->
  instance_carries (basic_header env) (snd (exec env net p w))
  /\ instance_requests_carry (basic_header env) (sent (snd (exec env net p w))).
Proof.
  induction p as [a|e|k IHk h IHh|self k IHk h IHh|m url body k IHk h IHh
                  |url auth k IHk h IHh|k IHk h IHh]; intros w Hi Hl; cbn [exec];
    try (split; assumption).
  - rewrite run_getAccessToken_static. now apply IHk.
  - destruct (run_getClient_static_ok self w) as (_ & _ & Hs & Hh & _).
    specialize (Hh Hi).
    destruct (run_getClient env net self w) as [[u|e|] w1]; cbn in Hs, Hh;
      rewrite <- Hs in Hl; [now apply IHk|now apply IHh|now split].
  - destruct (run_send_effect m url body w) as (_ & Ha & Hs).
    assert (Hl' : instance_requests_carry (basic_header env)
                    (sent (snd (run_send net m url body w)))).
    { destruct Hs as [Hs|(a & Hinst & Hs)]; rewrite Hs; [exact Hl|].
      apply Forall_app. split; [exact Hl|]. constructor; [|constructor].
      intros _. cbn. now apply Hi. }
    assert (Hi' : instance_carries (basic_header env) (snd (run_send net m url body w))).
    { intros a Hinst. apply Hi. now rewrite <- Ha. }
    destruct (run_send net m url body w) as [[v|e|] w1]; cbn in Hl', Hi';
      [now apply IHk|now apply IHh|now split].
  - destruct (run_axios_get_effect url auth w) as (_ & Ha & Hs).
    assert (Hl' : instance_requests_carry (basic_header env)
                    (sent (snd (run_axios_get net url auth w)))).
    { rewrite Hs. apply Forall_app. split; [exact Hl|].
      constructor; [|constructor]. intros Hbase. now cbn in Hbase. }
    assert (Hi' : instance_carries (basic_header env) (snd (run_axios_get net url auth w))).
    { intros a Hinst. apply Hi. now rewrite <- Ha. }
    destruct (run_axios_get net url auth w) as [[v|e|] w1]; cbn in Hl', Hi';
      [now apply IHk|now apply IHh|now split].
  - destruct (run_singleton_effect w) as (_ & Ha & Hs).
    assert (Hi' : instance_carries (basic_header env) (snd (run_singleton env w))).
    { intros a Hinst. apply Hi. now rewrite <- Ha. }
    rewrite <- Hs in Hl.
    destruct (run_singleton env w) as [[c|e|] w1]; cbn in Hl, Hi';
      [now apply IHk|now apply IHh|now split].
Qed.

End Static.

Lemma searchIdentities_static env net self searchFilter w :
  USE_PAT env = true ->
  sent (snd (exec env net (searchIdentities self searchFilter) w))
  = app (sent w) [mkRequest None GET (identities_url self searchFilter)
                          (bearer_header env) VUndefined].
Proof.
  intros static. unfold searchIdentities, getAccessToken_await, axios_get.
  cbn [bind exec]. rewrite (run_getAccessToken_static env net static).
  cbn [bind exec].
  destruct (run_axios_get_effect net
              (identities_url self searchFilter) (bearer_header env) w) as (_ & _ & Hs).
  unfold identities_url, bearer_header in Hs.
  destruct (run_axios_get net _ _ w) as [[v|e|] w1]; cbn in Hs |- *; exact Hs.
Qed.

Lemma client_send_static env net self m url body w :
  USE_PAT env = true ->
  axiosInstance w = None ->
  sent (snd (exec env net (_ <- getClient self ;; ClientSend m url body Ret Throw) w))
  = app (sent w) [mkRequest (Some ("https://dev.azure.com/" ++ organization self))
                          m url (basic_header env) body].
Proof.
  intros static Hnone. unfold getClient. cbn [bind exec].
  destruct (run_getClient_static_ok env net static self w) as (Hok & _ & Hs & _ & Ha).
  specialize (Ha Hnone).
  destruct (run_getClient env net self w) as [[u|e|] w1]; cbn in Hok, Hs, Ha;
    try discriminate.
  cbn [bind exec]. unfold run_send. rewrite Ha. cbn [baseURL authorization].
  destruct (rest_service net _ _) as [[data|e] t']; cbn; now rewrite Hs.
Qed.

(** C6 (mode exclusivity).  With a static secret configured: whatever
    the sequence of calls and identity-provider answers and whatever
    their instants, the log of [getToken] calls stays as it was and
    every call of [getAccessToken] answers the secret at once; no
    program over the backend's suspension points changes the state of
    the credential provider; and [getClient] always succeeds, with the
    header built by [getAuthHeader] from the secret on the instance it
    creates. *)
Theorem static_mode_never_exchanges env :
  USE_PAT env = true ->
  (forall evs s,
      getToken_calls (snd (run env evs s)) = getToken_calls s
      /\ Forall (fun h => h = Resolved (pat_text env)) (fst (run env evs s)))
  /\ (forall net A (p : prog A) w, cred (snd (exec env net p w)) = cred w)
  /\ getAuthHeader env = Ok (basic_header env)
  /\ (forall net self w,
        fst (run_getClient env net self w) = Ok tt
        /\ (axiosInstance w = None ->
            axiosInstance (snd (run_getClient env net self w))
            = Some (mkAxios ("https://dev.azure.com/" ++ organization self)
                            (basic_header env)))).
Proof.
  intros static. split; [|split; [|split]].
  - intros evs s. now apply run_calls_static.
  - intros net A p w. now apply exec_static_cred.
  - now apply getAuthHeader_static.
  - intros net self w.
    destruct (run_getClient_static_ok env net static self w) as (H1 & _ & _ & _ & H2).
    now split.
Qed.

(** C10 (two encodings of the static secret).  Let
    [AZURE_DEVOPS_PAT] hold the non-empty text [secret], the shared
    instance not being created yet.  Every request that any program
    makes through the shared instance carries [Basic] followed by the
    base64 of a colon and [secret], and a method that asks for the
    client and sends does put such a request on the wire;
    [searchIdentities] makes one request outside the instance, carrying
    [Bearer] followed by [secret] itself.  The two credentials are the
    same secret in two encodings: the first reads back, as base64, to
    a colon and [secret], and is never the text [secret]. *)
Theorem static_mode_two_encodings env net self secret :
  AZURE_DEVOPS_PAT env = Some secret ->
  (secret =? "")%string = false ->
  (forall A (p : prog A) w,
      axiosInstance w = None -> sent w = [] ->
      instance_requests_carry ("Basic " ++ base64 (":" ++ secret))
        (sent (snd (exec env net p w))))
  /\ (forall m url body w,
        axiosInstance w = None ->
        sent (snd (exec env net (_ <- getClient self ;; ClientSend m url body Ret Throw) w))
        = app (sent w) [mkRequest (Some ("https://dev.azure.com/" ++ organization self))
                                m url ("Basic " ++ base64 (":" ++ secret)) body])
  /\ (forall searchFilter w,
        sent (snd (exec env net (searchIdentities self searchFilter) w))
        = app (sent w) [mkRequest None GET (identities_url self searchFilter)
                                ("Bearer " ++ secret) VUndefined])
  /\ base64_decode (base64 (":" ++ secret)) = Some (":" ++ secret)
  /\ base64 (":" ++ secret) <> secret.
Proof.
  intros Hpat Hne.
  assert (static : USE_PAT env = true) by (unfold USE_PAT; now rewrite Hpat, Hne).
  assert (Hbasic : basic_header env = "Basic " ++ base64 (":" ++ secret))
    by (unfold basic_header, pat_text; now rewrite Hpat).
  assert (Hbearer : bearer_header env = "Bearer " ++ secret)
    by (unfold bearer_header, pat_text; now rewrite Hpat).
  split; [|split; [|split; [|split]]].
  - intros A p w Hnone Hempty. rewrite <- Hbasic.
    apply (exec_static_headers env net static p w).
    + intros a Ha. congruence.
    + rewrite Hempty. constructor.
  - intros m url body w Hnone. rewrite <- Hbasic. now apply client_send_static.
  - intros searchFilter w. rewrite <- Hbearer. now apply searchIdentities_static.
  - apply Encoding.base64_decode_base64.
  - apply Encoding.base64_is_not_the_text.
Qed.

End Modes.

(* ================================================================== *)
(** * Properties of the backend client and of dispatch *)
(* ================================================================== *)

Module Dispatching.

Section Running.

Variable env : process_env.
Variable net : remote.

Lemma exec_bind {A B} (p : prog A) (f : A -> prog B) : forall w,
  exec env net (bind p f) w
  = match exec env net p w with
    | (Ok a, w') => exec env net (f a) w'
    | (Thrown e, w') => (Thrown e, w')
    | (Stuck, w') => (Stuck, w')
    end.
Proof.
  induction p as [a|e|k IHk h IHh|self k IHk h IHh|m url body k IHk h IHh
                  |url auth k IHk h IHh|k IHk h IHh]; intros w; cbn [bind exec].
  - now destruct (exec env net (f a) w) as [[b|e|] w'].
  - reflexivity.
  - destruct (run_getAccessToken env net w) as [[x|e|] w']; auto.
  - destruct (run_getClient env net self w) as [[x|e|] w']; auto.
  - destruct (run_send net m url body w) as [[x|e|] w']; auto.
  - destruct (run_axios_get net url auth w) as [[x|e|] w']; auto.
  - destruct (run_singleton env w) as [[x|e|] w']; auto.
Qed.

Lemma exec_try_catch {A} (p : prog A) (handler : js_error -> prog A) : forall w,
  exec env net (try_catch p handler) w
  = match exec env net p w with
    | (Ok a, w') => (Ok a, w')
    | (Thrown e, w') => exec env net (handler e) w'
    | (Stuck, w') => (Stuck, w')
    end.
Proof.
  induction p as [a|e|k IHk h IHh|self k IHk h IHh|m url body k IHk h IHh
                  |url auth k IHk h IHh|k IHk h IHh]; intros w; cbn [try_catch exec].
  - reflexivity.
  - now destruct (exec env net (handler e) w) as [[b|e'|] w'].
  - destruct (run_getAccessToken env net w) as [[x|e|] w']; auto.
  - destruct (run_getClient env net self w) as [[x|e|] w']; auto.
  - destruct (run_send net m url body w) as [[x|e|] w']; auto.
  - destruct (run_axios_get net url auth w) as [[x|e|] w']; auto.
  - destruct (run_singleton env w) as [[x|e|] w']; auto.
Qed.

Lemma exec_getClient self w :
  exec env net (getClient self) w = run_getClient env net self w.
Proof.
  unfold getClient. cbn [exec].
  now destruct (run_getClient env net self w) as [[[]|e|] w'].
Qed.

Lemma exec_client_get url w :
  exec env net (client_get url) w = run_send net GET url VUndefined w.
Proof.
  unfold client_get. cbn [exec].
  now destruct (run_send net GET url VUndefined w) as [[v|e|] w'].
Qed.

Lemma exec_client_post url body w :
  exec env net (client_post url body) w = run_send net POST url body w.
Proof.
  unfold client_post. cbn [exec].
  now destruct (run_send net POST url body w) as [[v|e|] w'].
Qed.

(** Asking for a token sends no HTTP request, and neither does asking
    for the client. *)
Lemma run_getAccessToken_sent w :
  sent (snd (run_getAccessToken env net w)) = sent w.
Proof.
  unfold run_getAccessToken.
  destruct (getAccessToken env (time w) (cred w)) as [[t|p] c1]; [reflexivity|].
  now destruct (identity_provider net _) as [r t'].
Qed.

Lemma ensureInitialized_sent self w :
  sent (snd (ensureInitialized env net self w)) = sent w.
Proof.
  unfold ensureInitialized.
  destruct (axiosInstance w) as [a|]; [destruct (initialized w)|]; try reflexivity;
    (destruct (USE_PAT env);
     [now destruct (getAuthHeader env)
     |pose proof (run_getAccessToken_sent w) as H;
      now destruct (run_getAccessToken env net w) as [[t|e|] w1]]).
Qed.

Lemma run_getClient_sent self w :
  sent (snd (run_getClient env net self w)) = sent w.
Proof.
  unfold run_getClient.
  pose proof (ensureInitialized_sent self w) as H0.
  destruct (ensureInitialized env net self w) as [[u|e|] w1]; cbn in H0; try exact H0.
  destruct (USE_PAT env); cbn [negb]; [exact H0|].
  pose proof (run_getAccessToken_sent w1) as H1.
  destruct (run_getAccessToken env net w1) as [[t|e|] w2]; cbn in H1 |- *;
    try congruence.
  destruct (axiosInstance w2); cbn; congruence.
Qed.

(** A request through the shared instance adds at most itself to the
    log. *)
Lemma run_send_sent m url body w r w' :
  run_send net m url body w = (r, w') ->
  sent w' = sent w
  \/ exists req, sent w' = (sent w ++ [req])%list
                 /\ req_method req = m /\ req_url req = url.
Proof.
  unfold run_send. destruct (axiosInstance w) as [a|].
  - destruct (rest_service net _ _) as [answer t']. intros H.
    injection H as _ <-. right. eexists. cbn. repeat split.
  - intros H. injection H as _ <-. now left.
Qed.

Lemma run_send_ok_sent m url body w v w' :
  run_send net m url body w = (Ok v, w') ->
  exists req, sent w' = (sent w ++ [req])%list
              /\ req_method req = m /\ req_url req = url.
Proof.
  unfold run_send. destruct (axiosInstance w) as [a|]; [|discriminate].
  destruct (rest_service net _ _) as [answer t']. intros H.
  injection H as _ <-. eexists. cbn. repeat split.
Qed.

End Running.

Section Claims.

Variable env : process_env.
Variable net : remote.
Variable JSON_stringify : value -> value.
Variable CallTool_other : AzureDevOpsClient -> string -> value -> prog CallToolResult.
Variable executeTool_other : AzureDevOpsClient -> string -> value -> prog value.

Notation handler := (CallTool_handler JSON_stringify CallTool_other).
Notation run_prog := (exec env net).

Lemma getWorkItems_empty self project w :
  run_prog (getWorkItems self (VArr []) project) w = (Ok (VArr []), w).
Proof. reflexivity. Qed.

Lemma queryWorkItems_empty self wiql project w w1 w2 data refs :
  run_getClient env net self w = (Ok tt, w1) ->
  run_send net POST (wiql_url project) (VObj [("query", wiql)]) w1 = (Ok data, w2) ->
  read_prop data "workItems" = Some refs ->
  refs = VArr [] \/ truthy refs = false ->
  run_prog (queryWorkItems self wiql project) w = (Ok (VArr []), w2).
Proof.
  intros Hc Hs Hd Hz. unfold queryWorkItems.
  rewrite exec_bind, exec_getClient, Hc.
  rewrite exec_bind, exec_client_post. fold (wiql_url project). rewrite Hs.
  rewrite exec_bind. unfold get_prop. rewrite Hd. cbn [exec].
  destruct Hz as [-> | Hz]; [reflexivity|]. now rewrite Hz.
Qed.

Lemma getTeamMembers_error self project team w w1 w2 e :
  run_getClient env net self w = (Ok tt, w1) ->
  run_send net GET (team_members_url project team) VUndefined w1 = (Thrown e, w2) ->
  run_prog (getTeamMembers self project team) w
  = (if status_is_404 e then Ok (VArr []) else Thrown e, w2).
Proof.
  intros Hc Hs. unfold getTeamMembers.
  rewrite exec_bind, exec_getClient, Hc.
  rewrite exec_try_catch, exec_bind, exec_client_get.
  fold (team_members_url project team). rewrite Hs.
  now destruct (status_is_404 e).
Qed.

Lemma getPullRequestById_error self project repositoryId pullRequestId w w1 w2 e :
  run_getClient env net self w = (Ok tt, w1) ->
  run_send net GET (pull_request_url project repositoryId pullRequestId) VUndefined w1
  = (Thrown e, w2) ->
  run_prog (getPullRequestById self project repositoryId pullRequestId) w
  = (Thrown e, w2).
Proof.
  intros Hc Hs. unfold getPullRequestById.
  rewrite exec_bind, exec_getClient, Hc.
  rewrite exec_bind, exec_client_get.
  fold (pull_request_url project repositoryId pullRequestId). now rewrite Hs.
Qed.

Lemma getAdvancedSecurityAlertDetails_error self project repositoryId alertId w w1 w2 e :
  run_getClient env net self w = (Ok tt, w1) ->
  run_send net GET (alert_url project repositoryId alertId) VUndefined w1
  = (Thrown e, w2) ->
  run_prog (getAdvancedSecurityAlertDetails self project repositoryId alertId) w
  = (if status_is_404 e then Ok VNull else Thrown e, w2).
Proof.
  intros Hc Hs. unfold getAdvancedSecurityAlertDetails.
  rewrite exec_bind, exec_getClient, Hc.
  rewrite exec_try_catch, exec_client_get.
  fold (alert_url project repositoryId alertId). rewrite Hs.
  now destruct (status_is_404 e).
Qed.

(** What the CallTool handler makes of the end of a [case] body that
    awaits one backend method and wraps its value. *)
Lemma handler_wraps cases self name args (method : prog value) w :
  mem name cases = true ->
  CallTool_case JSON_stringify CallTool_other self name args
  = (v <- method ;; Ret (text_content JSON_stringify v)) ->
  run_prog (handler cases self name args) w
  = match run_prog method w with
    | (Ok v, w') => (Ok (mkCallToolResult (JSON_stringify v) false), w')
    | (Thrown e, w') =>
        (Ok (mkCallToolResult (VStr ("Error: " ++ message e)) true), w')
    | (Stuck, w') => (Stuck, w')
    end.
Proof.
  intros Hmem Hcase. unfold CallTool_handler. rewrite Hmem, Hcase.
  rewrite exec_try_catch, exec_bind.
  now destruct (run_prog method w) as [[v|e|] w'].
Qed.

(** C5 (empty-id short-circuit).  [getWorkItems] on an empty id array
    answers the empty array without any effect.  When the client is
    obtained and the WIQL POST answers data whose [workItems] is the
    empty array, or is missing or otherwise falsy, [queryWorkItems]
    answers the empty array, the POST is the only request it has put
    in the log, so no batch GET follows, and the CallTool handler
    reports that empty array as a success. *)
Theorem empty_ids_short_circuit self args w w1 w2 data refs :
  let wiql := opt_prop args "wiql" in
  let project := opt_prop args "project" in
  run_getClient env net self w = (Ok tt, w1) ->
  run_send net POST (wiql_url project) (VObj [("query", wiql)]) w1 = (Ok data, w2) ->
  read_prop data "workItems" = Some refs ->
  refs = VArr [] \/ truthy refs = false ->
  (forall w0, run_prog (getWorkItems self (VArr []) project) w0 = (Ok (VArr []), w0))
  /\ run_prog (queryWorkItems self wiql project) w = (Ok (VArr []), w2)
  /\ (exists req, sent w2 = (sent w ++ [req])%list
                  /\ req_method req = POST /\ req_url req = wiql_url project)
  /\ run_prog (handler CallTool_cases self "query_work_items" args) w
     = (Ok (mkCallToolResult (JSON_stringify (VArr [])) false), w2).
Proof.
  intros wiql project Hc Hs Hd Hz.
  pose proof (queryWorkItems_empty self wiql project w w1 w2 data refs Hc Hs Hd Hz) as Hq.
  split; [intros w0; apply getWorkItems_empty|].
  split; [exact Hq|]. split.
  - destruct (run_send_ok_sent net _ _ _ _ _ _ Hs) as (req & Hreq & Hm & Hu).
    exists req. repeat split; auto.
    pose proof (run_getClient_sent env net self w) as Hsent.
    rewrite Hc in Hsent. cbn in Hsent. now rewrite Hreq, Hsent.
  - rewrite (handler_wraps CallTool_cases self "query_work_items" args
               (queryWorkItems self wiql project) w eq_refl eq_refl).
    now rewrite Hq.
Qed.

(** C4 (not-found normalization).  Let the client be obtained and the
    request of the operation fail with error [e].  For [getTeamMembers],
    when the status of [e] is 404 the method answers the empty array,
    which the CallTool handler reports as a success; when [e] has
    another status, or none, it is raised again as it is and the handler
    reports it as an [isError] result.  For [getPullRequestById] the
    error is raised as it is, 404 or not, and the CallTool handler turns
    it into a result marked [isError] that carries the error's
    message. *)
Theorem not_found_normalization self args w w1 :
  let project := opt_prop args "project" in
  let team := opt_prop args "team" in
  let repositoryId := opt_prop args "repositoryId" in
  let pullRequestId := opt_prop args "pullRequestId" in
  run_getClient env net self w = (Ok tt, w1) ->
  (forall e w2,
      run_send net GET (team_members_url project team) VUndefined w1 = (Thrown e, w2) ->
      (response_status e = Some 404 ->
       run_prog (getTeamMembers self project team) w = (Ok (VArr []), w2)
       /\ run_prog (handler CallTool_cases self "list_team_members" args) w
          = (Ok (mkCallToolResult (JSON_stringify (VArr [])) false), w2))
      /\ (response_status e <> Some 404 ->
          run_prog (getTeamMembers self project team) w = (Thrown e, w2)
          /\ run_prog (handler CallTool_cases self "list_team_members" args) w
             = (Ok (mkCallToolResult (VStr ("Error: " ++ message e)) true), w2)))
  /\ (forall e w2,
        run_send net GET (pull_request_url project repositoryId pullRequestId)
          VUndefined w1 = (Thrown e, w2) ->
        run_prog (getPullRequestById self project repositoryId pullRequestId) w
        = (Thrown e, w2)
        /\ run_prog (handler CallTool_cases self "get_pull_request" args) w
           = (Ok (mkCallToolResult (VStr ("Error: " ++ message e)) true), w2)).
Proof.
  intros project team repositoryId pullRequestId Hc. split; intros e w2 Hs.
  - pose proof (getTeamMembers_error self project team w w1 w2 e Hc Hs) as Hm.
    pose proof (handler_wraps CallTool_cases self "list_team_members" args
                  (getTeamMembers self project team) w eq_refl eq_refl) as Hh.
    split; intros Hstatus.
    + rewrite (Encoding.status_is_404_true e Hstatus) in Hm.
      split; [exact Hm|]. rewrite Hh, Hm. reflexivity.
    + rewrite (Encoding.status_is_404_false e Hstatus) in Hm.
      split; [exact Hm|]. rewrite Hh, Hm. reflexivity.
  - pose proof (getPullRequestById_error self project repositoryId pullRequestId
                  w w1 w2 e Hc Hs) as Hm.
    split; [exact Hm|].
    rewrite (handler_wraps CallTool_cases self "get_pull_request" args
               (getPullRequestById self project repositoryId pullRequestId)
               w eq_refl eq_refl).
    now rewrite Hm.
Qed.

(** C9 (alert details on 404).  When the client is obtained and the
    GET of [getAdvancedSecurityAlertDetails] fails with a 404, the
    method answers [null] instead of raising; the CallTool handler of
    the second listing reports it as a success, and so does the
    [executeTool] endpoint of functions/mcp.ts with status 200. *)
Theorem alert_details_not_found_is_null self args w w1 w2 e :
  let project := opt_prop args "project" in
  let repositoryId := opt_prop args "repositoryId" in
  let alertId := opt_prop args "alertId" in
  run_getClient env net self w = (Ok tt, w1) ->
  run_send net GET (alert_url project repositoryId alertId) VUndefined w1
  = (Thrown e, w2) ->
  response_status e = Some 404 ->
  run_prog (getAdvancedSecurityAlertDetails self project repositoryId alertId) w
  = (Ok VNull, w2)
  /\ run_prog (handler CallTool_cases_extended self
                 "get_advanced_security_alert_details" args) w
     = (Ok (mkCallToolResult (JSON_stringify VNull) false), w2)
  /\ (azureClient w = Some self -> nullish args = false ->
      run_prog (executeTool_handler executeTool_other
                  "get_advanced_security_alert_details" (inr args)) w
      = (Ok (mkHttpResponse 200 (ToolSuccess VNull)), w2)).
Proof.
  intros project repositoryId alertId Hc Hs H404.
  assert (Hst : status_is_404 e = true) by (unfold status_is_404; now rewrite H404).
  pose proof (getAdvancedSecurityAlertDetails_error self project repositoryId alertId
                w w1 w2 e Hc Hs) as Hm.
  rewrite Hst in Hm. split; [exact Hm|]. split.
  - rewrite (handler_wraps CallTool_cases_extended self
               "get_advanced_security_alert_details" args
               (getAdvancedSecurityAlertDetails self project repositoryId alertId)
               w eq_refl eq_refl).
    now rewrite Hm.
  - intros Hself Hargs. unfold executeTool_handler.
    rewrite exec_try_catch, exec_bind. cbn [lift_parsed exec].
    rewrite exec_bind. unfold mcp_getClient. cbn [exec].
    unfold run_singleton. rewrite Hself. cbn [exec].
    rewrite exec_bind.
    assert (Hcall : executeToolInternal executeTool_other self
                      (VStr "get_advanced_security_alert_details") args
                    = getAdvancedSecurityAlertDetails self project repositoryId alertId).
    { subst project repositoryId alertId. unfold opt_prop.
      destruct args; try discriminate; reflexivity. }
    rewrite Hcall, Hm. reflexivity.
Qed.

(** C2 (unknown tool).  For a name without a [case]: the CallTool
    handler of index.ts, with either listing, is the immediate return
    of a result marked [isError] whose text is [Unknown tool: ] and the
    name, so it runs without any effect and raises nothing.  In
    functions/mcp.ts [executeToolInternal] is the immediate
    [throw] of that message; once the client object exists, the
    [executeTool] endpoint and the [tools/call] branch of the [mcp]
    endpoint catch it and answer status 500 with that message, and the
    logs of HTTP requests and of token exchanges are what they were. *)
Theorem unknown_tool_is_a_failure (name : string) (args : value) :
  (forall cases self,
      mem name cases = false ->
      handler cases self name args
      = Ret (mkCallToolResult (VStr ("Unknown tool: " ++ name)) true)
      /\ forall w, run_prog (handler cases self name args) w
                   = (Ok (mkCallToolResult (VStr ("Unknown tool: " ++ name)) true), w))
  /\ (mem name CallTool_cases_extended = false -> mem name CallTool_cases = false)
  /\ (accepts (VStr name) = false ->
      (forall client,
          executeToolInternal executeTool_other client (VStr name) args
          = Throw (Error ("Unknown tool: " ++ name)))
      /\ forall w client w1,
           run_singleton env w = (Ok client, w1) ->
           sent w1 = sent w /\ cred w1 = cred w
           /\ run_prog (executeTool_handler executeTool_other name (inr args)) w
              = (Ok (mkHttpResponse 500 (ToolFailure ("Unknown tool: " ++ name))), w1)
           /\ forall body params id,
                read_prop body "method" = Some (VStr "tools/call") ->
                read_prop body "params" = Some params ->
                read_prop body "id" = Some id ->
                read_prop params "name" = Some (VStr name) ->
                read_prop params "arguments" = Some args ->
                run_prog (mcp_handler JSON_stringify executeTool_other true (inr body)) w
                = (Ok (mkHttpResponse 500
                         (RpcError (-32603) ("Unknown tool: " ++ name) VNull)), w1)).
Proof.
  split; [|split].
  - intros cases self Hmem.
    assert (H : handler cases self name args
                = Ret (mkCallToolResult (VStr ("Unknown tool: " ++ name)) true)).
    { unfold CallTool_handler. now rewrite Hmem. }
    split; [exact H|]. intros w. now rewrite H.
  - unfold CallTool_cases_extended, mem. rewrite existsb_app.
    intros H. now apply orb_false_iff in H.
  - intros Hacc. cbn [accepts] in Hacc.
    assert (Hthrow : forall client,
               executeToolInternal executeTool_other client (VStr name) args
               = Throw (Error ("Unknown tool: " ++ name))).
    { intros client. unfold executeToolInternal. now rewrite Hacc. }
    split; [exact Hthrow|].
    intros w client w1 Hsing.
    destruct (Modes.run_singleton_effect env w) as (Hcred & _ & Hsent).
    rewrite Hsing in Hcred, Hsent. cbn in Hcred, Hsent.
    split; [exact Hsent|]. split; [exact Hcred|]. split.
    + unfold executeTool_handler.
      rewrite exec_try_catch, exec_bind. cbn [lift_parsed exec].
      rewrite exec_bind. unfold mcp_getClient. cbn [exec]. rewrite Hsing.
      cbn [exec]. rewrite exec_bind, Hthrow. reflexivity.
    + intros body params id Hm Hp Hi Hn Ha.
      unfold mcp_handler. cbn [negb].
      rewrite exec_try_catch, exec_bind. cbn [lift_parsed exec].
      unfold destructure at 1. rewrite Hm. rewrite exec_bind. cbn [exec].
      unfold destructure at 1. rewrite Hp. rewrite exec_bind. cbn [exec].
      unfold destructure at 1. rewrite Hi. rewrite exec_bind. cbn [exec].
      cbn [str_is String.eqb Ascii.eqb Bool.eqb].
      rewrite exec_bind. unfold mcp_getClient. cbn [exec]. rewrite Hsing.
      cbn [exec].
      unfold destructure at 1. rewrite Hn. rewrite exec_bind. cbn [exec].
      unfold destructure at 1. rewrite Ha. rewrite exec_bind. cbn [exec].
      rewrite exec_bind, Hthrow. reflexivity.
Qed.

End Claims.

End Dispatching.

(* ================================================================== *)
(** * The tool tables against the dispatchers *)
(* ================================================================== *)

Module Registry.

(** index.ts: every name the CallTool handler has a [case] for is
    listed, in order, in [tools]; the same holds for the second
    listing. *)
Lemma CallTool_cases_listed :
  forallb (well_listed tools) CallTool_cases = true
  /\ forallb (well_listed tools_extended) CallTool_cases_extended = true.
Proof. split; vm_compute; reflexivity. Qed.

(** functions/mcp.ts: every entry of [getToolDefinitions] is in order
    and has a [case] in [executeToolInternal]. *)
Lemma getToolDefinitions_in_order :
  forallb (fun t => entry_in_order t && mem (name t) executeToolInternal_cases)
          getToolDefinitions = true.
Proof. vm_compute. reflexivity. Qed.

(** C8 (round trip), on functions/mcp.ts.  [create_test_case] has a
    [case] in [executeToolInternal], which hands it to the operation
    catalogue instead of raising [Unknown tool], and it has no entry in
    [getToolDefinitions]; twenty names are in that position. *)
Theorem executeToolInternal_accepts_unlisted :
  mem "create_test_case" executeToolInternal_cases = true
  /\ well_listed getToolDefinitions "create_test_case" = false
  /\ mem "create_test_case" (map name getToolDefinitions) = false
  /\ (forall other client args,
        executeToolInternal other client (VStr "create_test_case") args
        = other client "create_test_case" args)
  /\ unlisted_cases
     = ["add_artifact_link"; "link_work_item_to_pull_request"; "get_my_branches";
        "list_pull_requests_by_commits"; "list_pull_request_thread_comments";
        "update_pull_request_thread"; "get_build_log_by_id"; "get_build_changes";
        "get_build_definition_revisions"; "create_pipeline"; "update_build_stage";
        "create_iterations"; "assign_iterations"; "get_iteration_capacities";
        "update_team_capacity"; "create_test_suite"; "add_test_cases_to_suite";
        "create_test_case"; "update_test_case_steps"; "get_test_results_from_build"].
Proof.
  repeat split; try (vm_compute; reflexivity).
Qed.

End Registry.

(* ================================================================== *)
(** * Worked instances *)
(* ================================================================== *)

Module Instances.

Import Credential Modes Dispatching.

Example constructor_contoso :
  new_AzureDevOpsClient env_static = Ok contoso.
Proof. reflexivity. Qed.

Example static_header : getAuthHeader env_static = Ok "Basic OnNlY3JldA==".
Proof. reflexivity. Qed.

(** Sixty-one seconds of validity left: the cached token is answered. *)
Example reuse_at_61_seconds :
  getAccessToken env_interactive 1000000 (cached 1061000)
  = (Resolved "tok", cached 1061000).
Proof. reflexivity. Qed.

(** Fifty-nine, and exactly sixty: a new request. *)
Example refresh_at_59_seconds :
  getAccessToken env_interactive 1000000 (cached 1059000)
  = start_request (cached 1059000).
Proof. reflexivity. Qed.

Example refresh_at_60_seconds :
  getAccessToken env_interactive 1000000 (cached 1060000)
  = start_request (cached 1060000).
Proof. reflexivity. Qed.

(** Three callers, a failure, then a retry that succeeds. *)
Example three_callers_then_retry :
  run env_interactive
      [EvCall 0; EvCall 5; EvCall 9; EvAnswer GotNull 20; EvCall 30;
       EvAnswer (GotToken (mkAccessToken "tok" 0)) 40; EvCall 50]
      cred_init
  = ([Awaiting 0%nat; Awaiting 0%nat; Awaiting 0%nat; Awaiting 1%nat; Resolved "tok"],
     mkCred true (Some (mkCache "tok" (Some 3600040))) None
            [Rejected (Error "Failed to acquire access token"); Fulfilled "tok"]
            [AZURE_DEVOPS_SCOPE; AZURE_DEVOPS_SCOPE]).
Proof. reflexivity. Qed.

(** Interactive mode, first use: one exchange, then the request goes
    out with the token it gave; a 404 on the team members is an empty
    list. *)
Definition net_login : remote :=
  mkRemote (fun _ => (GotToken (mkAccessToken "tok" 5000000), 900))
           (fun _ _ => (HttpError not_found, 1000)).

Example interactive_first_use :
  let '(r, w) := exec env_interactive net_login
                   (getTeamMembers contoso (VStr "Fabrikam") (VStr "Core")) world0 in
  r = Ok (VArr [])
  /\ getToken_calls (cred w) = [AZURE_DEVOPS_SCOPE]
  /\ cachedToken (cred w) = Some (mkCache "tok" (Some 5000000))
  /\ sent w = [mkRequest (Some "https://dev.azure.com/contoso") GET
                 "/_apis/projects/Fabrikam/teams/Core/members?api-version=7.1"
                 "Bearer tok" VUndefined].
Proof. vm_compute. repeat split. Qed.

Lemma cache_validity_boundary_witness :
  getAccessToken env_interactive 1000000 (cached 1061000)
  = (Resolved "tok", cached 1061000).
Proof.
  apply (cache_validity_boundary env_interactive (cached 1061000)
           (mkCache "tok" (Some 1061000)) 1061000 1000000);
    [reflexivity | reflexivity | reflexivity | cbn; lia | lia].
Defined.

Lemma single_flight_witness :
  getToken_calls (snd (run env_interactive (map EvCall [0; 5; 9]) cred_init))
  = [AZURE_DEVOPS_SCOPE]
  /\ fst (run env_interactive (map EvCall [0; 5; 9]) cred_init)
     = [Awaiting 0%nat; Awaiting 0%nat; Awaiting 0%nat]
  /\ Forall (fun h =>
               outcome h (complete_request (GotToken (mkAccessToken "tok" 5000000)) 900
                            (snd (run env_interactive (map EvCall [0; 5; 9]) cred_init)))
               = Fulfilled "tok")
            (fst (run env_interactive (map EvCall [0; 5; 9]) cred_init)).
Proof.
  destruct (single_flight env_interactive cred_init 0 [5; 9]) as (H1 & H2 & _ & H4);
    [reflexivity | reflexivity | repeat constructor |].
  destruct (H4 (GotToken (mkAccessToken "tok" 5000000)) 900) as (_ & _ & H5 & _).
  split; [exact H1|]. split; [exact H2|].
  exact (H5 (mkAccessToken "tok" 5000000) eq_refl).
Defined.

Lemma failed_exchange_witness :
  tokenPromise (complete_request GotNull 20 waiting) = None
  /\ cachedToken (complete_request GotNull 20 waiting) = None.
Proof.
  destruct (failed_exchange env_interactive waiting 0%nat GotNull 20) as (H1 & H2 & _);
    [reflexivity
    | apply in_flight_ok_run, in_flight_ok_init
    | reflexivity | reflexivity |].
  split; [exact H1 | exact H2].
Defined.

Lemma static_mode_never_exchanges_witness :
  getAuthHeader env_static = Ok "Basic OnNlY3JldA=="
  /\ getToken_calls
       (snd (run env_static [EvCall 0; EvAnswer GotNull 1; EvCall 7200000] cred_init))
     = [].
Proof.
  destruct (static_mode_never_exchanges env_static) as (H1 & _ & H3 & _);
    [reflexivity|].
  split; [exact H3|].
  exact (proj1 (H1 [EvCall 0; EvAnswer GotNull 1; EvCall 7200000] cred_init)).
Defined.

Lemma static_mode_two_encodings_witness :
  sent (snd (exec env_static net_404 (searchIdentities contoso (VStr "a b@c")) world0))
  = [mkRequest None GET
       "https://vssps.dev.azure.com/contoso/_apis/identities?api-version=7.1&searchFilter=General&filterValue=a+b%40c"
       "Bearer secret" VUndefined]
  /\ sent (snd (exec env_static net_404
                  (_ <- getClient contoso ;; ClientSend GET "/_apis/projects" VUndefined Ret Throw)
                  world0))
     = [mkRequest (Some "https://dev.azure.com/contoso") GET "/_apis/projects"
          "Basic OnNlY3JldA==" VUndefined].
Proof.
  destruct (static_mode_two_encodings env_static net_404 contoso "secret")
    as (_ & H2 & H3 & _); [reflexivity | reflexivity |].
  split.
  - exact (H3 (VStr "a b@c") world0).
  - exact (H2 GET "/_apis/projects" VUndefined world0 eq_refl).
Defined.

Lemma empty_ids_short_circuit_witness :
  fst (exec env_static net_no_match
         (queryWorkItems contoso (VStr "SELECT [System.Id] FROM WorkItems") (VStr "Fabrikam"))
         world0)
  = Ok (VArr [])
  /\ map req_method
       (sent (snd (exec env_static net_no_match
                     (queryWorkItems contoso (VStr "SELECT [System.Id] FROM WorkItems")
                        (VStr "Fabrikam")) world0)))
     = [POST].
Proof.
  destruct (empty_ids_short_circuit env_static net_no_match stringify_stub no_other_tool
              contoso query_args world0
              (snd (run_getClient env_static net_no_match contoso world0))
              (snd (run_send net_no_match POST (wiql_url (VStr "Fabrikam"))
                      (VObj [("query", VStr "SELECT [System.Id] FROM WorkItems")])
                      (snd (run_getClient env_static net_no_match contoso world0))))
              (VObj [("workItems", VArr [])]) (VArr []))
    as (_ & H2 & _);
    [reflexivity | reflexivity | reflexivity | left; reflexivity |].
  cbn [opt_prop read_prop query_args assoc String.eqb Ascii.eqb Bool.eqb] in H2.
  rewrite H2. split; reflexivity.
Defined.

Lemma not_found_normalization_witness :
  fst (exec env_static net_404
         (getTeamMembers contoso (VStr "Fabrikam") (VStr "Core")) world0)
  = Ok (VArr [])
  /\ fst (exec env_static net_404
            (getPullRequestById contoso (VStr "Fabrikam") (VStr "repo") (VNum 7)) world0)
     = Thrown not_found
  /\ fst (exec env_static net_404
            (CallTool_handler stringify_stub no_other_tool CallTool_cases contoso
               "get_pull_request" member_args) world0)
     = Ok (mkCallToolResult (VStr "Error: Request failed with status code 404") true).
Proof.
  destruct (not_found_normalization env_static net_404 stringify_stub no_other_tool
              contoso member_args world0 with_client eq_refl) as (Hteam & Hpr).
  destruct (Hteam not_found
              (snd (run_send net_404 GET
                      (team_members_url (VStr "Fabrikam") (VStr "Core")) VUndefined
                      with_client)) eq_refl) as (Hfound & _).
  destruct (Hfound eq_refl) as (H1 & _).
  destruct (Hpr not_found
              (snd (run_send net_404 GET
                      (pull_request_url (VStr "Fabrikam") (VStr "repo") (VNum 7)) VUndefined
                      with_client)) eq_refl) as (H2 & H3).
  cbn [opt_prop read_prop member_args assoc String.eqb Ascii.eqb Bool.eqb] in H1, H2.
  rewrite H1, H2, H3. repeat split.
Defined.

Lemma alert_details_not_found_is_null_witness :
  fst (exec env_static net_404
         (getAdvancedSecurityAlertDetails contoso (VStr "Fabrikam") (VStr "repo") (VStr "42"))
         world0)
  = Ok VNull
  /\ fst (exec env_static net_404
            (CallTool_handler stringify_stub no_other_tool CallTool_cases_extended contoso
               "get_advanced_security_alert_details" member_args) world0)
     = Ok (mkCallToolResult (VStr "null") false).
Proof.
  destruct (alert_details_not_found_is_null env_static net_404 stringify_stub
              no_other_tool no_other_method contoso member_args world0 with_client
              (snd (run_send net_404 GET
                      (alert_url (VStr "Fabrikam") (VStr "repo") (VStr "42")) VUndefined
                      with_client))
              not_found eq_refl eq_refl eq_refl) as (H1 & H2 & _).
  cbn [opt_prop read_prop member_args assoc String.eqb Ascii.eqb Bool.eqb] in H1.
  rewrite H1, H2. split; reflexivity.
Defined.

Lemma unknown_tool_is_a_failure_witness :
  exec env_static net_404
    (CallTool_handler stringify_stub no_other_tool CallTool_cases contoso
       "not_a_real_tool" (VObj [])) world0
  = (Ok (mkCallToolResult (VStr "Unknown tool: not_a_real_tool") true), world0)
  /\ fst (exec env_static net_404
            (mcp_handler stringify_stub no_other_method true (inr call_body)) world0)
     = Ok (mkHttpResponse 500 (RpcError (-32603) "Unknown tool: not_a_real_tool" VNull))
  /\ sent (snd (exec env_static net_404
                  (mcp_handler stringify_stub no_other_method true (inr call_body)) world0))
     = [].
Proof.
  destruct (unknown_tool_is_a_failure env_static net_404 stringify_stub no_other_tool
              no_other_method "not_a_real_tool" (VObj [])) as (Hstdio & _ & Hmcp).
  destruct (Hstdio CallTool_cases contoso eq_refl) as (_ & H1).
  destruct (Hmcp eq_refl) as (_ & H2).
  destruct (H2 world0 contoso (set_singleton world0 contoso) eq_refl)
    as (_ & _ & _ & H3).
  specialize (H3 call_body
                (VObj [("name", VStr "not_a_real_tool"); ("arguments", VObj [])])
                (VNum 1) eq_refl eq_refl eq_refl eq_refl eq_refl).
  split; [exact (H1 world0)|]. rewrite H3. split; reflexivity.
Defined.

End Instances.

(* ================================================================== *)
(** * Further properties of the credential provider *)
(* ================================================================== *)

Module CredentialMore.

Import Credential.

(** X1.  After any history from the initial state, in either mode: there
    is one promise per [getToken] call, the promise [tokenPromise] names
    is pending, and no other promise is; so two pending promises are the
    same one. *)
Theorem at_most_one_request_in_flight env evs :
  let s := snd (run env evs cred_init) in
  List.length (promises s) = List.length (getToken_calls s)
  /\ (forall p, tokenPromise s = Some p -> nth_error (promises s) p = Some Pending)
  /\ (forall q q', nth_error (promises s) q = Some Pending ->
                   nth_error (promises s) q' = Some Pending ->
                   q = q' /\ tokenPromise s = Some q).
Proof.
  intros s. destruct (coherent_run env evs cred_init coherent_init) as (Hok & Hlen & Hpend).
  fold s in Hok, Hlen, Hpend. split; [exact Hlen|]. split; [exact Hok|].
  intros q q' Hq Hq'. pose proof (Hpend q Hq) as H1. pose proof (Hpend q' Hq') as H2.
  split; [congruence|exact H1].
Qed.

Lemma step_adds env ev s :
  exists n,
    getToken_calls (snd (step env ev s))
    = (getToken_calls s ++ repeat AZURE_DEVOPS_SCOPE n)%list
    /\ (n <= if is_call ev then 1 else 0)%nat
    /\ (n + in_flight s
        <= (if is_call ev then 0 else 1) + in_flight (snd (step env ev s)))%nat.
Proof.
  destruct ev as [now|r now]; cbn [step is_call].
  - unfold getAccessToken.
    destruct (USE_PAT env); [exists 0%nat; cbn; rewrite app_nil_r; repeat split; lia|].
    destruct (valid_cached now s); [exists 0%nat; cbn; rewrite app_nil_r; repeat split; lia|].
    unfold in_flight. destruct (tokenPromise s) eqn:Hp.
    + exists 0%nat. cbn. rewrite app_nil_r, Hp. repeat split; lia.
    + exists 1%nat. cbn. repeat split; lia.
  - exists 0%nat. cbn [snd repeat]. rewrite app_nil_r.
    unfold complete_request, in_flight. destruct (tokenPromise s) eqn:Hp; cbn.
    + repeat split; lia.
    + rewrite Hp. repeat split; lia.
Qed.

Lemma run_adds env evs : forall s,
  exists n,
    getToken_calls (snd (run env evs s))
    = (getToken_calls s ++ repeat AZURE_DEVOPS_SCOPE n)%list
    /\ (n <= calls_in evs)%nat
    /\ (n + in_flight s <= answers_in evs + in_flight (snd (run env evs s)))%nat.
Proof.
  induction evs as [|ev rest IH]; intros s.
  - exists 0%nat. cbn. rewrite app_nil_r. repeat split; lia.
  - destruct (step_adds env ev s) as (n1 & Hc1 & Hn1 & Ha1).
    cbn [run]. destruct (step env ev s) as [hs s1]. cbn [snd] in Hc1, Ha1.
    destruct (IH s1) as (n2 & Hc2 & Hn2 & Ha2).
    destruct (run env rest s1) as [hs' s2]. cbn [snd] in Hc2, Ha2 |- *.
    exists (n1 + n2)%nat. split; [|split].
    + rewrite Hc2, Hc1, <- app_assoc, repeat_app. reflexivity.
    + unfold calls_in in *. cbn [filter]. destruct (is_call ev); cbn [List.length]; lia.
    + unfold answers_in in *. cbn [filter].
      destruct (is_call ev); cbn [negb List.length]; lia.
Qed.

(** X2.  Over any history from any state, in either mode, the log of
    [getToken] calls only grows at its end; it grows by no more entries
    than there are calls of [getAccessToken] in the history, and by no
    more than one beyond the answers received, since a new exchange
    needs the one before it to have been answered. *)
Theorem exchanges_bounded env evs s :
  exists n,
    getToken_calls (snd (run env evs s))
    = (getToken_calls s ++ repeat AZURE_DEVOPS_SCOPE n)%list
    /\ (n <= calls_in evs)%nat
    /\ (n <= S (answers_in evs))%nat.
Proof.
  destruct (run_adds env evs s) as (n & Hc & Hn & Ha).
  exists n. split; [exact Hc|]. split; [exact Hn|].
  assert (in_flight (snd (run env evs s)) <= 1)%nat
    by (unfold in_flight; destruct (tokenPromise _); lia).
  lia.
Qed.

Lemma new_Date_in_range t : Z.abs t <= max_time -> new_Date t = Some t.
Proof.
  intros H. unfold new_Date. fold max_time.
  destruct (Z.leb_spec (Z.abs t) max_time); [reflexivity|lia].
Qed.

Lemma new_Date_out_of_range t : max_time < Z.abs t -> new_Date t = None.
Proof.
  intros H. unfold new_Date. fold max_time.
  destruct (Z.leb_spec (Z.abs t) max_time); [lia|reflexivity].
Qed.

Lemma complete_with_token s p a t :
  tokenPromise s = Some p ->
  complete_request (GotToken a) t s
  = mkCred (sharedCredential s)
           (Some (mkCache (at_token a) (new_Date (cached_expiry a t)))) None
           (settle p (Fulfilled (at_token a)) (promises s)) (getToken_calls s).
Proof.
  intros Hp. unfold complete_request, cached_expiry. rewrite Hp. cbn [settlement].
  now destruct (expiresOnTimestamp a =? 0).
Qed.

Lemma delivered_token_cached s p a t :
  tokenPromise s = Some p ->
  Z.abs (cached_expiry a t) <= max_time ->
  cachedToken (complete_request (GotToken a) t s)
  = Some (mkCache (at_token a) (Some (cached_expiry a t))).
Proof.
  intros Hp He. now rewrite (complete_with_token s p a t Hp), (new_Date_in_range _ He).
Qed.

Lemma delivered_token_hit env s p a t now :
  USE_PAT env = false ->
  tokenPromise s = Some p ->
  Z.abs (cached_expiry a t) <= max_time ->
  Z.abs (now + 60000) <= max_time ->
  now + 60000 < cached_expiry a t ->
  getAccessToken env now (complete_request (GotToken a) t s)
  = (Resolved (at_token a), complete_request (GotToken a) t s).
Proof.
  intros Hmode Hp He Hnow Hcmp.
  apply getAccessToken_hit; [exact Hmode|].
  unfold valid_cached. rewrite (delivered_token_cached s p a t Hp He).
  cbn. rewrite (new_Date_in_range _ Hnow). cbn.
  destruct (Z.ltb_spec (now + 60000) (cached_expiry a t)); [reflexivity|lia].
Qed.

Lemma delivered_token_miss env s p a t now :
  USE_PAT env = false ->
  tokenPromise s = Some p ->
  Z.abs (cached_expiry a t) <= max_time ->
  Z.abs (now + 60000) <= max_time ->
  cached_expiry a t <= now + 60000 ->
  getAccessToken env now (complete_request (GotToken a) t s)
  = start_request (complete_request (GotToken a) t s).
Proof.
  intros Hmode Hp He Hnow Hcmp.
  apply getAccessToken_start; [exact Hmode| |].
  - unfold valid_cached. rewrite (delivered_token_cached s p a t Hp He).
    cbn. rewrite (new_Date_in_range _ Hnow). cbn.
    destruct (Z.ltb_spec (now + 60000) (cached_expiry a t)); [lia|reflexivity].
  - now rewrite (complete_with_token s p a t Hp).
Qed.

(** X3.  In interactive mode, when the request in flight is answered at
    instant [t] with a token, the cache holds that token with the expiry
    the answer announces, or [t] plus one hour when the announced
    timestamp is 0.  With that expiry and [now] plus a minute both
    within the range of a Date, a later call at [now] answers the token
    at once while more than 60000 ms remain, and starts a new request
    when 60000 ms or less remain. *)
Theorem delivered_token_reuse env s p a t now :
  USE_PAT env = false ->
  tokenPromise s = Some p ->
  Z.abs (cached_expiry a t) <= max_time ->
  Z.abs (now + 60000) <= max_time ->
  let s' := complete_request (GotToken a) t s in
  cachedToken s' = Some (mkCache (at_token a) (Some (cached_expiry a t)))
  /\ (now + 60000 < cached_expiry a t ->
      getAccessToken env now s' = (Resolved (at_token a), s'))
  /\ (cached_expiry a t <= now + 60000 ->
      getAccessToken env now s' = start_request s').
Proof.
  intros Hmode Hp He Hnow s'. subst s'.
  split; [now apply (delivered_token_cached s p)|]. split; intros Hcmp.
  - now apply (delivered_token_hit env s p).
  - now apply (delivered_token_miss env s p).
Qed.

(** X4.  In interactive mode, a token announced with an expiry
    timestamp outside the range of a Date is handed to the callers that
    wait for it and stored, but its expiry is an Invalid Date: no later
    call, at whatever instant, is answered from the cache; each starts a
    new request. *)
Theorem out_of_range_expiry_never_reused env s p a t :
  USE_PAT env = false ->
  in_flight_ok s -> tokenPromise s = Some p ->
  max_time < Z.abs (expiresOnTimestamp a) ->
  let s' := complete_request (GotToken a) t s in
  outcome (Awaiting p) s' = Fulfilled (at_token a)
  /\ cachedToken s' = Some (mkCache (at_token a) None)
  /\ forall now, getAccessToken env now s' = start_request s'.
Proof.
  intros Hmode Hok Hp Hrange s'. subst s'.
  assert (Hnz : (expiresOnTimestamp a =? 0) = false).
  { apply Z.eqb_neq. unfold max_time in Hrange. lia. }
  rewrite (complete_with_token s p a t Hp). unfold cached_expiry. rewrite Hnz.
  rewrite (new_Date_out_of_range _ Hrange).
  split; [|split; [reflexivity|]].
  - cbn. apply nth_settle. apply nth_error_Some. rewrite (Hok p Hp). discriminate.
  - intros now. apply getAccessToken_start; [exact Hmode|reflexivity|reflexivity].
Qed.

End CredentialMore.

(* ================================================================== *)
(** * Further properties of [getClient] *)
(* ================================================================== *)

Module ClientMore.

Import Credential CredentialMore Modes Dispatching.

Section Interactive.

Variable env : process_env.
Variable net : remote.
Hypothesis interactive : USE_PAT env = false.

(** What a caller gets once it has the promise of the request in
    flight. *)
Lemma run_getAccessToken_awaited w c1 p :
  getAccessToken env (time w) (cred w) = (Awaiting p, c1) ->
  tokenPromise c1 = Some p ->
  (p < List.length (promises c1))%nat ->
  run_getAccessToken env net w
  = (match settlement (fst (identity_provider net
                             (Nat.pred (List.length (getToken_calls c1))))) with
     | Fulfilled t => Ok t
     | Rejected e => Thrown e
     | Pending => Stuck
     end,
     set_cred w (complete_request
                   (fst (identity_provider net (Nat.pred (List.length (getToken_calls c1)))))
                   (snd (identity_provider net (Nat.pred (List.length (getToken_calls c1)))))
                   c1)
              (snd (identity_provider net (Nat.pred (List.length (getToken_calls c1)))))).
Proof.
  intros Hcall Hp Hlt. unfold run_getAccessToken. rewrite Hcall.
  destruct (identity_provider net _) as [r t']. cbn [fst snd].
  f_equal. unfold complete_request. rewrite Hp. cbn [promises].
  now rewrite nth_settle.
Qed.

Lemma getAccessToken_awaiting now s p c1 :
  in_flight_ok s ->
  getAccessToken env now s = (Awaiting p, c1) ->
  tokenPromise c1 = Some p /\ (p < List.length (promises c1))%nat.
Proof.
  intros Hok. unfold getAccessToken. rewrite interactive.
  destruct (valid_cached now s); [discriminate|].
  destruct (tokenPromise s) as [q|] eqn:Hq.
  - intros H. injection H as <- <-. split; [exact Hq|].
    apply nth_error_Some. rewrite (Hok q Hq). discriminate.
  - unfold start_request. intros H. injection H as <- <-. cbn.
    split; [reflexivity|]. rewrite length_app. cbn. lia.
Qed.

(** A token that [await getAccessToken()] yields is the one in the
    cache afterwards. *)
Lemma run_getAccessToken_cached w t w1 :
  in_flight_ok (cred w) ->
  run_getAccessToken env net w = (Ok t, w1) ->
  (exists c, cachedToken (cred w1) = Some c /\ token c = t)
  /\ in_flight_ok (cred w1)
  /\ axiosInstance w1 = axiosInstance w /\ initialized w1 = initialized w
  /\ sent w1 = sent w.
Proof.
  intros Hok Hrun.
  destruct (getAccessToken env (time w) (cred w)) as [[t0|p] c1] eqn:Hcall.
  - unfold run_getAccessToken in Hrun. rewrite Hcall in Hrun.
    injection Hrun as <- <-. cbn.
    unfold getAccessToken in Hcall. rewrite interactive in Hcall.
    destruct (valid_cached (time w) (cred w)) as [t1|] eqn:Hv.
    + injection Hcall as <- <-. split; [|now repeat split].
      unfold valid_cached in Hv. destruct (cachedToken (cred w)) as [c|]; [|discriminate].
      destruct (date_gt _ _); [|discriminate]. injection Hv as <-. now exists c.
    + destruct (tokenPromise (cred w)); [discriminate|].
      unfold start_request in Hcall. discriminate.
  - destruct (getAccessToken_awaiting _ _ _ _ Hok Hcall) as (Hp & Hlt).
    rewrite (run_getAccessToken_awaited w c1 p Hcall Hp Hlt) in Hrun.
    destruct (identity_provider net _) as [r t']. cbn [fst snd] in Hrun.
    destruct r as [a| |e]; cbn [settlement] in Hrun; try discriminate.
    injection Hrun as <- <-. cbn.
    unfold complete_request. rewrite Hp. cbn.
    split; [eexists; split; reflexivity|]. repeat split.
    intros q Hq. discriminate.
Qed.

(** X5.  In interactive mode, from a state whose in-flight promise is
    in order: when [getClient] succeeds, the client is initialized and
    the [Authorization] header of the shared instance is [Bearer]
    followed by the token that the cache now holds, so a request sent
    next never carries a token older than the cached one. *)
Theorem getClient_header_is_cached_token self w w1 :
  in_flight_ok (cred w) ->
  run_getClient env net self w = (Ok tt, w1) ->
  exists c a,
    cachedToken (cred w1) = Some c
    /\ axiosInstance w1 = Some a
    /\ authorization a = "Bearer " ++ token c
    /\ initialized w1 = true.
Proof.
  intros Hok Hrun. unfold run_getClient in Hrun.
  assert (Hinit : exists w0, ensureInitialized env net self w = (Ok tt, w0)
                    /\ in_flight_ok (cred w0)
                    /\ (exists a0, axiosInstance w0 = Some a0) /\ initialized w0 = true).
  { unfold ensureInitialized in *.
    destruct (axiosInstance w) as [a0|] eqn:Ha; [destruct (initialized w) eqn:Hi|].
    - exists w. repeat split; eauto.
    - rewrite interactive in *.
      destruct (run_getAccessToken env net w) as [[t|e|] w0] eqn:Ht; try discriminate.
      destruct (run_getAccessToken_cached w t w0 Hok Ht) as (_ & Hok0 & _).
      eexists. split; [reflexivity|]. cbn. repeat split; eauto.
    - rewrite interactive in *.
      destruct (run_getAccessToken env net w) as [[t|e|] w0] eqn:Ht; try discriminate.
      destruct (run_getAccessToken_cached w t w0 Hok Ht) as (_ & Hok0 & _).
      eexists. split; [reflexivity|]. cbn. repeat split; eauto. }
  destruct Hinit as (w0 & Hens & Hok0 & (a0 & Ha0) & Hi0).
  rewrite Hens, interactive in Hrun. cbn [negb] in Hrun.
  destruct (run_getAccessToken env net w0) as [[t|e|] w2] eqn:Ht; try discriminate.
  destruct (run_getAccessToken_cached w0 t w2 Hok0 Ht) as ((c & Hc & Htok) & _ & Ha2 & _).
  rewrite Ha2, Ha0 in Hrun. injection Hrun as <-.
  exists c. eexists. cbn. repeat split; [exact Hc|now rewrite Htok].
Qed.

(** X6.  In interactive mode, on first use (nothing cached, nothing in
    flight, no instance yet): when the identity provider answers a
    token whose cached expiry, within the range of a Date, is more than
    60000 ms after the answer, [getClient] succeeds with exactly one
    [getToken] call although it asks for the token twice, creates the
    instance with the organization's base URL and [Bearer] plus that
    token, and sends no HTTP request. *)
Theorem getClient_first_use self w a t' :
  cachedToken (cred w) = None -> tokenPromise (cred w) = None ->
  axiosInstance w = None ->
  identity_provider net (List.length (getToken_calls (cred w))) = (GotToken a, t') ->
  Z.abs (cached_expiry a t') <= max_time ->
  Z.abs (t' + 60000) <= max_time ->
  t' + 60000 < cached_expiry a t' ->
  let w1 := snd (run_getClient env net self w) in
  fst (run_getClient env net self w) = Ok tt
  /\ getToken_calls (cred w1) = (getToken_calls (cred w) ++ [AZURE_DEVOPS_SCOPE])%list
  /\ axiosInstance w1
     = Some (mkAxios ("https://dev.azure.com/" ++ organization self)
                     ("Bearer " ++ at_token a))
  /\ cachedToken (cred w1) = Some (mkCache (at_token a) (Some (cached_expiry a t')))
  /\ sent w1 = sent w.
Proof.
  intros Hcache Hnone Hinst Hidp Hexp Hnow Hfresh w1. subst w1.
  assert (Hfirst : run_getAccessToken env net w
                   = (Ok (at_token a),
                      set_cred w (complete_request (GotToken a) t'
                                    (snd (start_request (cred w)))) t')).
  { unfold run_getAccessToken, getAccessToken, valid_cached.
    rewrite interactive, Hcache, Hnone. cbn [start_request].
    cbn [getToken_calls]. rewrite length_app, Nat.add_1_r. cbn [Nat.pred].
    rewrite Hidp. f_equal. unfold complete_request. cbn.
    rewrite nth_settle; [reflexivity|]. rewrite length_app. cbn. lia. }
  pose proof (delivered_token_cached (snd (start_request (cred w)))
                (List.length (promises (cred w))) a t' eq_refl Hexp) as Hc.
  pose proof (delivered_token_hit env (snd (start_request (cred w)))
                (List.length (promises (cred w))) a t' t' interactive eq_refl
                Hexp Hnow Hfresh) as Hhit.
  set (c2 := complete_request (GotToken a) t' (snd (start_request (cred w)))) in *.
  set (created := set_axios (set_cred w c2 t')
                    (mkAxios ("https://dev.azure.com/" ++ organization self)
                             ("Bearer " ++ at_token a))).
  assert (Hsecond : run_getAccessToken env net created = (Ok (at_token a), created)).
  { unfold run_getAccessToken. subst created. cbn [time cred set_axios set_cred].
    rewrite Hhit. reflexivity. }
  assert (Hrun : run_getClient env net self w
                 = (Ok tt, set_axios created
                             (mkAxios ("https://dev.azure.com/" ++ organization self)
                                      ("Bearer " ++ at_token a)))).
  { unfold run_getClient, ensureInitialized. rewrite Hinst, interactive, Hfirst.
    cbn [negb]. fold created. rewrite Hsecond. reflexivity. }
  rewrite Hrun. cbn [fst snd]. subst created. cbn [set_axios set_cred cred axiosInstance sent].
  split; [reflexivity|]. split; [reflexivity|]. split; [reflexivity|].
  split; [exact Hc|reflexivity].
Qed.

(** X7.  In interactive mode, with no valid cached token, nothing in
    flight and no instance yet: when the exchange fails, [getClient]
    raises the failure, the instance stays uncreated and nothing stays
    in flight, so the next call tries again; any method that begins by
    asking for the client raises the same failure without sending an
    HTTP request. *)
Theorem getClient_exchange_failure self w r t' :
  valid_cached (time w) (cred w) = None -> tokenPromise (cred w) = None ->
  axiosInstance w = None ->
  identity_provider net (List.length (getToken_calls (cred w))) = (r, t') ->
  is_failure r = true ->
  exists e w1,
    settlement r = Rejected e
    /\ run_getClient env net self w = (Thrown e, w1)
    /\ axiosInstance w1 = None /\ initialized w1 = initialized w
    /\ tokenPromise (cred w1) = None
    /\ sent w1 = sent w
    /\ forall A (rest : unit -> prog A),
         exec env net (bind (getClient self) rest) w = (Thrown e, w1).
Proof.
  intros Hmiss Hnone Hinst Hidp Hfail.
  assert (He : exists e, settlement r = Rejected e).
  { destruct r; [discriminate|eexists; reflexivity|eexists; reflexivity]. }
  destruct He as (e & He).
  assert (Hfirst : run_getAccessToken env net w
                   = (Thrown e,
                      set_cred w (complete_request r t' (snd (start_request (cred w)))) t')).
  { unfold run_getAccessToken, getAccessToken.
    rewrite interactive, Hmiss, Hnone. cbn [start_request].
    cbn [getToken_calls]. rewrite length_app, Nat.add_1_r. cbn [Nat.pred].
    rewrite Hidp. f_equal. unfold complete_request. cbn.
    rewrite nth_settle; [now rewrite He|]. rewrite length_app. cbn. lia. }
  assert (Hrun : run_getClient env net self w
                 = (Thrown e,
                    set_cred w (complete_request r t' (snd (start_request (cred w)))) t')).
  { unfold run_getClient, ensureInitialized. now rewrite Hinst, interactive, Hfirst. }
  exists e. eexists. split; [exact He|]. split; [exact Hrun|].
  split; [exact Hinst|]. split; [reflexivity|].
  split; [unfold complete_request; reflexivity|]. split; [reflexivity|].
  intros A rest. rewrite exec_bind, exec_getClient, Hrun. reflexivity.
Qed.

(** X8.  In interactive mode, on first use: when the token that the
    identity provider answers is cached with 60000 ms or less left at
    the instant of the answer, the second request for the token inside
    [getClient] starts another exchange at once: two [getToken] calls
    are logged, whatever the second answer is. *)
Theorem getClient_stale_token_second_exchange self w a t' :
  cachedToken (cred w) = None -> tokenPromise (cred w) = None ->
  axiosInstance w = None ->
  identity_provider net (List.length (getToken_calls (cred w))) = (GotToken a, t') ->
  Z.abs (cached_expiry a t') <= max_time ->
  Z.abs (t' + 60000) <= max_time ->
  cached_expiry a t' <= t' + 60000 ->
  getToken_calls (cred (snd (run_getClient env net self w)))
  = (getToken_calls (cred w) ++ [AZURE_DEVOPS_SCOPE; AZURE_DEVOPS_SCOPE])%list.
Proof.
  intros Hcache Hnone Hinst Hidp Hexp Hnow Hstale.
  assert (Hfirst : run_getAccessToken env net w
                   = (Ok (at_token a),
                      set_cred w (complete_request (GotToken a) t'
                                    (snd (start_request (cred w)))) t')).
  { unfold run_getAccessToken, getAccessToken, valid_cached.
    rewrite interactive, Hcache, Hnone. cbn [start_request].
    cbn [getToken_calls]. rewrite length_app, Nat.add_1_r. cbn [Nat.pred].
    rewrite Hidp. f_equal. unfold complete_request. cbn.
    rewrite nth_settle; [reflexivity|]. rewrite length_app. cbn. lia. }
  pose proof (delivered_token_miss env (snd (start_request (cred w)))
                (List.length (promises (cred w))) a t' t' interactive eq_refl
                Hexp Hnow Hstale) as Hstart.
  set (c2 := complete_request (GotToken a) t' (snd (start_request (cred w)))) in *.
  assert (Hcalls : getToken_calls c2
                   = (getToken_calls (cred w) ++ [AZURE_DEVOPS_SCOPE])%list).
  { subst c2. unfold complete_request. reflexivity. }
  set (created := set_axios (set_cred w c2 t')
                    (mkAxios ("https://dev.azure.com/" ++ organization self)
                             ("Bearer " ++ at_token a))).
  assert (Hsecond : getToken_calls (cred (snd (run_getAccessToken env net created)))
                    = (getToken_calls c2 ++ [AZURE_DEVOPS_SCOPE])%list
                    /\ axiosInstance (snd (run_getAccessToken env net created))
                       = axiosInstance created).
  { unfold run_getAccessToken. subst created. cbn [time cred set_axios set_cred].
    rewrite Hstart. cbn [start_request]. clear Hidp.
    destruct (identity_provider net _) as [r2 t2]. cbn.
    unfold complete_request. cbn. split; reflexivity. }
  destruct Hsecond as (Hlog & Hax).
  unfold run_getClient, ensureInitialized. rewrite Hinst, interactive, Hfirst.
  cbn [negb]. fold created.
  destruct (run_getAccessToken env net created) as [[t2|e2|] w2]; cbn [snd] in Hlog, Hax |- *.
  - rewrite Hax. subst created. cbn [set_axios axiosInstance cred].
    rewrite Hlog, Hcalls, <- app_assoc. reflexivity.
  - rewrite Hlog, Hcalls, <- app_assoc. reflexivity.
  - rewrite Hlog, Hcalls, <- app_assoc. reflexivity.
Qed.

End Interactive.

End ClientMore.

(* ================================================================== *)
(** * Further properties of the backend methods *)
(* ================================================================== *)

Module BackendMore.

Import Dispatching.

Section Methods.

Variable env : process_env.
Variable net : remote.
Variable JSON_stringify : value -> value.
Variable CallTool_other : AzureDevOpsClient -> string -> value -> prog CallToolResult.

Lemma exec_get_prop v key w :
  exec env net (get_prop v key) w
  = match read_prop v key with
    | Some x => (Ok x, w)
    | None => (Thrown (type_error_read (to_string v) key), w)
    end.
Proof. unfold get_prop. now destruct (read_prop v key). Qed.

Lemma read_prop_nullish v key : nullish v = true -> read_prop v key = None.
Proof. now destruct v. Qed.

Lemma read_prop_opt v key : nullish v = false -> read_prop v key = Some (opt_prop v key).
Proof.
  unfold opt_prop. destruct v; intros H; try discriminate; cbn; try reflexivity;
    now destruct (key =? "length")%string.
Qed.

Lemma map_id_total l :
  forallb (fun wi => negb (nullish wi)) l = true ->
  map_id l = Ret (map (fun wi => opt_prop wi "id") l).
Proof.
  induction l as [|wi rest IH]; intros Hall; [reflexivity|].
  cbn [forallb] in Hall. apply andb_prop in Hall as (Hwi & Hrest).
  cbn [map_id map]. unfold get_prop.
  rewrite (read_prop_opt wi "id") by now destruct (nullish wi).
  cbn [bind]. now rewrite (IH Hrest).
Qed.

(** X9.  [getWorkItems] called without ids ([undefined] or [null])
    raises a TypeError on reading [length] before it asks for the client:
    the world is left as it was, so no token is asked for and no request
    is sent; the CallTool handler reports the TypeError as an [isError]
    result. *)
Theorem getWorkItems_without_ids self cases args w :
  nullish (opt_prop args "ids") = true ->
  mem "get_work_items_by_ids" cases = true ->
  exec env net (getWorkItems self (opt_prop args "ids") (opt_prop args "project")) w
  = (Thrown (type_error_read (to_string (opt_prop args "ids")) "length"), w)
  /\ exec env net (CallTool_handler JSON_stringify CallTool_other cases self
                     "get_work_items_by_ids" args) w
     = (Ok (mkCallToolResult
              (VStr ("Error: Cannot read properties of "
                     ++ to_string (opt_prop args "ids") ++ " (reading 'length')")) true), w).
Proof.
  intros Hnull Hmem.
  assert (Hm : exec env net (getWorkItems self (opt_prop args "ids")
                               (opt_prop args "project")) w
               = (Thrown (type_error_read (to_string (opt_prop args "ids")) "length"), w)).
  { unfold getWorkItems. rewrite exec_bind, exec_get_prop.
    now rewrite (read_prop_nullish _ _ Hnull). }
  split; [exact Hm|].
  rewrite (handler_wraps env net JSON_stringify CallTool_other cases self
             "get_work_items_by_ids" args
             (getWorkItems self (opt_prop args "ids") (opt_prop args "project"))
             w Hmem eq_refl).
  now rewrite Hm.
Qed.

Lemma getWorkItems_fetch self x l project w w1 w2 data v :
  run_getClient env net self w = (Ok tt, w1) ->
  run_send net GET (workitems_url project (to_string (VArr (x :: l)))) VUndefined w1
  = (Ok data, w2) ->
  read_prop data "value" = Some v ->
  exec env net (getWorkItems self (VArr (x :: l)) project) w = (Ok v, w2).
Proof.
  intros Hc Hs Hd. unfold getWorkItems.
  rewrite exec_bind, exec_get_prop. cbn [read_prop String.eqb Ascii.eqb Bool.eqb].
  assert (Hz : is_zero (VNum (Z.of_nat (List.length (x :: l)))) = false)
    by reflexivity.
  rewrite Hz.
  rewrite exec_bind, exec_getClient, Hc.
  rewrite exec_bind. cbn [js_join exec].
  rewrite exec_bind, exec_client_get. fold (workitems_url project (to_string (VArr (x :: l)))).
  rewrite Hs. rewrite exec_get_prop, Hd. reflexivity.
Qed.

(** X10.  [getWorkItems] on a non-empty id array asks for the client,
    then sends one GET whose [ids] parameter is the ids joined by commas
    in the order given, each printed as a template literal prints it
    (a number of 22 digits or more in exponent form), and answers the
    [value] field of the reply ([undefined] when the reply has none). *)
Theorem getWorkItems_batch_fetch self x l project w w1 w2 data v :
  run_getClient env net self w = (Ok tt, w1) ->
  run_send net GET (workitems_url project (to_string (VArr (x :: l)))) VUndefined w1
  = (Ok data, w2) ->
  read_prop data "value" = Some v ->
  exec env net (getWorkItems self (VArr (x :: l)) project) w = (Ok v, w2)
  /\ exists req, sent w2 = (sent w ++ [req])%list
                 /\ req_method req = GET
                 /\ req_url req = workitems_url project (to_string (VArr (x :: l))).
Proof.
  intros Hc Hs Hd. split; [now apply (getWorkItems_fetch self x l project w w1 w2 data v)|].
  destruct (run_send_ok_sent net _ _ _ _ _ _ Hs) as (req & Hreq & Hm & Hu).
  exists req. repeat split; auto.
  pose proof (run_getClient_sent env net self w) as Hsent.
  rewrite Hc in Hsent. cbn in Hsent. now rewrite Hreq, Hsent.
Qed.

(** X11.  [queryWorkItems], when the WIQL POST answers a non-empty
    array of references none of which is [null] or [undefined], sends
    exactly two requests: the POST, then the batch GET for the [id]s of
    the references in the order of the reply; it answers the [value] of
    the second reply. *)
Theorem queryWorkItems_two_stage self wiql project w w1 w2 w3 w4 data r rs data2 v :
  run_getClient env net self w = (Ok tt, w1) ->
  run_send net POST (wiql_url project) (VObj [("query", wiql)]) w1 = (Ok data, w2) ->
  read_prop data "workItems" = Some (VArr (r :: rs)) ->
  forallb (fun wi => negb (nullish wi)) (r :: rs) = true ->
  run_getClient env net self w2 = (Ok tt, w3) ->
  run_send net GET
    (workitems_url project
       (to_string (VArr (map (fun wi => opt_prop wi "id") (r :: rs))))) VUndefined w3
  = (Ok data2, w4) ->
  read_prop data2 "value" = Some v ->
  exec env net (queryWorkItems self wiql project) w = (Ok v, w4)
  /\ exists post get,
       sent w4 = (sent w ++ [post; get])%list
       /\ req_method post = POST /\ req_url post = wiql_url project
       /\ req_body post = VObj [("query", wiql)]
       /\ req_method get = GET
       /\ req_url get
          = workitems_url project
              (to_string (VArr (map (fun wi => opt_prop wi "id") (r :: rs)))).
Proof.
  intros Hc1 Hs1 Hd1 Hall Hc2 Hs2 Hd2. split.
  - unfold queryWorkItems.
    rewrite exec_bind, exec_getClient, Hc1.
    rewrite exec_bind, exec_client_post. fold (wiql_url project). rewrite Hs1.
    rewrite exec_bind, exec_get_prop, Hd1.
    cbn [truthy negb orb opt_prop read_prop String.eqb Ascii.eqb Bool.eqb].
    assert (Hz : is_zero (VNum (Z.of_nat (List.length (r :: rs)))) = false)
      by reflexivity.
    rewrite Hz. rewrite exec_bind. unfold js_map_id.
    rewrite (map_id_total _ Hall). cbn [bind exec map].
    apply (getWorkItems_fetch self _ _ project w2 w3 w4 data2 v Hc2 Hs2 Hd2).
  - pose proof (run_getClient_sent env net self w) as Hsent1.
    rewrite Hc1 in Hsent1. cbn in Hsent1.
    pose proof (run_getClient_sent env net self w2) as Hsent2.
    rewrite Hc2 in Hsent2. cbn in Hsent2.
    unfold run_send in Hs1, Hs2.
    destruct (axiosInstance w1) as [a1|]; [|discriminate].
    destruct (rest_service net _ _) as [ans1 t1] in Hs1. injection Hs1 as _ <-.
    destruct (axiosInstance w3) as [a3|]; [|discriminate].
    destruct (rest_service net _ _) as [ans2 t2] in Hs2. injection Hs2 as _ <-.
    do 2 eexists. cbn [sent log_request] in *.
    rewrite Hsent2. cbn [sent log_request]. rewrite Hsent1, <- app_assoc. cbn [app].
    repeat split.
Qed.

Lemma forgiving_error self k x w w1 w2 e :
  run_getClient env net self w = (Ok tt, w1) ->
  run_send net GET (forgiving_url k x) VUndefined w1 = (Thrown e, w2) ->
  exec env net (forgiving_method self k x) w
  = (if status_is_404 e then Ok (VArr []) else Thrown e, w2).
Proof.
  intros Hc Hs.
  destruct k; cbn [forgiving_method forgiving_url] in *;
    unfold getPipelines, getIterations, getAreas, getBoards, getWorkItemComments,
           getTestPlans, getAdvancedSecurityAlerts, alerts_url in *;
    cbv zeta in *;
    rewrite exec_bind, exec_getClient, Hc;
    rewrite exec_try_catch, exec_bind, exec_client_get, Hs;
    unfold empty_on_404; now destruct (status_is_404 e).
Qed.

Variable CallTool_rest : AzureDevOpsClient -> string -> value -> prog CallToolResult.

(** X12.  Each of the seven methods whose [catch] forgives a 404
    ([getPipelines], [getIterations], [getAreas], [getBoards],
    [getWorkItemComments], [getTestPlans], [getAdvancedSecurityAlerts]),
    when the client is obtained and the GET fails with [e].  If the
    status of [e] is 404 the method answers the empty array, and the
    CallTool handler of index.ts reports a success holding the empty
    array; if [e] has another status, or none, the method raises [e]
    again as it is, and the handler reports an [isError] result with
    the message of [e]. *)
Theorem forgiving_methods_on_error self k args cases w w1 w2 e :
  run_getClient env net self w = (Ok tt, w1) ->
  run_send net GET (forgiving_url k (CallTool_arguments args)) VUndefined w1
  = (Thrown e, w2) ->
  mem (forgiving_tool k) cases = true ->
  (response_status e = Some 404 ->
   exec env net (forgiving_method self k (CallTool_arguments args)) w
   = (Ok (VArr []), w2)
   /\ exec env net (CallTool_handler JSON_stringify
                      (CallTool_more JSON_stringify CallTool_rest)
                      cases self (forgiving_tool k) args) w
      = (Ok (mkCallToolResult (JSON_stringify (VArr [])) false), w2))
  /\ (response_status e <> Some 404 ->
      exec env net (forgiving_method self k (CallTool_arguments args)) w
      = (Thrown e, w2)
      /\ exec env net (CallTool_handler JSON_stringify
                         (CallTool_more JSON_stringify CallTool_rest)
                         cases self (forgiving_tool k) args) w
         = (Ok (mkCallToolResult (VStr ("Error: " ++ message e)) true), w2)).
Proof.
  intros Hc Hs Hmem.
  pose proof (forgiving_error self k (CallTool_arguments args) w w1 w2 e Hc Hs) as Hm.
  assert (Hcase : CallTool_case JSON_stringify (CallTool_more JSON_stringify CallTool_rest)
                    self (forgiving_tool k) args
                  = (v <- forgiving_method self k (CallTool_arguments args) ;;
                     Ret (text_content JSON_stringify v)))
    by (destruct k; reflexivity).
  pose proof (handler_wraps env net JSON_stringify
                (CallTool_more JSON_stringify CallTool_rest) cases self
                (forgiving_tool k) args
                (forgiving_method self k (CallTool_arguments args)) w Hmem Hcase) as Hh.
  split; intros Hstatus.
  - rewrite (Encoding.status_is_404_true e Hstatus) in Hm.
    split; [exact Hm|]. rewrite Hh, Hm. reflexivity.
  - rewrite (Encoding.status_is_404_false e Hstatus) in Hm.
    split; [exact Hm|]. rewrite Hh, Hm. reflexivity.
Qed.

(** X13.  The same seven methods when the GET succeeds: six of them
    answer the list field of the reply, or the empty array when the
    field is missing or falsy, so never a falsy value; [getTestPlans]
    answers the field as it is, [undefined] included. *)
Theorem forgiving_methods_on_success self k x w w1 w2 data v :
  run_getClient env net self w = (Ok tt, w1) ->
  run_send net GET (forgiving_url k x) VUndefined w1 = (Ok data, w2) ->
  read_prop data (forgiving_field k) = Some v ->
  exec env net (forgiving_method self k x) w
  = (Ok (if forgiving_defaults k then js_or v (VArr []) else v), w2)
  /\ (forgiving_defaults k = true -> truthy (js_or v (VArr [])) = true).
Proof.
  intros Hc Hs Hd. split.
  - destruct k; cbn [forgiving_method forgiving_url forgiving_field forgiving_defaults] in *;
      unfold getPipelines, getIterations, getAreas, getBoards, getWorkItemComments,
             getTestPlans, getAdvancedSecurityAlerts, alerts_url in *;
      cbv zeta in *;
      rewrite exec_bind, exec_getClient, Hc;
      rewrite exec_try_catch, exec_bind, exec_client_get, Hs;
      try rewrite exec_bind; rewrite exec_get_prop, Hd; reflexivity.
  - intros _. unfold js_or. now destruct (truthy v) eqn:Hv.
Qed.

Lemma my_work_items_wiql_text assignedToMe uniqueName project :
  (if truthy (default_param (VBool true) assignedToMe)
   then "SELECT [System.Id] FROM WorkItems WHERE [System.AssignedTo] = '"
        ++ to_string uniqueName ++ "' AND [System.TeamProject] = '"
        ++ to_string project ++ "'"
   else "SELECT [System.Id] FROM WorkItems WHERE [System.CreatedBy] = '"
        ++ to_string uniqueName ++ "' AND [System.TeamProject] = '"
        ++ to_string project ++ "'")
  = my_work_items_wiql assignedToMe uniqueName project.
Proof.
  unfold my_work_items_wiql.
  now destruct (truthy (default_param (VBool true) assignedToMe)).
Qed.

(** X14.  [getMyWorkItems] first asks the connection data for the
    current user.  When the reply has no authenticated user, it raises
    a TypeError on reading [uniqueName] with that GET as its only
    request, and posts no query.  Otherwise it posts the WIQL text built
    from the user's [uniqueName] and the project, filtering on
    [AssignedTo] unless [assignedToMe] is given and falsy, in which case
    on [CreatedBy]; when the query matches nothing it answers the empty
    array. *)
Theorem getMyWorkItems_flow self project assignedToMe w w1 w2 w3 data user :
  run_getClient env net self w = (Ok tt, w1) ->
  run_getClient env net self w1 = (Ok tt, w2) ->
  run_send net GET "/_apis/connectionData" VUndefined w2 = (Ok data, w3) ->
  read_prop data "authenticatedUser" = Some user ->
  (nullish user = true ->
   exec env net (getMyWorkItems self project assignedToMe) w
   = (Thrown (type_error_read (to_string user) "uniqueName"), w3)
   /\ exists req, sent w3 = (sent w ++ [req])%list
                  /\ req_method req = GET /\ req_url req = "/_apis/connectionData")
  /\ (forall uniqueName w4 w5 data' refs,
        read_prop user "uniqueName" = Some uniqueName ->
        run_getClient env net self w3 = (Ok tt, w4) ->
        run_send net POST (wiql_url project)
          (VObj [("query", VStr (my_work_items_wiql assignedToMe uniqueName project))]) w4
        = (Ok data', w5) ->
        read_prop data' "workItems" = Some refs ->
        refs = VArr [] \/ truthy refs = false ->
        exec env net (getMyWorkItems self project assignedToMe) w = (Ok (VArr []), w5)).
Proof.
  intros Hc1 Hc2 Hs Hu.
  assert (Huser : exec env net (getCurrentUser self) w1 = (Ok user, w3)).
  { unfold getCurrentUser. rewrite exec_bind, exec_getClient, Hc2.
    rewrite exec_bind, exec_client_get, Hs. now rewrite exec_get_prop, Hu. }
  split.
  - intros Hnull. split.
    + unfold getMyWorkItems. cbv zeta.
      rewrite exec_bind, exec_getClient, Hc1. rewrite exec_bind, Huser.
      rewrite exec_bind, exec_get_prop. now rewrite (read_prop_nullish _ _ Hnull).
    + destruct (run_send_ok_sent net _ _ _ _ _ _ Hs) as (req & Hreq & Hm & Hurl).
      exists req. repeat split; auto.
      pose proof (run_getClient_sent env net self w) as H1. rewrite Hc1 in H1.
      pose proof (run_getClient_sent env net self w1) as H2. rewrite Hc2 in H2.
      cbn in H1, H2. now rewrite Hreq, H2, H1.
  - intros uniqueName w4 w5 data' refs Hn Hc3 Hpost Hrefs Hempty.
    unfold getMyWorkItems. cbv zeta.
    rewrite exec_bind, exec_getClient, Hc1. rewrite exec_bind, Huser.
    rewrite exec_bind, exec_get_prop, Hn.
    rewrite my_work_items_wiql_text.
    apply (queryWorkItems_empty env net self _ project w3 w4 w5 data' refs
             Hc3 Hpost Hrefs Hempty).
Qed.

Lemma pull_request_fields_total pr :
  nullish pr = false -> pull_request_fields pr = Ret (pull_request_view pr).
Proof.
  intros H. unfold pull_request_fields, pull_request_view, get_prop.
  rewrite !(read_prop_opt pr _ H). reflexivity.
Qed.

Lemma map_pull_requests_total l :
  forallb (fun pr => negb (nullish pr)) l = true ->
  map_pull_requests l = Ret (map pull_request_view l).
Proof.
  induction l as [|pr rest IH]; intros Hall; [reflexivity|].
  cbn [forallb] in Hall. apply andb_prop in Hall as (Hpr & Hrest).
  cbn [map_pull_requests map].
  rewrite (pull_request_fields_total pr) by now destruct (nullish pr).
  cbn [bind]. now rewrite (IH Hrest).
Qed.

(** X15.  [getPullRequestById] when the GET succeeds: it answers an
    object of exactly ten fields, in a fixed order, each read from the
    reply ([undefined] where the reply lacks it), and drops anything
    else the reply holds; on a reply that is [null] or [undefined] it
    raises a TypeError. *)
Theorem getPullRequestById_on_success self project repositoryId pullRequestId
  w w1 w2 data :
  run_getClient env net self w = (Ok tt, w1) ->
  run_send net GET (pull_request_url project repositoryId pullRequestId) VUndefined w1
  = (Ok data, w2) ->
  exec env net (getPullRequestById self project repositoryId pullRequestId) w
  = (if nullish data
     then Thrown (type_error_read (to_string data) "pullRequestId")
     else Ok (pull_request_view data), w2)
  /\ map fst (match pull_request_view data with VObj fs => fs | _ => [] end)
     = ["pullRequestId"; "repository"; "title"; "description"; "createdBy";
        "creationDate"; "status"; "sourceRefName"; "targetRefName"; "isDraft"].
Proof.
  intros Hc Hs. split; [|reflexivity].
  change (getPullRequestById self project repositoryId pullRequestId)
    with (_ <- getClient self ;;
          pr <- client_get (pull_request_url project repositoryId pullRequestId) ;;
          pull_request_fields pr).
  rewrite exec_bind, exec_getClient, Hc. rewrite exec_bind, exec_client_get, Hs.
  destruct (nullish data) eqn:Hn.
  - unfold pull_request_fields. rewrite exec_bind, exec_get_prop.
    now rewrite (read_prop_nullish _ _ Hn).
  - now rewrite (pull_request_fields_total data Hn).
Qed.

(** X16.  [getPullRequests] when the GET succeeds with an array none of
    whose entries is [null] or [undefined]: it answers an array of the
    same length, whose entries are the ten-field views of the entries
    of the reply, in the same order.  The URL asks for 100 entries of
    status [active] when [top] and [status] are [undefined], and names
    the repository only when [repositoryId] is truthy. *)
Theorem getPullRequests_on_success self project repositoryId top status
  w w1 w2 data l :
  run_getClient env net self w = (Ok tt, w1) ->
  run_send net GET (pull_requests_url project repositoryId top status) VUndefined w1
  = (Ok data, w2) ->
  read_prop data "value" = Some (VArr l) ->
  forallb (fun pr => negb (nullish pr)) l = true ->
  exec env net (getPullRequests self project repositoryId top status) w
  = (Ok (VArr (map pull_request_view l)), w2)
  /\ List.length (map pull_request_view l) = List.length l.
Proof.
  intros Hc Hs Hd Hall. split; [|apply length_map].
  unfold getPullRequests. cbv zeta.
  rewrite exec_bind, exec_getClient, Hc.
  rewrite exec_bind, exec_client_get.
  unfold pull_requests_url in Hs. cbv zeta in Hs. rewrite Hs. rewrite exec_bind, exec_get_prop, Hd.
  rewrite exec_bind, (map_pull_requests_total l Hall). reflexivity.
Qed.

Variable executeTool_other : AzureDevOpsClient -> string -> value -> prog value.

(** X17.  A call without an arguments object ([undefined] or [null]).
    In functions/mcp.ts, each of the six modelled tools raises a
    TypeError on the first property it reads of [args], so the
    [executeTool] endpoint answers status 500 and leaves the world as it
    was.  In index.ts the handler reads with [?.]: [list_team_members]
    goes on with both parameters [undefined] and sends its GET with the
    text [undefined] in place of the project and of the team. *)
Theorem call_without_arguments self args :
  nullish args = true ->
  (forall n key,
      In (n, key) first_argument_read ->
      executeToolInternal executeTool_other self (VStr n) args
      = Throw (type_error_read (to_string args) key)
      /\ forall w, azureClient w = Some self ->
           exec env net (executeTool_handler executeTool_other n (inr args)) w
           = (Ok (mkHttpResponse 500
                    (ToolFailure (message (type_error_read (to_string args) key)))), w))
  /\ (forall cases w w1 w2 data v,
        mem "list_team_members" cases = true ->
        run_getClient env net self w = (Ok tt, w1) ->
        run_send net GET "/_apis/projects/undefined/teams/undefined/members?api-version=7.1"
          VUndefined w1 = (Ok data, w2) ->
        read_prop data "value" = Some v ->
        exec env net (CallTool_handler JSON_stringify CallTool_other cases self
                        "list_team_members" args) w
        = (Ok (mkCallToolResult (JSON_stringify (js_or v (VArr []))) false), w2)).
Proof.
  intros Hnull. split.
  - intros n key Hin.
    assert (Hthrow : executeToolInternal executeTool_other self (VStr n) args
                     = Throw (type_error_read (to_string args) key)).
    { cbn [first_argument_read In] in Hin.
      destruct Hin as [H|[H|[H|[H|[H|[H|[]]]]]]]; injection H as <- <-;
        destruct args; try discriminate; reflexivity. }
    split; [exact Hthrow|]. intros w Hself.
    unfold executeTool_handler.
    rewrite exec_try_catch, exec_bind. cbn [lift_parsed exec].
    rewrite exec_bind. unfold mcp_getClient. cbn [exec].
    unfold run_singleton. rewrite Hself. cbn [exec].
    rewrite exec_bind, Hthrow. reflexivity.
  - intros cases w w1 w2 data v Hmem Hc Hs Hd.
    assert (Hargs : opt_prop args "project" = VUndefined /\ opt_prop args "team" = VUndefined).
    { unfold opt_prop. now rewrite !(read_prop_nullish _ _ Hnull). }
    destruct Hargs as (Hp & Ht).
    rewrite (handler_wraps env net JSON_stringify CallTool_other cases self
               "list_team_members" args
               (getTeamMembers self (opt_prop args "project") (opt_prop args "team"))
               w Hmem eq_refl).
    rewrite Hp, Ht. unfold getTeamMembers. cbv zeta.
    rewrite exec_bind, exec_getClient, Hc.
    rewrite exec_try_catch, exec_bind, exec_client_get.
    cbn [to_string append]. rewrite Hs.
    rewrite exec_bind, exec_get_prop, Hd. reflexivity.
Qed.

End Methods.

End BackendMore.

(* ================================================================== *)
(** * Further properties of the endpoints and of the constructor *)
(* ================================================================== *)

Module EndpointsMore.

Import Dispatching.

Lemma is_key_true o k : is_key o k = true -> o = Some k.
Proof.
  destruct o as [s|]; cbn; [|discriminate].
  intros H. apply String.eqb_eq in H. now subst.
Qed.

Lemma or_else_some a b k :
  or_else a b = Some k -> a = Some k \/ b = Some k.
Proof.
  unfold or_else. destruct a as [s|]; [|now right].
  destruct (s =? "")%string; [now right|now left].
Qed.

(** An accepted request, when a key is configured, presents that key in
    the [x-api-key] header, in the [authorization] header once the
    first [Bearer ] is cut out, or in the [code] or [key] query
    parameter. *)
Lemma validateApiKey_sound k request :
  (k =? "")%string = false ->
  validateApiKey (Some k) request = true -> presents_key request k.
Proof.
  intros Hk. unfold validateApiKey, presents_key. rewrite Hk.
  destruct (is_key (or_else (header_x_api_key request)
                      (option_map (remove_first "Bearer ") (header_authorization request)))
                   k) eqn:Hh.
  - intros _. apply is_key_true in Hh. apply or_else_some in Hh as [H|H]; [now left|].
    right. left. destruct (header_authorization request) as [auth|]; [|discriminate].
    cbn in H. injection H as H. now exists auth.
  - intros Hq. apply is_key_true in Hq. apply or_else_some in Hq as [H|H]; auto.
Qed.

(** X18.  [validateApiKey].  Without a configured key, or with an empty
    one, every request is accepted.  With a key [k]: a request is
    accepted when [x-api-key] is [k]; when [x-api-key] is absent or
    empty and [authorization] is [Bearer ] followed by [k]; and, when
    the headers do not give [k], when [code] is [k] or when [code] is
    absent or empty and [key] is [k].  But a wrong, non-empty
    [x-api-key] hides a right [authorization] header, and a wrong,
    non-empty [code] hides a right [key]. *)
Theorem validateApiKey_channels k wrong request :
  (k =? "")%string = false ->
  (wrong =? "")%string = false -> (wrong =? k)%string = false ->
  validateApiKey None request = true
  /\ validateApiKey (Some "") request = true
  /\ (header_x_api_key request = Some k -> validateApiKey (Some k) request = true)
  /\ (or_else (header_x_api_key request) None = None ->
      header_authorization request = Some ("Bearer " ++ k) ->
      validateApiKey (Some k) request = true)
  /\ (query_code request = Some k -> validateApiKey (Some k) request = true)
  /\ (or_else (query_code request) None = None -> query_key request = Some k ->
      validateApiKey (Some k) request = true)
  /\ validateApiKey (Some k)
       (mkHttpRequest (Some wrong) (Some ("Bearer " ++ k)) None None) = false
  /\ validateApiKey (Some k) (mkHttpRequest None None (Some wrong) (Some k)) = false.
Proof.
  intros Hk Hw Hwk.
  assert (Hkk : (k =? k)%string = true) by apply String.eqb_refl.
  split; [reflexivity|]. split; [reflexivity|].
  unfold validateApiKey. rewrite Hk.
  split; [|split; [|split; [|split; [|split]]]].
  - intros Hx. unfold or_else. rewrite Hx, Hk. cbn. now rewrite Hkk.
  - intros Hx Ha. unfold or_else in *. rewrite Ha.
    destruct (header_x_api_key request) as [x|].
    + destruct (x =? "")%string; [|discriminate]. cbn. now rewrite Hkk.
    + cbn. now rewrite Hkk.
  - intros Hc. destruct (is_key _ k); [reflexivity|].
    unfold or_else. rewrite Hc, Hk. cbn. exact Hkk.
  - intros Hc Hq. destruct (is_key _ k); [reflexivity|].
    unfold or_else in *. rewrite Hq.
    destruct (query_code request) as [c|].
    + destruct (c =? "")%string; [|discriminate]. cbn. exact Hkk.
    + cbn. exact Hkk.
  - cbn. rewrite Hw. cbn. now rewrite Hwk.
  - cbn. rewrite Hw. cbn. exact Hwk.
Qed.

Section Endpoints.

Variable env : process_env.
Variable net : remote.
Variable JSON_stringify : value -> value.
Variable CallTool_other : AzureDevOpsClient -> string -> value -> prog CallToolResult.
Variable executeTool_other : AzureDevOpsClient -> string -> value -> prog value.

(** X19.  The [mcp] endpoint with a key configured: a request that
    presents the key in none of the four places is answered with status
    401 and the JSON-RPC error of code -32000, "Unauthorized: Invalid
    or missing API key", with [id] null, whatever its body, even one
    that does not parse; the client object is not built and nothing is
    sent or asked for. *)
Theorem mcp_endpoint_rejects_without_key k request body w :
  (k =? "")%string = false ->
  ~ presents_key request k ->
  exec env net (mcp_endpoint JSON_stringify executeTool_other (Some k) request body) w
  = (Ok (mkHttpResponse 401
           (RpcError (-32000) "Unauthorized: Invalid or missing API key" VNull)), w).
Proof.
  intros Hk Hno.
  assert (Hv : validateApiKey (Some k) request = false).
  { destruct (validateApiKey (Some k) request) eqn:Hv; [|reflexivity].
    exfalso. apply Hno. now apply validateApiKey_sound. }
  unfold mcp_endpoint, mcp_handler. rewrite Hv. reflexivity.
Qed.

Lemma exec_destructure what v key w :
  exec env net (destructure what v key) w
  = match read_prop v key with
    | Some x => (Ok x, w)
    | None =>
        (Thrown (Error ("Cannot destructure property '" ++ key ++ "' of '" ++ what
                        ++ "' as it is " ++ to_string v ++ ".")), w)
    end.
Proof. unfold destructure. now destruct (read_prop v key). Qed.

(** X20.  The [mcp] endpoint on an accepted request whose body reads
    [method], [params] and [id].  [initialize] and
    [notifications/initialized] are answered 200 with the [id] of the
    request without touching the client object.  Any other method first
    needs the client object: when it cannot be built, the answer is
    status 500 with the constructor's message and [id] null, also for
    [tools/list]; when it can, [tools/list] answers the table of
    [getToolDefinitions], and a method other than [tools/call] answers
    code -32601 with the [id] of the request. *)
Theorem mcp_handler_methods body m params id w :
  read_prop body "method" = Some (VStr m) ->
  read_prop body "params" = Some params ->
  read_prop body "id" = Some id ->
  let answer := exec env net
                  (mcp_handler JSON_stringify executeTool_other true (inr body)) w in
  (m = "initialize" ->
   answer = (Ok (mkHttpResponse 200 (RpcResult InitializeResult id)), w))
  /\ (m = "notifications/initialized" ->
      answer = (Ok (mkHttpResponse 200 (RpcResult EmptyResult id)), w))
  /\ (m <> "initialize" -> m <> "notifications/initialized" ->
      (forall e, run_singleton env w = (Thrown e, w) ->
                 answer = (Ok (mkHttpResponse 500 (RpcError (-32603) (message e) VNull)), w))
      /\ (forall c w1, run_singleton env w = (Ok c, w1) ->
            (m = "tools/list" ->
             answer = (Ok (mkHttpResponse 200
                             (RpcResult (ToolsList getToolDefinitions) id)), w1))
            /\ (m <> "tools/list" -> m <> "tools/call" ->
                answer = (Ok (mkHttpResponse 200
                                (RpcError (-32601) ("Method not found: " ++ m) id)), w1)))).
Proof.
  intros Hm Hp Hi answer. subst answer. unfold mcp_handler. cbn [negb].
  rewrite exec_try_catch, exec_bind. cbn [lift_parsed exec].
  rewrite exec_bind, exec_destructure, Hm.
  rewrite exec_bind, exec_destructure, Hp.
  rewrite exec_bind, exec_destructure, Hi. cbn [str_is].
  split; [|split].
  - intros ->. reflexivity.
  - intros ->. reflexivity.
  - intros H1 H2.
    apply String.eqb_neq in H1. apply String.eqb_neq in H2. rewrite H1, H2.
    rewrite exec_bind. unfold mcp_getClient. cbn [exec]. split.
    + intros e He. rewrite He. reflexivity.
    + intros c w1 Hc. rewrite Hc. cbn [exec]. split.
      * intros ->. reflexivity.
      * intros H3 H4. apply String.eqb_neq in H3. apply String.eqb_neq in H4.
        rewrite H3, H4. reflexivity.
Qed.

(** X21.  The three dispatch boundaries never raise: whatever the tool
    name, the arguments, the body, the state of the world and whatever
    the rest of the catalogue does, the CallTool handler of index.ts
    and the [executeTool] and [mcp] endpoints of functions/mcp.ts end
    with a response (or wait forever on the network), not with an
    exception. *)
Theorem dispatch_boundaries_never_raise w e :
  (forall cases self name args,
      fst (exec env net (CallTool_handler JSON_stringify CallTool_other
                           cases self name args) w) <> Thrown e)
  /\ (forall toolName body,
        fst (exec env net (executeTool_handler executeTool_other toolName body) w)
        <> Thrown e)
  /\ (forall api_key_valid body,
        fst (exec env net (mcp_handler JSON_stringify executeTool_other
                             api_key_valid body) w) <> Thrown e).
Proof.
  split; [|split].
  - intros cases self name args. unfold CallTool_handler. rewrite exec_try_catch.
    destruct (exec env net _ w) as [[a|e0|] w']; cbn; discriminate.
  - intros toolName body. unfold executeTool_handler. rewrite exec_try_catch.
    destruct (exec env net _ w) as [[a|e0|] w']; cbn; discriminate.
  - intros api_key_valid body. unfold mcp_handler.
    destruct api_key_valid; cbn [negb]; [|cbn; discriminate].
    rewrite exec_try_catch.
    destruct (exec env net _ w) as [[a|e0|] w']; cbn; discriminate.
Qed.

End Endpoints.

Lemma segment_no_slash s : no_slash (segment s) = true.
Proof.
  unfold no_slash. induction s as [|c s IH]; [reflexivity|].
  cbn [segment]. destruct (Ascii.eqb c "/") eqn:Hc; [reflexivity|].
  cbn. now rewrite Hc.
Qed.

Lemma match_organization_segment s : forall org,
  match_organization s = Some org ->
  (org =? "")%string = false /\ no_slash org = true.
Proof.
  induction s as [|c s IH]; intros org H; [discriminate|].
  cbn [match_organization] in H.
  destruct (strip_prefix "dev.azure.com/" (String c s)) as [after|].
  - destruct (segment after =? "")%string eqn:He; [now apply IH|].
    injection H as <-. split; [exact He|apply segment_no_slash].
  - now apply IH.
Qed.

(** X22.  When the constructor succeeds, the organization it keeps is
    not empty and holds no slash, so the base URL of the shared
    instance is [https://dev.azure.com/] followed by one path segment;
    when [AZURE_DEVOPS_ORG_URL] is unset or empty the constructor
    raises. *)
Theorem constructor_organization env c :
  new_AzureDevOpsClient env = Ok c ->
  (organization c =? "")%string = false
  /\ no_slash (organization c) = true
  /\ exists url, AZURE_DEVOPS_ORG_URL env = Some url /\ (url =? "")%string = false.
Proof.
  unfold new_AzureDevOpsClient.
  destruct (AZURE_DEVOPS_ORG_URL env) as [url|]; [|discriminate].
  destruct (url =? "")%string eqn:Hu; [discriminate|].
  destruct (match_organization url) as [org|] eqn:Hm; [|discriminate].
  intros H. injection H as <-. cbn.
  destruct (match_organization_segment url org Hm) as (H1 & H2).
  split; [exact H1|]. split; [exact H2|]. now exists url.
Qed.

Lemma segment_app org rest :
  no_slash org = true ->
  rest = "" \/ (exists tl, rest = String "/" tl) ->
  segment (org ++ rest) = org.
Proof.
  unfold no_slash. induction org as [|c org IH]; intros Hns Hrest.
  - cbn. destruct Hrest as [->|(tl & ->)]; reflexivity.
  - cbn in Hns. apply andb_prop in Hns as (Hc & Hns).
    cbn. destruct (Ascii.eqb c "/"); [discriminate|]. now rewrite IH.
Qed.

(** X23.  For an organization name that is not empty and holds no
    slash, the constructor given [https://dev.azure.com/], the name,
    and then nothing or a path that begins with a slash, keeps exactly
    that name. *)
Theorem constructor_extracts_organization pat org rest :
  (org =? "")%string = false ->
  no_slash org = true ->
  rest = "" \/ (exists tl, rest = String "/" tl) ->
  new_AzureDevOpsClient (mkEnv pat (Some ("https://dev.azure.com/" ++ org ++ rest)))
  = Ok (mkClient org).
Proof.
  intros He Hns Hrest. unfold new_AzureDevOpsClient.
  cbn [AZURE_DEVOPS_ORG_URL append String.eqb Ascii.eqb Bool.eqb].
  cbn [match_organization strip_prefix Ascii.eqb Bool.eqb].
  rewrite (segment_app org rest Hns Hrest), He. reflexivity.
Qed.

Lemma list_ascii_app a b :
  list_ascii_of_string (a ++ b) = (list_ascii_of_string a ++ list_ascii_of_string b)%list.
Proof. induction a as [|c a IH]; cbn; [reflexivity|now rewrite IH]. Qed.

Lemma form_byte_safe c :
  forallb form_safe (list_ascii_of_string (form_byte c)) = true.
Proof. destruct c as [[] [] [] [] [] [] [] []]; reflexivity. Qed.

Lemma string_app_assoc (a b c : string) : (a ++ b) ++ c = a ++ b ++ c.
Proof. induction a as [|x a IH]; cbn; [reflexivity|now rewrite IH]. Qed.

Lemma form_urldecode_byte c r :
  form_urldecode (form_byte c ++ r) = option_map (String c) (form_urldecode r).
Proof.
  destruct c as [[] [] [] [] [] [] [] []];
    match goal with
    | |- context [form_byte ?c] =>
        let x := eval vm_compute in (form_byte c) in change (form_byte c) with x
    end;
    cbn; destruct (form_urldecode r); reflexivity.
Qed.

Lemma form_urldecode_urlencode s : form_urldecode (form_urlencode s) = Some s.
Proof.
  induction s as [|c s IH]; [reflexivity|].
  cbn [form_urlencode]. now rewrite form_urldecode_byte, IH.
Qed.

Lemma form_urlencode_safe s :
  forallb form_safe (list_ascii_of_string (form_urlencode s)) = true.
Proof.
  induction s as [|c s IH]; [reflexivity|].
  cbn [form_urlencode]. rewrite list_ascii_app, forallb_app, form_byte_safe. exact IH.
Qed.

(** X24.  [searchIdentities], in either mode.  When the token is
    obtained, it sends one GET outside the shared instance, with
    [Bearer] and that token, to
    [https://vssps.dev.azure.com/<organization>/_apis/identities?api-version=7.1&searchFilter=General&filterValue=]
    followed by the encoded filter; when the token is refused, it
    raises that failure and sends nothing.  The filter cannot leave its
    query parameter: whatever it is, its encoded form holds no [&], [=],
    [#], [?], [/] or space, and reads back to the filter. *)
Theorem searchIdentities_filter_is_confined env net self searchFilter w :
  let encoded := form_urlencode (to_string searchFilter) in
  (forall token w1,
      run_getAccessToken env net w = (Ok token, w1) ->
      sent (snd (exec env net (searchIdentities self searchFilter) w))
      = app (sent w)
            [mkRequest None GET
               ("https://vssps.dev.azure.com/" ++ organization self
                ++ "/_apis/identities?api-version=7.1&searchFilter=General&filterValue="
                ++ encoded)
               ("Bearer " ++ token) VUndefined])
  /\ (forall e w1,
        run_getAccessToken env net w = (Thrown e, w1) ->
        exec env net (searchIdentities self searchFilter) w = (Thrown e, w1)
        /\ sent w1 = sent w)
  /\ (forall c, In c ["&"; "="; "#"; "?"; "/"; " "]%char ->
                ~ In c (list_ascii_of_string encoded))
  /\ form_urldecode encoded = Some (to_string searchFilter).
Proof.
  intros encoded. split; [|split; [|split]].
  - intros token w1 Hrun.
    pose proof (run_getAccessToken_sent env net w) as Hsent. rewrite Hrun in Hsent.
    unfold searchIdentities, getAccessToken_await, axios_get.
    cbn [bind exec]. rewrite Hrun. cbn [bind exec].
    destruct (Modes.run_axios_get_effect net
                (("https://vssps.dev.azure.com/" ++ organization self ++ "/_apis/identities")
                 ++ "?" ++ ("api-version=7.1&searchFilter=General&filterValue=" ++ encoded))
                ("Bearer " ++ token) w1) as (_ & _ & Hs).
    cbn [snd] in Hsent. rewrite Hsent in Hs.
    assert (Hurl : ("https://vssps.dev.azure.com/" ++ organization self ++ "/_apis/identities")
                   ++ "?" ++ ("api-version=7.1&searchFilter=General&filterValue=" ++ encoded)
                   = "https://vssps.dev.azure.com/" ++ organization self
                     ++ "/_apis/identities?api-version=7.1&searchFilter=General&filterValue="
                     ++ encoded).
    { now rewrite !string_app_assoc. }
    rewrite <- Hurl.
    destruct (run_axios_get net _ _ w1) as [[v|e|] w2]; cbn in Hs |- *; exact Hs.
  - intros e w1 Hrun.
    pose proof (run_getAccessToken_sent env net w) as Hsent. rewrite Hrun in Hsent.
    unfold searchIdentities, getAccessToken_await.
    cbn [bind exec]. rewrite Hrun. split; [reflexivity | exact Hsent].
  - intros c Hc Hin.
    pose proof (form_urlencode_safe (to_string searchFilter)) as Hsafe.
    rewrite forallb_forall in Hsafe. specialize (Hsafe c Hin).
    cbn in Hc.
    destruct Hc as [<-|[<-|[<-|[<-|[<-|[<-|[]]]]]]]; discriminate Hsafe.
  - apply form_urldecode_urlencode.
Qed.

(** X25.  The tables.  In each of the three listings the names are
    pairwise distinct, so a name has one entry; so are the [case]
    labels of each dispatcher.  In index.ts the listed names are
    exactly the [case] labels, in the same order, for both listings.
    In functions/mcp.ts every name the [tools] endpoint answers has an
    entry in [getToolDefinitions] and a [case] in
    [executeToolInternal]. *)
Theorem tables_are_consistent :
  distinct (map name tools) = true
  /\ distinct (map name tools_extended) = true
  /\ distinct (map name getToolDefinitions) = true
  /\ distinct executeToolInternal_cases = true
  /\ map name tools = CallTool_cases
  /\ map name tools_extended = CallTool_cases_extended
  /\ forallb (fun n => mem n (map name getToolDefinitions)
                       && mem n executeToolInternal_cases) tools_endpoint_names = true.
Proof. repeat split; vm_compute; reflexivity. Qed.

End EndpointsMore.

(* ================================================================== *)
(** * Instances of the further properties *)
(* ================================================================== *)

Module MoreInstances.

Import Credential Modes Dispatching CredentialMore ClientMore BackendMore EndpointsMore.

(** Numbers in a template literal: plain digits up to 21 of them, the
    shortest digits that denote the same double, exponent form
    beyond. *)
Example numbers_in_text :
  map Number_toString
      [0; -7; 100; 9007199254740992; 9007199254740993; 1152921504606846976;
       999999999999999999999; 1000000000000000000000;
       123456789012345678901234567890; -2000000000000000000000000]
  = ["0"; "-7"; "100"; "9007199254740992"; "9007199254740992"; "1152921504606847000";
     "1e+21"; "1e+21"; "1.2345678901234568e+29"; "-2e+24"].
Proof. vm_compute. reflexivity. Qed.

Lemma delivered_token_reuse_witness :
  getAccessToken env_interactive 1000 (complete_request (GotToken token_5000000) 900 requested)
  = (Resolved "tok", complete_request (GotToken token_5000000) 900 requested).
Proof.
  destruct (delivered_token_reuse env_interactive requested 0 token_5000000 900 1000)
    as (_ & H & _); [reflexivity | reflexivity | now vm_compute | now vm_compute |].
  apply H. now vm_compute.
Defined.

Lemma out_of_range_expiry_never_reused_witness :
  cachedToken (complete_request (GotToken token_far) 900 requested)
  = Some (mkCache "tok" None)
  /\ fst (getAccessToken env_interactive 1000
            (complete_request (GotToken token_far) 900 requested))
     = Awaiting 1.
Proof.
  destruct (out_of_range_expiry_never_reused env_interactive requested 0 token_far 900)
    as (_ & H1 & H2).
  - reflexivity.
  - intros p Hp. injection Hp as <-. reflexivity.
  - reflexivity.
  - now vm_compute.
  - split; [exact H1|]. rewrite (H2 1000). reflexivity.
Defined.

Lemma getClient_header_is_cached_token_witness :
  exists c a,
    cachedToken (cred (snd (run_getClient env_interactive net_token contoso world0))) = Some c
    /\ axiosInstance (snd (run_getClient env_interactive net_token contoso world0)) = Some a
    /\ authorization a = "Bearer " ++ token c
    /\ initialized (snd (run_getClient env_interactive net_token contoso world0)) = true.
Proof.
  apply (getClient_header_is_cached_token env_interactive net_token eq_refl contoso world0).
  - intros p Hp. discriminate Hp.
  - reflexivity.
Defined.

Lemma getClient_first_use_witness :
  axiosInstance (snd (run_getClient env_interactive net_token contoso world0))
  = Some (mkAxios "https://dev.azure.com/contoso" "Bearer tok")
  /\ getToken_calls (cred (snd (run_getClient env_interactive net_token contoso world0)))
     = [AZURE_DEVOPS_SCOPE].
Proof.
  destruct (getClient_first_use env_interactive net_token eq_refl contoso world0
              token_5000000 900) as (_ & H1 & H2 & _);
    [reflexivity | reflexivity | reflexivity | reflexivity | now vm_compute | now vm_compute | now vm_compute |].
  split; [exact H2 | exact H1].
Defined.

Lemma getClient_exchange_failure_witness :
  exists e w1,
    run_getClient env_interactive net_404 contoso world0 = (Thrown e, w1)
    /\ axiosInstance w1 = None /\ sent w1 = [].
Proof.
  destruct (getClient_exchange_failure env_interactive net_404 eq_refl contoso world0
              GotNull 0) as (e & w1 & _ & H1 & H2 & _ & _ & H3 & _);
    [reflexivity | reflexivity | reflexivity | reflexivity | reflexivity |].
  exists e, w1. repeat split; assumption.
Defined.

Lemma getClient_stale_token_second_exchange_witness :
  getToken_calls (cred (snd (run_getClient env_interactive net_short_lived contoso world0)))
  = [AZURE_DEVOPS_SCOPE; AZURE_DEVOPS_SCOPE].
Proof.
  apply (getClient_stale_token_second_exchange env_interactive net_short_lived eq_refl
           contoso world0 (mkAccessToken "tok" 1000) 900);
    [reflexivity | reflexivity | reflexivity | reflexivity | now vm_compute | now vm_compute | now vm_compute].
Defined.

Lemma getWorkItems_without_ids_witness :
  exec env_static net_404
    (CallTool_handler stringify_stub no_other_tool CallTool_cases contoso
       "get_work_items_by_ids" (VObj [])) world0
  = (Ok (mkCallToolResult
           (VStr "Error: Cannot read properties of undefined (reading 'length')") true),
     world0).
Proof.
  destruct (getWorkItems_without_ids env_static net_404 stringify_stub no_other_tool
              contoso CallTool_cases (VObj []) world0) as (_ & H);
    [reflexivity | reflexivity |].
  exact H.
Defined.

Lemma getWorkItems_batch_fetch_witness :
  fst (exec env_static net_items
         (getWorkItems contoso (VArr [VNum 1; VNum 1000000000000000000000])
            (VStr "Fabrikam")) world0)
  = Ok (VArr [item_1])
  /\ map req_url
       (sent (snd (exec env_static net_items
                     (getWorkItems contoso (VArr [VNum 1; VNum 1000000000000000000000])
                        (VStr "Fabrikam")) world0)))
     = ["/Fabrikam/_apis/wit/workitems?ids=1,1e+21&api-version=7.1"].
Proof.
  destruct (getWorkItems_batch_fetch env_static net_items contoso (VNum 1)
              [VNum 1000000000000000000000]
              (VStr "Fabrikam") world0
              (snd (run_getClient env_static net_items contoso world0))
              (snd (run_send net_items GET
                      (workitems_url (VStr "Fabrikam")
                         (to_string (VArr [VNum 1; VNum 1000000000000000000000])))
                      VUndefined
                      (snd (run_getClient env_static net_items contoso world0))))
              (VObj [("count", VNum 1); ("value", VArr [item_1])]) (VArr [item_1]))
    as (H & _); [reflexivity | reflexivity | reflexivity |].
  rewrite H. split; reflexivity.
Defined.

Lemma queryWorkItems_two_stage_witness :
  fst (exec env_static net_items
         (queryWorkItems contoso (VStr "SELECT [System.Id] FROM WorkItems") (VStr "Fabrikam"))
         world0)
  = Ok (VArr [item_1])
  /\ map req_method
       (sent (snd (exec env_static net_items
                     (queryWorkItems contoso (VStr "SELECT [System.Id] FROM WorkItems")
                        (VStr "Fabrikam")) world0)))
     = [POST; GET].
Proof.
  pose (w1 := snd (run_getClient env_static net_items contoso world0)).
  pose (w2 := snd (run_send net_items POST (wiql_url (VStr "Fabrikam"))
                     (VObj [("query", VStr "SELECT [System.Id] FROM WorkItems")]) w1)).
  pose (w3 := snd (run_getClient env_static net_items contoso w2)).
  pose (w4 := snd (run_send net_items GET
                     (workitems_url (VStr "Fabrikam")
                        (to_string (VArr [VNum 1; VNum 2]))) VUndefined w3)).
  destruct (queryWorkItems_two_stage env_static net_items contoso
              (VStr "SELECT [System.Id] FROM WorkItems") (VStr "Fabrikam")
              world0 w1 w2 w3 w4
              (VObj [("workItems", VArr [item_1; item_2])]) item_1 [item_2]
              (VObj [("count", VNum 1); ("value", VArr [item_1])]) (VArr [item_1]))
    as (H & _);
    [reflexivity | reflexivity | reflexivity | reflexivity | reflexivity | reflexivity
     | reflexivity |].
  rewrite H. split; reflexivity.
Defined.

Lemma forgiving_methods_on_error_witness :
  fst (exec env_static net_404 (getPipelines contoso (VStr "Fabrikam")) world0)
  = Ok (VArr [])
  /\ fst (exec env_static net_404
            (CallTool_handler stringify_stub (CallTool_more stringify_stub no_other_tool)
               CallTool_cases contoso "list_pipelines" member_args) world0)
     = Ok (mkCallToolResult (VStr "") false).
Proof.
  destruct (forgiving_methods_on_error env_static net_404 stringify_stub no_other_tool
              contoso FPipelines member_args CallTool_cases world0 with_client
              (snd (run_send net_404 GET
                      (forgiving_url FPipelines (CallTool_arguments member_args))
                      VUndefined with_client))
              not_found eq_refl eq_refl eq_refl) as (H & _).
  destruct (H eq_refl) as (H1 & H2).
  split.
  - exact (f_equal fst H1).
  - exact (f_equal fst H2).
Defined.

Lemma forgiving_methods_on_success_witness :
  fst (exec env_static net_items (getPipelines contoso (VStr "Fabrikam")) world0)
  = Ok (VArr [item_1]).
Proof.
  destruct (forgiving_methods_on_success env_static net_items contoso FPipelines
              (CallTool_arguments member_args) world0
              (snd (run_getClient env_static net_items contoso world0))
              (snd (run_send net_items GET
                      (forgiving_url FPipelines (CallTool_arguments member_args))
                      VUndefined
                      (snd (run_getClient env_static net_items contoso world0))))
              (VObj [("count", VNum 1); ("value", VArr [item_1])]) (VArr [item_1])
              eq_refl eq_refl eq_refl) as (H & _).
  exact (f_equal fst H).
Defined.

Lemma getMyWorkItems_flow_witness :
  fst (exec env_static net_user
         (getMyWorkItems contoso (VStr "Fabrikam") VUndefined) world0)
  = Ok (VArr [])
  /\ map req_method
       (sent (snd (exec env_static net_user
                     (getMyWorkItems contoso (VStr "Fabrikam") VUndefined) world0)))
     = [GET; POST].
Proof.
  pose (w1 := snd (run_getClient env_static net_user contoso world0)).
  pose (w2 := snd (run_getClient env_static net_user contoso w1)).
  pose (w3 := snd (run_send net_user GET "/_apis/connectionData" VUndefined w2)).
  pose (w4 := snd (run_getClient env_static net_user contoso w3)).
  pose (q := VObj [("query",
                    VStr (my_work_items_wiql VUndefined (VStr "ann@contoso.com")
                            (VStr "Fabrikam")))]).
  pose (w5 := snd (run_send net_user POST (wiql_url (VStr "Fabrikam")) q w4)).
  destruct (getMyWorkItems_flow env_static net_user contoso (VStr "Fabrikam") VUndefined
              world0 w1 w2 w3 (VObj [("authenticatedUser", ann)]) ann
              eq_refl eq_refl eq_refl eq_refl) as (_ & H).
  specialize (H (VStr "ann@contoso.com") w4 w5 (VObj [("workItems", VArr [])]) (VArr [])
                eq_refl eq_refl eq_refl eq_refl (or_introl eq_refl)).
  rewrite H. split; reflexivity.
Defined.

Lemma getPullRequestById_on_success_witness :
  fst (exec env_static net_items
         (getPullRequestById contoso (VStr "Fabrikam") (VStr "repo") (VNum 7)) world0)
  = Ok (pull_request_view (VObj [("count", VNum 1); ("value", VArr [item_1])])).
Proof.
  destruct (getPullRequestById_on_success env_static net_items contoso
              (VStr "Fabrikam") (VStr "repo") (VNum 7) world0
              (snd (run_getClient env_static net_items contoso world0))
              (snd (run_send net_items GET
                      (pull_request_url (VStr "Fabrikam") (VStr "repo") (VNum 7))
                      VUndefined
                      (snd (run_getClient env_static net_items contoso world0))))
              (VObj [("count", VNum 1); ("value", VArr [item_1])])
              eq_refl eq_refl) as (H & _).
  exact (f_equal fst H).
Defined.

Lemma getPullRequests_on_success_witness :
  fst (exec env_static net_items
         (getPullRequests contoso (VStr "Fabrikam") (VStr "repo") (VNum 100) (VStr "active"))
         world0)
  = Ok (VArr [pull_request_view item_1]).
Proof.
  destruct (getPullRequests_on_success env_static net_items contoso
              (VStr "Fabrikam") (VStr "repo") (VNum 100) (VStr "active") world0
              (snd (run_getClient env_static net_items contoso world0))
              (snd (run_send net_items GET
                      (pull_requests_url (VStr "Fabrikam") (VStr "repo") (VNum 100)
                         (VStr "active"))
                      VUndefined
                      (snd (run_getClient env_static net_items contoso world0))))
              (VObj [("count", VNum 1); ("value", VArr [item_1])]) [item_1]
              eq_refl eq_refl eq_refl eq_refl) as (H & _).
  exact (f_equal fst H).
Defined.

Lemma call_without_arguments_witness :
  exec env_static net_404
    (executeTool_handler no_other_method "query_work_items" (inr VUndefined))
    (set_singleton world0 contoso)
  = (Ok (mkHttpResponse 500
           (ToolFailure "Cannot read properties of undefined (reading 'wiql')")),
     set_singleton world0 contoso).
Proof.
  destruct (call_without_arguments env_static net_404 stringify_stub no_other_tool
              no_other_method contoso VUndefined eq_refl) as (H & _).
  destruct (H "query_work_items" "wiql") as (_ & H2).
  - right. left. reflexivity.
  - exact (H2 (set_singleton world0 contoso) eq_refl).
Defined.

Lemma validateApiKey_channels_witness :
  validateApiKey (Some "k1") (mkHttpRequest (Some "zz") (Some "Bearer k1") None None) = false
  /\ validateApiKey (Some "k1") (mkHttpRequest None (Some "Bearer k1") None None) = true.
Proof.
  destruct (validateApiKey_channels "k1" "zz"
              (mkHttpRequest None (Some "Bearer k1") None None) eq_refl eq_refl eq_refl)
    as (_ & _ & _ & H1 & _ & _ & H2 & _).
  split; [exact H2 | exact (H1 eq_refl eq_refl)].
Defined.

Lemma mcp_endpoint_rejects_without_key_witness :
  exec env_static net_404
    (mcp_endpoint stringify_stub no_other_method (Some "k1") no_key (inr call_body)) world0
  = (Ok (mkHttpResponse 401
           (RpcError (-32000) "Unauthorized: Invalid or missing API key" VNull)), world0).
Proof.
  apply (mcp_endpoint_rejects_without_key env_static net_404 stringify_stub
           no_other_method "k1" no_key (inr call_body) world0).
  - reflexivity.
  - intros [H | [(auth & H & _) | [H | H]]]; discriminate H.
Defined.

Lemma mcp_handler_methods_witness :
  exec env_static net_404
    (mcp_handler stringify_stub no_other_method true (inr initialize_body)) world0
  = (Ok (mkHttpResponse 200 (RpcResult InitializeResult (VNum 1))), world0).
Proof.
  destruct (mcp_handler_methods env_static net_404 stringify_stub no_other_method
              initialize_body "initialize" (VObj []) (VNum 1) world0
              eq_refl eq_refl eq_refl) as (H & _).
  exact (H eq_refl).
Defined.

Lemma constructor_organization_witness :
  no_slash (organization contoso) = true.
Proof.
  destruct (constructor_organization env_static contoso eq_refl) as (_ & H & _).
  exact H.
Defined.

Lemma constructor_extracts_organization_witness :
  new_AzureDevOpsClient
    (mkEnv None (Some "https://dev.azure.com/contoso/Fabrikam/_git/repo"))
  = Ok contoso.
Proof.
  apply (constructor_extracts_organization None "contoso" "/Fabrikam/_git/repo").
  - reflexivity.
  - reflexivity.
  - right. exists "Fabrikam/_git/repo". reflexivity.
Defined.

Lemma searchIdentities_filter_is_confined_witness :
  sent (snd (exec env_interactive net_token (searchIdentities contoso (VStr "a&b=c d"))
               world0))
  = [mkRequest None GET
       "https://vssps.dev.azure.com/contoso/_apis/identities?api-version=7.1&searchFilter=General&filterValue=a%26b%3Dc+d"
       "Bearer tok" VUndefined].
Proof.
  destruct (searchIdentities_filter_is_confined env_interactive net_token contoso
              (VStr "a&b=c d") world0) as (H & _).
  exact (H "tok" (snd (run_getAccessToken env_interactive net_token world0)) eq_refl).
Defined.

End MoreInstances.
